(** * Inventory management console: stock levels and purchase orders

    A shallow embedding of the stock-status, stock-adjustment and
    purchase-order logic of the inventory application, with the properties
    its specification states about them.

    Conventions of the embedding.
    - A TypeScript [number] that holds a count (stock quantity, threshold,
      ordered quantity: the Integer columns of the products table, read
      from the forms with [parseInt]) is a [Z]; where the code adds to a
      count, the sum is the binary64 one ([Js.add_one]).  A [number] that
      holds money (read with [parseFloat]) is a [Q], the exact rational that
      the binary64 value is; the rounding of a product or of a sum of
      amounts is not modelled, so what is stated of the amounts of a form
      is what holds of the binary64 values too: which product or
      left-to-right sum an amount is, and how amounts compare.  The totals
      of an order are those of the aggregate behind the API, where money is
      decimal.  [NaN], which only arises from parsing an input, is the
      [None] of an [option].
    - An optional property ([field?: T]) is an [option]; [undefined] is
      [None].
    - A JavaScript object used as a dictionary ([Record<string, string>])
      is a [gmap string string]; an array is a [list].
    - React state is threaded explicitly: an event handler is a function
      from the state of the render it was created in to the next state. *)

From Stdlib Require Import ZArith QArith Lia Lqa Ascii String.
From Stdlib Require Uint63 PrimFloat.
From stdpp Require Import base gmap strings list pretty.

Open Scope string_scope.
Open Scope list_scope.

(** ** JavaScript helpers *)

Module Js.

(** [s.trim()], on the white space of the ASCII range. *)
Fixpoint trimStart (s : string) : string :=
  match s with
  | "" => ""
  | String c s' => if Ascii.is_space c then trimStart s' else s
  end.

Definition trimEnd (s : string) : string :=
  String.rev (trimStart (String.rev s)).

Definition trim (s : string) : string := trimEnd (trimStart s).

(** Truthiness of a string: only the empty string is falsy. *)
Definition truthy_string (s : string) : bool :=
  if decide (s = "") then false else true.

(** Truthiness of an optional string ([undefined] is falsy). *)
Definition truthy_ostring (s : option string) : bool :=
  match s with Some s => truthy_string s | None => false end.

(** [s || undefined] *)
Definition or_undefined (s : option string) : option string :=
  if truthy_ostring s then s else None.

(** [s || d] on strings. *)
Definition or_string (s : option string) (d : string) : string :=
  match s with
  | Some s => if truthy_string s then s else d
  | None => d
  end.

(** [n || d] on counts: [0], [NaN] and [undefined] are falsy. *)
Definition or_Z (n : option Z) (d : Z) : Z :=
  match n with
  | Some n => if (n =? 0)%Z then d else n
  | None => d
  end.

(** [x || d] on amounts. *)
Definition or_Q (x : option Q) (d : Q) : Q :=
  match x with
  | Some x => if Qeq_bool x 0 then d else x
  | None => d
  end.

(** [n + 1] on a number that holds an integer.  A number is a binary64
    value: the sum is exact while it is at most 2^53 in absolute value;
    beyond, it is rounded to the nearest value that a number can hold (these
    are 2 apart up to 2^54, and further apart above), and of two values that
    are as near, to the one with the even significand.  So 2^53 + 1 is
    2^53. *)
Definition add_one (n : Z) : Z :=
  if (-9007199254740992 <=? n)%Z && (n <? 9007199254740992)%Z then (n + 1)%Z
  else if (Z.abs n <? 18014398509481984)%Z
       then (if Z.even (n / 2) then n else (n + 2)%Z)
       else n.

(** The binary64 value of an integer (exact up to 2^53 in absolute value,
    and for the larger integers that a binary64 value can hold). *)
Definition number (n : Z) : PrimFloat.float :=
  if (n <? 0)%Z then PrimFloat.opp (PrimFloat.of_uint63 (Uint63.of_Z (- n)))
  else PrimFloat.of_uint63 (Uint63.of_Z n).

(** [a <= b] and [a < b] on amounts. *)
Definition Qleb (a b : Q) : bool := Qle_bool a b.
Definition Qltb (a b : Q) : bool := negb (Qle_bool b a).

(** [if (c) o[k] = v;] *)
Definition assign_if (c : bool) (k v : string) (o : gmap string string)
  : gmap string string :=
  if c then <[k := v]> o else o.

Global Instance Qle_decision (a b : Q) : Decision (a <= b)%Q.
Proof.
  destruct (Qlt_le_dec b a) as [H | H]; [right | left; exact H].
  intros H'. exact (Qlt_not_le _ _ H H').
Defined.

(** [Object.keys(o).length === 0] *)
Definition no_keys (o : gmap string string) : bool :=
  bool_decide (size o = 0%nat).

End Js.

(** ** services/productService.ts *)

Module ProductService.

Inductive StockStatus := OUT_OF_STOCK | LOW_STOCK | NORMAL | OVERSTOCK.

Global Instance StockStatus_eq_dec : EqDecision StockStatus.
Proof. solve_decision. Defined.

(** [interface Product] *)
Module Product.
Record t := mk {
  id : string;
  name : string;
  description : option string;
  sku : string;
  barcode : option string;
  category : string;
  subcategory : option string;
  brand : option string;
  cost_price : Q;
  selling_price : Q;
  quantity_in_stock : Z;
  min_stock_threshold : Z;
  max_stock_threshold : option Z;
  aisle : option string;
  shelf : option string;
  bin_location : option string;
  warehouse_id : option string;
  unit_of_measure : string;
  weight : option Q;
  dimensions : option string;
  is_perishable : bool;
  expiry_date : option string;
  days_until_expiry_warning : Z;
  supplier_id : option string;
  supplier_sku : option string;
  is_active : bool;
  created_at : string;
  updated_at : string;
  created_by : option string;
  stock_status : StockStatus;
  is_low_stock : bool;
  is_out_of_stock : bool
}.
End Product.

(** [interface ProductCreateData] *)
Module ProductCreateData.
Record t := mk {
  name : string;
  description : option string;
  sku : string;
  barcode : option string;
  category : string;
  subcategory : option string;
  brand : option string;
  cost_price : Q;
  selling_price : Q;
  quantity_in_stock : Z;
  min_stock_threshold : Z;
  max_stock_threshold : option Z;
  aisle : option string;
  shelf : option string;
  bin_location : option string;
  warehouse_id : option string;
  unit_of_measure : string;
  weight : option Q;
  dimensions : option string;
  is_perishable : bool;
  expiry_date : option string;
  days_until_expiry_warning : Z;
  supplier_id : option string;
  supplier_sku : option string
}.
End ProductCreateData.

(** The keys of [Product], and the type of the value each one holds. *)
Inductive ProductKey :=
| K_id | K_name | K_description | K_sku | K_barcode | K_category
| K_subcategory | K_brand | K_cost_price | K_selling_price
| K_quantity_in_stock | K_min_stock_threshold | K_max_stock_threshold
| K_aisle | K_shelf | K_bin_location | K_warehouse_id | K_unit_of_measure
| K_weight | K_dimensions | K_is_perishable | K_expiry_date
| K_days_until_expiry_warning | K_supplier_id | K_supplier_sku
| K_is_active | K_created_at | K_updated_at | K_created_by
| K_stock_status | K_is_low_stock | K_is_out_of_stock.

Global Instance ProductKey_eq_dec : EqDecision ProductKey.
Proof. solve_decision. Defined.

Definition key_type (k : ProductKey) : Type :=
  match k with
  | K_cost_price | K_selling_price | K_weight => Q
  | K_quantity_in_stock | K_min_stock_threshold | K_max_stock_threshold
  | K_days_until_expiry_warning => Z
  | K_is_perishable | K_is_active | K_is_low_stock | K_is_out_of_stock => bool
  | K_stock_status => StockStatus
  | _ => string
  end.

(** [Partial<Product>]: an object that holds a value for some of the keys
    of [Product]; a key that is absent, or [undefined], is [None]. *)
Definition PartialProduct : Type := ∀ k : ProductKey, option (key_type k).

(** The object literal [{}]. *)
Definition empty_partial : PartialProduct := λ _, None.

(** [{ ...o, [k]: v }] *)
Definition set_key (o : PartialProduct) (k : ProductKey) (v : option (key_type k))
  : PartialProduct :=
  λ k', match decide (k = k') with
        | left e => eq_rect k (λ k, option (key_type k)) v k' e
        | right _ => o k'
        end.

(** [interface ProductListResponse] *)
Record ProductListResponse := {
  products : list Product.t;
  total_count : Z;
  page : Z;
  per_page : Z;
  total_pages : Z
}.

(** What [apiRequest] is called with: the endpoint, the method and the
    JSON body. *)
Inductive Method := GET | POST | PUT | PATCH | DELETE.

Record Request (Body : Type) := {
  endpoint : string;
  method : Method;
  body : option Body
}.
Global Arguments endpoint {_} _.
Global Arguments method {_} _.
Global Arguments body {_} _.

(** [ProductService.updateProduct(id, updates)] *)
Definition updateProduct (id : string) (updates : PartialProduct)
  : Request PartialProduct :=
  {| endpoint := "/api/products/" +:+ id;
     method := PUT;
     body := Some updates |}.

(** The body of [ProductService.adjustStock]. *)
Record StockAdjustment := {
  product_id : string;
  new_quantity : Z;
  reason : string;
  notes : option string
}.

(** [ProductService.adjustStock(id, newQuantity, reason, notes)] *)
Definition adjustStock (id : string) (newQuantity : Z) (reason : string)
    (notes : option string) : Request StockAdjustment :=
  {| endpoint := "/api/products/" +:+ id +:+ "/stock";
     method := PATCH;
     body := Some {| product_id := id; new_quantity := newQuantity;
                     reason := reason; notes := notes |} |}.

End ProductService.


(** ** The stock and purchase-order ledger behind the API

    The services above only call the REST API; its implementation (the
    product record store, the stock adjustment log, the purchase-order
    aggregate and the receiving processor) is not among the sources.  This
    module models it from the specification. *)

Module Ledger.

Import ProductService(StockStatus, OUT_OF_STOCK, LOW_STOCK, NORMAL, OVERSTOCK).

(** Modelled from the spec: [computeStockStatus] of the Product Record
    Store (the API implementation is missing): if quantity == 0 then
    OUT_OF_STOCK; else if quantity < min_threshold then LOW_STOCK; else if
    max_threshold is set and quantity > max_threshold then OVERSTOCK; else
    NORMAL. *)
Definition computeStockStatus (quantity min_threshold : Z)
    (max_threshold : option Z) : StockStatus :=
  if (quantity =? 0)%Z then OUT_OF_STOCK
  else if (quantity <? min_threshold)%Z then LOW_STOCK
  else match max_threshold with
       | Some max => if (max <? quantity)%Z then OVERSTOCK else NORMAL
       | None => NORMAL
       end.

Inductive ReasonCode := RESTOCK | SALE | DAMAGE | CORRECTION | RETURN | RECEIVING.

(** Modelled from the spec: a Stock Adjustment Entry (the log of the API is
    missing): product id, old quantity, new quantity, reason code, optional
    notes, actor, timestamp. *)
Record StockAdjustmentEntry := {
  entry_product_id : string;
  old_quantity : Z;
  new_quantity : Z;
  entry_reason : ReasonCode;
  entry_notes : option string;
  entry_actor : string;
  entry_timestamp : Z
}.

(** Modelled from the spec: the stock fields of a stored product (the
    products table of the API is missing). *)
Record ProductRow := {
  row_sku : string;
  quantity_in_stock : Z;
  min_stock_threshold : Z;
  max_stock_threshold : option Z;
  is_active : bool
}.

Definition with_quantity (row : ProductRow) (quantity : Z) : ProductRow :=
  {| row_sku := row_sku row;
     quantity_in_stock := quantity;
     min_stock_threshold := min_stock_threshold row;
     max_stock_threshold := max_stock_threshold row;
     is_active := is_active row |}.

Inductive OrderStatus :=
  DRAFT | PENDING | APPROVED | ORDERED | SHIPPED | DELIVERED | CANCELLED.

(** Modelled from the spec: a Purchase Order Item (the purchase-order tables
    of the API are missing). *)
Record LineItem := {
  item_product_id : string;
  quantity_ordered : Z;
  unit_price : Q;
  quantity_received : Z;
  is_received : bool;
  quality_notes : option string
}.

(** Modelled from the spec: the part of a Purchase Order that receiving
    reads and writes; the line items are keyed by their item id (the order
    they are displayed in is not modelled). *)
Record PurchaseOrder := {
  status : OrderStatus;
  items : gmap string LineItem;
  actual_delivery_date : option Z
}.

(** Modelled from the spec: the error taxonomy of the core (section 7). *)
Inductive Error :=
| ValidationError
| NotFoundError
| ImmutableFieldError
| InvalidQuantityError
| InvalidStateTransitionError (current : OrderStatus) (attempted : string)
| OverReceiptError.

Inductive Outcome := Done | Failed (e : Error).

(** The datastore: the products, the append-only adjustment log (oldest
    entry first) and the purchase orders. *)
Record Store := {
  products : gmap string ProductRow;
  adjustments : list StockAdjustmentEntry;
  orders : gmap string PurchaseOrder
}.

(** The stock status of a stored product, evaluated at read time. *)
Definition stock_status (st : Store) (id : string) : option StockStatus :=
  row ← products st !! id;
  Some (computeStockStatus (quantity_in_stock row) (min_stock_threshold row)
          (max_stock_threshold row)).

Definition quantity_of (st : Store) (id : string) : option Z :=
  quantity_in_stock <$> products st !! id.

(** Modelled from the spec: [adjustStock(id, newQuantity, reason, notes?)]
    of the Product Record Store (the API handler behind
    [ProductService.adjustStock] is missing): newQuantity must be >= 0, else
    it fails with InvalidQuantityError; it writes one Stock Adjustment Entry
    (old quantity, new quantity) and updates quantity_in_stock.  A failed
    call leaves the store as it was. *)
Definition adjustStock (st : Store) (id : string) (newQuantity : Z)
    (reason : ReasonCode) (notes : option string) (actor : string) (now : Z)
    : Store * Outcome :=
  if (newQuantity <? 0)%Z then (st, Failed InvalidQuantityError)
  else match products st !! id with
       | None => (st, Failed NotFoundError)
       | Some row =>
           let entry :=
             {| entry_product_id := id;
                old_quantity := quantity_in_stock row;
                new_quantity := newQuantity;
                entry_reason := reason;
                entry_notes := notes;
                entry_actor := actor;
                entry_timestamp := now |} in
           ({| products := <[id := with_quantity row newQuantity]> (products st);
               adjustments := adjustments st ++ [entry];
               orders := orders st |}, Done)
       end.

(** One [adjustStock] call, as data. *)
Record AdjustCall := {
  call_id : string;
  call_quantity : Z;
  call_reason : ReasonCode;
  call_notes : option string;
  call_actor : string;
  call_time : Z
}.

Definition adjust (st : Store) (c : AdjustCall) : Store :=
  fst (adjustStock st (call_id c) (call_quantity c) (call_reason c)
         (call_notes c) (call_actor c) (call_time c)).

(** A finite sequence of [adjustStock] calls, first call first. *)
Definition adjust_all (st : Store) (calls : list AdjustCall) : Store :=
  fold_left adjust calls st.

(** The delta an entry records: new quantity minus old quantity. *)
Definition delta (e : StockAdjustmentEntry) : Z :=
  (new_quantity e - old_quantity e)%Z.

(** The entries recorded for one product. *)
Definition history (id : string) (log : list StockAdjustmentEntry)
    : list StockAdjustmentEntry :=
  filter (λ e, entry_product_id e = id) log.

(** The sum of the deltas recorded for one product. *)
Definition sum_deltas (id : string) (log : list StockAdjustmentEntry) : Z :=
  foldr (λ e acc, (delta e + acc)%Z) 0%Z (history id log).

(** Replaying the log of a product from an initial quantity. *)
Definition replay (id : string) (initial : Z) (log : list StockAdjustmentEntry) : Z :=
  fold_left (λ q e, (q + delta e)%Z) (history id log) initial.

(** The entries appended to the log between two stores. *)
Definition entries_since (before after : Store) : list StockAdjustmentEntry :=
  drop (length (adjustments before)) (adjustments after).

(** One element of the batch of a receive call. *)
Record ReceivedItem := {
  recv_item_id : string;
  recv_quantity : Z;
  recv_quality_notes : option string
}.

(** What a receive call has staged so far: line items, products and log
    entries, none of them written to the store yet. *)
Record Staged := {
  staged_items : gmap string LineItem;
  staged_products : gmap string ProductRow;
  staged_entries : list StockAdjustmentEntry
}.

(** Modelled from the spec: the receipt of one element of the batch (the
    receiving processor of the API is missing): the element references a
    line item of the order; the cumulative quantity_received may not exceed
    quantity_ordered, else OverReceiptError; it increments
    quantity_received, sets is_received when received == ordered, records
    the quality notes if any, and appends a RECEIVING entry on the product
    that increases its quantity. *)
Definition receive_one (received_by : string) (now : Z) (s : Staged)
    (r : ReceivedItem) : Error + Staged :=
  match staged_items s !! recv_item_id r with
  | None => inl NotFoundError
  | Some li =>
      let received := (quantity_received li + recv_quantity r)%Z in
      if (quantity_ordered li <? received)%Z then inl OverReceiptError
      else match staged_products s !! item_product_id li with
           | None => inl NotFoundError
           | Some row =>
               let li' :=
                 {| item_product_id := item_product_id li;
                    quantity_ordered := quantity_ordered li;
                    unit_price := unit_price li;
                    quantity_received := received;
                    is_received := (received =? quantity_ordered li)%Z;
                    quality_notes :=
                      match recv_quality_notes r with
                      | Some n => Some n
                      | None => quality_notes li
                      end |} in
               let quantity := (quantity_in_stock row + recv_quantity r)%Z in
               let entry :=
                 {| entry_product_id := item_product_id li;
                    old_quantity := quantity_in_stock row;
                    new_quantity := quantity;
                    entry_reason := RECEIVING;
                    entry_notes := recv_quality_notes r;
                    entry_actor := received_by;
                    entry_timestamp := now |} in
               inr {| staged_items := <[recv_item_id r := li']> (staged_items s);
                      staged_products :=
                        <[item_product_id li := with_quantity row quantity]>
                          (staged_products s);
                      staged_entries := staged_entries s ++ [entry] |}
           end
  end.

(** The whole batch, element by element; the first failure ends it. *)
Fixpoint receive_batch (received_by : string) (now : Z) (s : Staged)
    (batch : list ReceivedItem) : Error + Staged :=
  match batch with
  | [] => inr s
  | r :: batch' =>
      match receive_one received_by now s r with
      | inl e => inl e
      | inr s' => receive_batch received_by now s' batch'
      end
  end.

Definition receivable (s : OrderStatus) : bool :=
  match s with ORDERED | SHIPPED => true | _ => false end.

Definition fully_received (items : gmap string LineItem) : bool :=
  bool_decide (map_Forall (λ _ li, quantity_received li = quantity_ordered li) items).

(** Modelled from the spec: the [receive(items)] transition of the Purchase
    Order Aggregate, as the Receiving Processor implements it (the API
    handler behind [PurchaseOrderService.receiveItems] is missing): the
    status must be ORDERED or SHIPPED, else InvalidStateTransitionError; the
    full batch is validated before any mutation is applied, so a failure
    applies none of the batch; then the line items, the products and the log
    are written together, and when all line items are fully received the
    status becomes DELIVERED and actual_delivery_date is stamped. *)
Definition receive (st : Store) (orderId : string) (batch : list ReceivedItem)
    (received_by : string) (now : Z) : Store * Outcome :=
  match orders st !! orderId with
  | None => (st, Failed NotFoundError)
  | Some po =>
      if negb (receivable (status po))
      then (st, Failed (InvalidStateTransitionError (status po) "receive"))
      else
        match receive_batch received_by now
                {| staged_items := items po;
                   staged_products := products st;
                   staged_entries := [] |} batch with
        | inl e => (st, Failed e)
        | inr s =>
            let delivered := fully_received (staged_items s) in
            let po' :=
              {| status := if delivered then DELIVERED else status po;
                 items := staged_items s;
                 actual_delivery_date :=
                   if delivered then Some now else actual_delivery_date po |} in
            ({| products := staged_products s;
                adjustments := adjustments st ++ staged_entries s;
                orders := <[orderId := po']> (orders st) |}, Done)
        end
  end.



(** The stores of the scenarios of the specification: a product with
    quantity 50, min 20, max 200; and an order with two line items, A (10
    ordered) and B (5 ordered), that has been ordered and not yet received. *)
Definition scenario_product (sku : string) (quantity : Z) : ProductRow :=
  {| row_sku := sku;
     quantity_in_stock := quantity;
     min_stock_threshold := 20;
     max_stock_threshold := Some 200%Z;
     is_active := true |}.

Definition scenario_item (product : string) (ordered : Z) (price : Q) : LineItem :=
  {| item_product_id := product;
     quantity_ordered := ordered;
     unit_price := price;
     quantity_received := 0;
     is_received := false;
     quality_notes := None |}.

Definition scenario_order (s : OrderStatus) : PurchaseOrder :=
  {| status := s;
     items := <["item-B" := scenario_item "B" 5 2]> {["item-A" := scenario_item "A" 10 1]};
     actual_delivery_date := None |}.

Definition scenario_store (s : OrderStatus) : Store :=
  {| products :=
       <["B" := scenario_product "SKU-B" 0]>
         (<["A" := scenario_product "SKU-A" 0]>
            {["milk" := scenario_product "MILK-001" 50]});
     adjustments := [];
     orders := {["PO-1" := scenario_order s]} |}.

Definition scenario_call (id : string) (quantity : Z) : AdjustCall :=
  {| call_id := id;
     call_quantity := quantity;
     call_reason := CORRECTION;
     call_notes := None;
     call_actor := "admin";
     call_time := 0 |}.

Definition scenario_receipt (item : string) (quantity : Z) : ReceivedItem :=
  {| recv_item_id := item; recv_quantity := quantity; recv_quality_notes := None |}.

End Ledger.


(** ** services/purchaseOrderService.ts *)

Module PurchaseOrderService.

Import ProductService(Request, Method, GET, POST, PUT, PATCH, DELETE).

(** The items of [interface CreatePurchaseOrderData]. *)
Record CreateItem := {
  product_id : string;
  quantity_ordered : Z;
  unit_price : Q;
  supplier_sku : option string
}.

(** [interface CreatePurchaseOrderData] *)
Record CreatePurchaseOrderData := {
  supplier_id : string;
  expected_delivery_date : option string;
  delivery_address : option string;
  delivery_instructions : option string;
  notes : option string;
  items : list CreateItem
}.

(** The elements of [receiveData.items]. *)
Record ReceiveItem := {
  item_id : string;
  quantity_received : Z;
  quality_notes : option string
}.

Record ReceiveData := {
  receive_items : list ReceiveItem;
  received_by : string;
  receive_notes : option string
}.

(** [PurchaseOrderService.receiveItems(orderId, receiveData)] *)
Definition receiveItems (orderId : string) (receiveData : ReceiveData)
  : Request ReceiveData :=
  {| ProductService.endpoint := "/api/purchase-orders/" +:+ orderId +:+ "/receive";
     ProductService.method := POST;
     ProductService.body := Some receiveData |}.

End PurchaseOrderService.

(** ** The declared result types of the list methods of the services *)

Module Schema.

(** The TypeScript types that the declarations of the results use. *)
Inductive TsType :=
| TNumber
| TString
| TBoolean
| TNamed (interface : string)
| TArray (element : TsType)
| TOptional (type : TsType)
| TObject (properties : list Property)
with Property :=
| property (name : string) (type : TsType).

Definition property_name (p : Property) : string :=
  match p with property name _ => name end.

(** The methods of the two services that return a list of records. *)
Inductive ListMethod :=
| getProducts            (* ProductService *)
| getLowStockItems       (* ProductService *)
| getSuppliers           (* PurchaseOrderService *)
| getPurchaseOrders      (* PurchaseOrderService *)
| getReorderSuggestions  (* PurchaseOrderService *).

(** [interface ProductListResponse] *)
Definition ProductListResponse : TsType :=
  TObject [property "products" (TArray (TNamed "Product"));
           property "total_count" TNumber;
           property "page" TNumber;
           property "per_page" TNumber;
           property "total_pages" TNumber].

(** The type argument of the [Promise] each method returns. *)
Definition result_type (m : ListMethod) : TsType :=
  match m with
  | getProducts => ProductListResponse
  | getLowStockItems =>
      TObject [property "items" (TArray (TObject [property "id" TString; property "name" TString;
                                 property "current_stock" TNumber;
                                 property "min_threshold" TNumber;
                                 property "location" (TOptional TString)]));
               property "total_count" TNumber]
  | getSuppliers => TArray (TNamed "Supplier")
  | getPurchaseOrders => TArray (TNamed "PurchaseOrder")
  | getReorderSuggestions =>
      TObject [property "suggestions" (TArray (TNamed "ReorderSuggestion"));
               property "total_count" TNumber]
  end.

(** The filters a method accepts ([ProductFilters], and the inline type of
    the argument of [getPurchaseOrders]). *)
Definition filter_names (m : ListMethod) : list string :=
  match m with
  | getProducts =>
      ["page"; "per_page"; "category"; "subcategory"; "brand"; "supplier_id";
       "warehouse_id"; "is_perishable"; "stock_status"; "aisle"; "search"]
  | getPurchaseOrders => ["status"; "supplier_id"; "page"; "per_page"]
  | getSuppliers => ["active_only"]
  | getReorderSuggestions => ["limit"]
  | getLowStockItems => []
  end.

(** Whether a type is an object type that declares the property. *)
Definition has_property (t : TsType) (p : string) : bool :=
  match t with
  | TObject properties => bool_decide (p ∈ property_name <$> properties)
  | _ => false
  end.

Definition pagination_metadata : list string :=
  ["page"; "per_page"; "total_count"; "total_pages"].

Definition returns_pagination_metadata (m : ListMethod) : bool :=
  forallb (has_property (result_type m)) pagination_metadata.

End Schema.

(** ** components/inventory/CreatePurchaseOrderModal.tsx *)

Module CreatePurchaseOrderModal.

Import ProductService(Product.id, Product.name, Product.sku, Product.cost_price).

(** [interface OrderItem] *)
Record OrderItem := {
  id : string;
  product_id : string;
  product_name : string;
  product_sku : string;
  quantity_ordered : Z;
  unit_price : Q;
  supplier_sku : option string;
  total_price : Q
}.

(** [keyof OrderItem], and the type of the value each key holds. *)
Inductive OrderItemKey :=
| K_id | K_product_id | K_product_name | K_product_sku
| K_quantity_ordered | K_unit_price | K_supplier_sku | K_total_price.

Definition key_type (k : OrderItemKey) : Type :=
  match k with
  | K_quantity_ordered => Z
  | K_unit_price | K_total_price => Q
  | _ => string
  end.

(** [{ ...item, [field]: value }] *)
Definition set_key (item : OrderItem) (field : OrderItemKey)
  : key_type field → OrderItem :=
  match field with
  | K_id => λ v,
      {| id := v; product_id := product_id item; product_name := product_name item;
         product_sku := product_sku item; quantity_ordered := quantity_ordered item;
         unit_price := unit_price item; supplier_sku := supplier_sku item;
         total_price := total_price item |}
  | K_product_id => λ v,
      {| id := id item; product_id := v; product_name := product_name item;
         product_sku := product_sku item; quantity_ordered := quantity_ordered item;
         unit_price := unit_price item; supplier_sku := supplier_sku item;
         total_price := total_price item |}
  | K_product_name => λ v,
      {| id := id item; product_id := product_id item; product_name := v;
         product_sku := product_sku item; quantity_ordered := quantity_ordered item;
         unit_price := unit_price item; supplier_sku := supplier_sku item;
         total_price := total_price item |}
  | K_product_sku => λ v,
      {| id := id item; product_id := product_id item; product_name := product_name item;
         product_sku := v; quantity_ordered := quantity_ordered item;
         unit_price := unit_price item; supplier_sku := supplier_sku item;
         total_price := total_price item |}
  | K_quantity_ordered => λ v,
      {| id := id item; product_id := product_id item; product_name := product_name item;
         product_sku := product_sku item; quantity_ordered := v;
         unit_price := unit_price item; supplier_sku := supplier_sku item;
         total_price := total_price item |}
  | K_unit_price => λ v,
      {| id := id item; product_id := product_id item; product_name := product_name item;
         product_sku := product_sku item; quantity_ordered := quantity_ordered item;
         unit_price := v; supplier_sku := supplier_sku item;
         total_price := total_price item |}
  | K_supplier_sku => λ v,
      {| id := id item; product_id := product_id item; product_name := product_name item;
         product_sku := product_sku item; quantity_ordered := quantity_ordered item;
         unit_price := unit_price item; supplier_sku := Some v;
         total_price := total_price item |}
  | K_total_price => λ v,
      {| id := id item; product_id := product_id item; product_name := product_name item;
         product_sku := product_sku item; quantity_ordered := quantity_ordered item;
         unit_price := unit_price item; supplier_sku := supplier_sku item;
         total_price := v |}
  end.

(** [updatedItem.total_price = updatedItem.quantity_ordered * updatedItem.unit_price] *)
Definition recalculate (item : OrderItem) : OrderItem :=
  set_key item K_total_price (inject_Z (quantity_ordered item) * unit_price item)%Q.

(** The state of the form (the [useState] cells the handlers below read or
    write). *)
Record State := {
  selectedSupplierId : string;
  expectedDeliveryDate : string;
  deliveryAddress : string;
  deliveryInstructions : string;
  notes : string;
  orderItems : list OrderItem;
  showProductSearch : bool;
  productSearchTerm : string;
  errors : gmap string string
}.

Definition setOrderItems (st : State) (items : list OrderItem) : State :=
  {| selectedSupplierId := selectedSupplierId st;
     expectedDeliveryDate := expectedDeliveryDate st;
     deliveryAddress := deliveryAddress st;
     deliveryInstructions := deliveryInstructions st;
     notes := notes st;
     orderItems := items;
     showProductSearch := showProductSearch st;
     productSearchTerm := productSearchTerm st;
     errors := errors st |}.

Definition setErrors (st : State) (newErrors : gmap string string) : State :=
  {| selectedSupplierId := selectedSupplierId st;
     expectedDeliveryDate := expectedDeliveryDate st;
     deliveryAddress := deliveryAddress st;
     deliveryInstructions := deliveryInstructions st;
     notes := notes st;
     orderItems := orderItems st;
     showProductSearch := showProductSearch st;
     productSearchTerm := productSearchTerm st;
     errors := newErrors |}.

Definition setSelectedSupplierId (st : State) (value : string) : State :=
  {| selectedSupplierId := value;
     expectedDeliveryDate := expectedDeliveryDate st;
     deliveryAddress := deliveryAddress st;
     deliveryInstructions := deliveryInstructions st;
     notes := notes st;
     orderItems := orderItems st;
     showProductSearch := showProductSearch st;
     productSearchTerm := productSearchTerm st;
     errors := errors st |}.

Definition setExpectedDeliveryDate (st : State) (value : string) : State :=
  {| selectedSupplierId := selectedSupplierId st;
     expectedDeliveryDate := value;
     deliveryAddress := deliveryAddress st;
     deliveryInstructions := deliveryInstructions st;
     notes := notes st;
     orderItems := orderItems st;
     showProductSearch := showProductSearch st;
     productSearchTerm := productSearchTerm st;
     errors := errors st |}.

Definition setDeliveryAddress (st : State) (value : string) : State :=
  {| selectedSupplierId := selectedSupplierId st;
     expectedDeliveryDate := expectedDeliveryDate st;
     deliveryAddress := value;
     deliveryInstructions := deliveryInstructions st;
     notes := notes st;
     orderItems := orderItems st;
     showProductSearch := showProductSearch st;
     productSearchTerm := productSearchTerm st;
     errors := errors st |}.

Definition setDeliveryInstructions (st : State) (value : string) : State :=
  {| selectedSupplierId := selectedSupplierId st;
     expectedDeliveryDate := expectedDeliveryDate st;
     deliveryAddress := deliveryAddress st;
     deliveryInstructions := value;
     notes := notes st;
     orderItems := orderItems st;
     showProductSearch := showProductSearch st;
     productSearchTerm := productSearchTerm st;
     errors := errors st |}.

Definition setNotes (st : State) (value : string) : State :=
  {| selectedSupplierId := selectedSupplierId st;
     expectedDeliveryDate := expectedDeliveryDate st;
     deliveryAddress := deliveryAddress st;
     deliveryInstructions := deliveryInstructions st;
     notes := value;
     orderItems := orderItems st;
     showProductSearch := showProductSearch st;
     productSearchTerm := productSearchTerm st;
     errors := errors st |}.

(** [setShowProductSearch(show); setProductSearchTerm(term)] *)
Definition setProductSearch (st : State) (show : bool) (term : string) : State :=
  {| selectedSupplierId := selectedSupplierId st;
     expectedDeliveryDate := expectedDeliveryDate st;
     deliveryAddress := deliveryAddress st;
     deliveryInstructions := deliveryInstructions st;
     notes := notes st;
     orderItems := orderItems st;
     showProductSearch := show;
     productSearchTerm := term;
     errors := errors st |}.

(** The state of the first render, and what [resetForm] sets. *)
Definition resetForm : State :=
  {| selectedSupplierId := "";
     expectedDeliveryDate := "";
     deliveryAddress := "";
     deliveryInstructions := "";
     notes := "";
     orderItems := [];
     showProductSearch := false;
     productSearchTerm := "";
     errors := ∅ |}.

(** [addProduct(product)]; [now] is what [Date.now()] returns.  The item of
    a product that is already in the order is updated in place, in an array
    copied from the state; the array of the previous render, which shares
    the item, is not read again. *)
Definition addProduct (now : N) (product : ProductService.Product.t) (st : State)
  : State :=
  let items :=
    match list_find (λ item, product_id item = Product.id product) (orderItems st) with
    | Some (existingItemIndex, item) =>
        let item' :=
          set_key item K_quantity_ordered (Js.add_one (quantity_ordered item)) in
        <[existingItemIndex := recalculate item']> (orderItems st)
    | None =>
        let newItem :=
          {| id := pretty now;
             product_id := Product.id product;
             product_name := Product.name product;
             product_sku := Product.sku product;
             quantity_ordered := 1;
             unit_price := Product.cost_price product;
             supplier_sku := None;
             total_price := Product.cost_price product |} in
        orderItems st ++ [newItem]
    end in
  setProductSearch (setOrderItems st items) false "".

(** Whether the handler recalculates the total price for the field. *)
Definition prices (field : OrderItemKey) : bool :=
  match field with K_quantity_ordered | K_unit_price => true | _ => false end.

(** [updateOrderItem(itemId, field, value)] *)
Definition updateOrderItem (itemId : string) (field : OrderItemKey)
    (value : key_type field) (st : State) : State :=
  let updatedItems :=
    (λ item,
       if decide (id item = itemId) then
         let updatedItem := set_key item field value in
         if prices field then recalculate updatedItem else updatedItem
       else item) <$> orderItems st in
  setOrderItems st updatedItems.

(** [removeOrderItem(itemId)] *)
Definition removeOrderItem (itemId : string) (st : State) : State :=
  setOrderItems st (filter (λ item, id item ≠ itemId) (orderItems st)).



(** The body of [orderItems.forEach((item, index) => ...)] in [validateForm],
    from index [index] on. *)
Fixpoint validateItems (index : nat) (items : list OrderItem)
    (newErrors : gmap string string) : gmap string string :=
  match items with
  | [] => newErrors
  | item :: items' =>
      let newErrors :=
        Js.assign_if (quantity_ordered item <=? 0)%Z
          ("item_" +:+ pretty index +:+ "_quantity")
          "Quantity must be greater than 0" newErrors in
      let newErrors :=
        Js.assign_if (Js.Qleb (unit_price item) 0)
          ("item_" +:+ pretty index +:+ "_price")
          "Unit price must be greater than 0" newErrors in
      validateItems (S index) items' newErrors
  end.

(** The [newErrors] that [validateForm] builds. *)
Definition formErrors (st : State) : gmap string string :=
  let newErrors : gmap string string := ∅ in
  let newErrors :=
    Js.assign_if (negb (Js.truthy_string (selectedSupplierId st)))
      "supplier" "Please select a supplier" newErrors in
  let newErrors :=
    Js.assign_if (bool_decide (length (orderItems st) = 0%nat))
      "items" "Please add at least one product" newErrors in
  let newErrors :=
    Js.assign_if (negb (Js.truthy_string (expectedDeliveryDate st)))
      "deliveryDate" "Please set expected delivery date" newErrors in
  validateItems 0 (orderItems st) newErrors.

(** [validateForm()]: the state with the errors set, and the result. *)
Definition validateForm (st : State) : State * bool :=
  let newErrors := formErrors st in
  (setErrors st newErrors, Js.no_keys newErrors).

(** [handleSubmit(e)] up to the call of the API: the state, and the order
    data that [PurchaseOrderService.createPurchaseOrder] is called with, if
    it is called.  [toISOString s] stands for
    [new Date(s + 'T00:00:00').toISOString()], where it returns; when it
    throws, the API is not called. *)
Definition handleSubmit (toISOString : string → string) (st : State)
  : State * option PurchaseOrderService.CreatePurchaseOrderData :=
  let '(st', valid) := validateForm st in
  if negb valid then (st', None)
  else
    let orderData :=
      {| PurchaseOrderService.supplier_id := selectedSupplierId st;
         PurchaseOrderService.expected_delivery_date :=
           if Js.truthy_string (expectedDeliveryDate st)
           then Some (toISOString (expectedDeliveryDate st)) else None;
         PurchaseOrderService.delivery_address := Js.or_undefined (Some (deliveryAddress st));
         PurchaseOrderService.delivery_instructions :=
           Js.or_undefined (Some (deliveryInstructions st));
         PurchaseOrderService.notes := Js.or_undefined (Some (notes st));
         PurchaseOrderService.items :=
           (λ item,
              {| PurchaseOrderService.product_id := product_id item;
                 PurchaseOrderService.quantity_ordered := quantity_ordered item;
                 PurchaseOrderService.unit_price := unit_price item;
                 PurchaseOrderService.supplier_sku := Js.or_undefined (supplier_sku item) |})
             <$> orderItems st |} in
    (st', Some orderData).

(** What the user can do to the form: the handlers that its inputs and
    buttons are bound to.  A quantity input calls
    [updateOrderItem(item.id, 'quantity_ordered', parseInt(e.target.value) || 1)],
    a price input
    [updateOrderItem(item.id, 'unit_price', parseFloat(e.target.value) || 0)];
    the parsed value is [None] when the parser returns [NaN].  [created] says
    whether the API accepted the order that a submission sent; it is [false]
    also when the conversion of the delivery date throws, which the [catch]
    of [handleSubmit] treats as it does a refusal of the API. *)
Inductive Event :=
| SelectSupplier (value : string)
| ChangeExpectedDeliveryDate (value : string)
| ToggleProductSearch
| ChangeProductSearchTerm (value : string)
| ClickProduct (now : N) (product : ProductService.Product.t)
| ChangeQuantity (itemId : string) (parsed : option Z)
| ChangeUnitPrice (itemId : string) (parsed : option Q)
| ClickRemove (itemId : string)
| ChangeDeliveryAddress (value : string)
| ChangeDeliveryInstructions (value : string)
| ChangeNotes (value : string)
| Submit (toISOString : string → string) (created : bool).

(** The state after an event.  A submission that passes validation and that
    the API accepts resets the form; any other leaves the form as it is,
    with the errors of the validation. *)
Definition handle (st : State) (ev : Event) : State :=
  match ev with
  | SelectSupplier value => setSelectedSupplierId st value
  | ChangeExpectedDeliveryDate value => setExpectedDeliveryDate st value
  | ToggleProductSearch =>
      setProductSearch st (negb (showProductSearch st)) (productSearchTerm st)
  | ChangeProductSearchTerm value => setProductSearch st (showProductSearch st) value
  | ClickProduct now product => addProduct now product st
  | ChangeQuantity itemId parsed =>
      updateOrderItem itemId K_quantity_ordered (Js.or_Z parsed 1) st
  | ChangeUnitPrice itemId parsed =>
      updateOrderItem itemId K_unit_price (Js.or_Q parsed 0) st
  | ClickRemove itemId => removeOrderItem itemId st
  | ChangeDeliveryAddress value => setDeliveryAddress st value
  | ChangeDeliveryInstructions value => setDeliveryInstructions st value
  | ChangeNotes value => setNotes st value
  | Submit toISOString created =>
      match handleSubmit toISOString st with
      | (st', Some _) => if created then resetForm else st'
      | (st', None) => st'
      end
  end.

(** The drafts that the form can hold: those a sequence of events leads to
    from the first render. *)
Inductive reachable : State → Prop :=
| reachable_init : reachable resetForm
| reachable_step st ev : reachable st → reachable (handle st ev).

(** A line item whose total price is its quantity times its unit price. *)
Definition priced (item : OrderItem) : Prop :=
  (total_price item == inject_Z (quantity_ordered item) * unit_price item)%Q.

End CreatePurchaseOrderModal.


(** ** components/inventory/AddProductModal.tsx *)

Module AddProductModal.

Import ProductService.ProductCreateData.

(** [interface ProductFormData] declares the properties of
    [ProductCreateData], with the same types. *)
Definition ProductFormData : Type := ProductService.ProductCreateData.t.

(** The form of the first render. *)
Definition initialFormData : ProductFormData :=
  {| name := "";
     description := Some "";
     sku := "";
     barcode := Some "";
     category := "";
     subcategory := Some "";
     brand := Some "";
     cost_price := 0;
     selling_price := 0;
     quantity_in_stock := 0;
     min_stock_threshold := 10;
     max_stock_threshold := Some 1000%Z;
     aisle := Some "";
     shelf := Some "";
     bin_location := Some "";
     warehouse_id := Some "";
     unit_of_measure := "pieces";
     weight := Some 0%Q;
     dimensions := Some "";
     is_perishable := false;
     expiry_date := Some "";
     days_until_expiry_warning := 7;
     supplier_id := Some "";
     supplier_sku := Some "" |}.

(** [formData.max_stock_threshold &&
     formData.max_stock_threshold <= formData.min_stock_threshold] *)
Definition max_not_above_min (formData : ProductFormData) : bool :=
  match max_stock_threshold formData with
  | Some max => negb (max =? 0)%Z && (max <=? min_stock_threshold formData)%Z
  | None => false
  end.

(** [!formData.expiry_date || formData.expiry_date.trim() === ''] *)
Definition no_expiry_date (formData : ProductFormData) : bool :=
  match expiry_date formData with
  | Some d => negb (Js.truthy_string d) || bool_decide (Js.trim d = "")
  | None => true
  end.

(** The [newErrors] that [validateForm] builds, one [if] after the other. *)
Definition formErrors (formData : ProductFormData) : gmap string string :=
  let newErrors : gmap string string := ∅ in
  let newErrors :=
    Js.assign_if (negb (Js.truthy_string (Js.trim (name formData))))
      "name" "Product name is required" newErrors in
  let newErrors :=
    Js.assign_if (negb (Js.truthy_string (Js.trim (sku formData))))
      "sku" "SKU is required" newErrors in
  let newErrors :=
    Js.assign_if (negb (Js.truthy_string (Js.trim (category formData))))
      "category" "Category is required" newErrors in
  let newErrors :=
    Js.assign_if (Js.Qleb (cost_price formData) 0)
      "cost_price" "Cost price must be greater than 0" newErrors in
  let newErrors :=
    Js.assign_if (Js.Qleb (selling_price formData) 0)
      "selling_price" "Selling price must be greater than 0" newErrors in
  let newErrors :=
    Js.assign_if (quantity_in_stock formData <? 0)%Z
      "quantity_in_stock" "Stock quantity cannot be negative" newErrors in
  let newErrors :=
    Js.assign_if (min_stock_threshold formData <? 0)%Z
      "min_stock_threshold" "Minimum threshold cannot be negative" newErrors in
  let newErrors :=
    Js.assign_if (max_not_above_min formData)
      "max_stock_threshold" "Maximum threshold must be greater than minimum threshold"
      newErrors in
  let newErrors :=
    Js.assign_if (Js.Qleb (selling_price formData) (cost_price formData))
      "selling_price" "Selling price should be greater than cost price" newErrors in
  let newErrors :=
    Js.assign_if (is_perishable formData && no_expiry_date formData)
      "expiry_date" "Expiry date is required for perishable items" newErrors in
  newErrors.

(** [validateForm()]: the errors it sets, and its result. *)
Definition validateForm (formData : ProductFormData) : gmap string string * bool :=
  let newErrors := formErrors formData in
  (newErrors, Js.no_keys newErrors).

(** [handleSubmit(e)]: the errors it sets and the product data that [onSave]
    is called with, if it is called.  [toISOString s] stands for
    [new Date(s + 'T00:00:00').toISOString()], where it returns; when it
    throws, [onSave] is not called ([InventoryDialogs] follows that
    case). *)
Definition handleSubmit (toISOString : string → string) (formData : ProductFormData)
  : gmap string string * option ProductService.ProductCreateData.t :=
  let '(newErrors, valid) := validateForm formData in
  if negb valid then (newErrors, None)
  else
    let productData :=
      {| name := name formData;
         description := Js.or_undefined (description formData);
         sku := sku formData;
         barcode := Js.or_undefined (barcode formData);
         category := category formData;
         subcategory := Js.or_undefined (subcategory formData);
         brand := Js.or_undefined (brand formData);
         cost_price := Js.or_Q (Some (cost_price formData)) 0;
         selling_price := Js.or_Q (Some (selling_price formData)) 0;
         quantity_in_stock := Js.or_Z (Some (quantity_in_stock formData)) 0;
         min_stock_threshold := Js.or_Z (Some (min_stock_threshold formData)) 0;
         max_stock_threshold :=
           match max_stock_threshold formData with
           | Some max => if (max =? 0)%Z then None else Some max
           | None => None
           end;
         aisle := Js.or_undefined (aisle formData);
         shelf := Js.or_undefined (shelf formData);
         bin_location := Js.or_undefined (bin_location formData);
         warehouse_id := Js.or_undefined (warehouse_id formData);
         unit_of_measure := unit_of_measure formData;
         weight :=
           match weight formData with
           | Some w => if Qeq_bool w 0 then None else Some w
           | None => None
           end;
         dimensions := Js.or_undefined (dimensions formData);
         is_perishable := is_perishable formData;
         expiry_date :=
           match expiry_date formData with
           | Some d => if Js.truthy_string d && negb (bool_decide (Js.trim d = ""))
                       then Some (toISOString d) else None
           | None => None
           end;
         days_until_expiry_warning :=
           Js.or_Z (Some (days_until_expiry_warning formData)) 7;
         supplier_id := Js.or_undefined (supplier_id formData);
         supplier_sku := Js.or_undefined (supplier_sku formData) |} in
    (newErrors, Some productData).

(** A form that passes every check when [selling] is above [cost] and both
    are above 0. *)
Definition sample_form (cost selling : Q) : ProductFormData :=
  {| name := "Whole Milk 1L";
     description := Some "";
     sku := "MILK-001";
     barcode := Some "";
     category := "Dairy";
     subcategory := Some "";
     brand := Some "";
     cost_price := cost;
     selling_price := selling;
     quantity_in_stock := 50;
     min_stock_threshold := 20;
     max_stock_threshold := Some 200%Z;
     aisle := Some "A1";
     shelf := Some "S3";
     bin_location := Some "";
     warehouse_id := Some "";
     unit_of_measure := "liters";
     weight := Some 0%Q;
     dimensions := Some "";
     is_perishable := false;
     expiry_date := Some "";
     days_until_expiry_warning := 7;
     supplier_id := Some "";
     supplier_sku := Some "" |}.

(** A form in which every field that the checks read is in violation. *)
Definition empty_form : ProductFormData :=
  {| name := "  ";
     description := Some "";
     sku := "";
     barcode := Some "";
     category := "";
     subcategory := Some "";
     brand := Some "";
     cost_price := 0;
     selling_price := -1;
     quantity_in_stock := -1;
     min_stock_threshold := -5;
     max_stock_threshold := Some (-10)%Z;
     aisle := Some "";
     shelf := Some "";
     bin_location := Some "";
     warehouse_id := Some "";
     unit_of_measure := "pieces";
     weight := Some 0%Q;
     dimensions := Some "";
     is_perishable := true;
     expiry_date := Some "";
     days_until_expiry_warning := 7;
     supplier_id := Some "";
     supplier_sku := Some "" |}.

End AddProductModal.

(** ** components/inventory/EditProductModal.tsx *)

Module EditProductModal.

Import ProductService.

(** The property name of a key, as the [errors] object is indexed by it. *)
Definition key_name (k : ProductKey) : string :=
  match k with
  | K_id => "id" | K_name => "name" | K_description => "description"
  | K_sku => "sku" | K_barcode => "barcode" | K_category => "category"
  | K_subcategory => "subcategory" | K_brand => "brand"
  | K_cost_price => "cost_price" | K_selling_price => "selling_price"
  | K_quantity_in_stock => "quantity_in_stock"
  | K_min_stock_threshold => "min_stock_threshold"
  | K_max_stock_threshold => "max_stock_threshold"
  | K_aisle => "aisle" | K_shelf => "shelf" | K_bin_location => "bin_location"
  | K_warehouse_id => "warehouse_id" | K_unit_of_measure => "unit_of_measure"
  | K_weight => "weight" | K_dimensions => "dimensions"
  | K_is_perishable => "is_perishable" | K_expiry_date => "expiry_date"
  | K_days_until_expiry_warning => "days_until_expiry_warning"
  | K_supplier_id => "supplier_id" | K_supplier_sku => "supplier_sku"
  | K_is_active => "is_active" | K_created_at => "created_at"
  | K_updated_at => "updated_at" | K_created_by => "created_by"
  | K_stock_status => "stock_status" | K_is_low_stock => "is_low_stock"
  | K_is_out_of_stock => "is_out_of_stock"
  end.

(** [s.split('T')[0]] *)
Fixpoint before_T (s : string) : string :=
  match s with
  | "" => ""
  | String c s' => if decide (c = "T"%char) then "" else String c (before_T s')
  end.

(** The object that the effect on [product] sets the form data to. *)
Definition populate (product : Product.t) : PartialProduct :=
  λ k,
    match k return option (key_type k) with
    | K_name => Some (Js.or_string (Some (Product.name product)) "")
    | K_description => Some (Js.or_string (Product.description product) "")
    | K_sku => Some (Js.or_string (Some (Product.sku product)) "")
    | K_barcode => Some (Js.or_string (Product.barcode product) "")
    | K_category => Some (Js.or_string (Some (Product.category product)) "")
    | K_subcategory => Some (Js.or_string (Product.subcategory product) "")
    | K_brand => Some (Js.or_string (Product.brand product) "")
    | K_cost_price => Some (Js.or_Q (Some (Product.cost_price product)) 0)
    | K_selling_price => Some (Js.or_Q (Some (Product.selling_price product)) 0)
    | K_min_stock_threshold =>
        Some (Js.or_Z (Some (Product.min_stock_threshold product)) 10)
    | K_max_stock_threshold =>
        Some (Js.or_Z (Product.max_stock_threshold product) 1000)
    | K_aisle => Some (Js.or_string (Product.aisle product) "")
    | K_shelf => Some (Js.or_string (Product.shelf product) "")
    | K_bin_location => Some (Js.or_string (Product.bin_location product) "")
    | K_warehouse_id => Some (Js.or_string (Product.warehouse_id product) "")
    | K_unit_of_measure =>
        Some (Js.or_string (Some (Product.unit_of_measure product)) "pieces")
    | K_weight => Some (Js.or_Q (Product.weight product) 0)
    | K_dimensions => Some (Js.or_string (Product.dimensions product) "")
    | K_is_perishable => Some (Product.is_perishable product)
    | K_expiry_date =>
        Some (if Js.truthy_ostring (Product.expiry_date product)
              then before_T (default "" (Product.expiry_date product))
              else "")
    | K_days_until_expiry_warning =>
        Some (Js.or_Z (Some (Product.days_until_expiry_warning product)) 7)
    | K_supplier_id => Some (Js.or_string (Product.supplier_id product) "")
    | K_supplier_sku => Some (Js.or_string (Product.supplier_sku product) "")
    | _ => None
    end.

(** The state of the component: the [product] prop, and the [formData] and
    [errors] cells. *)
Record State := {
  product : option Product.t;
  formData : PartialProduct;
  errors : gmap string string
}.

(** The first render. *)
Definition initial : State :=
  {| product := None; formData := empty_partial; errors := ∅ |}.

(** The parent passes a product (or [null]); the effect on [product] then
    populates the form, when the product is not [null]. *)
Definition setProduct (p : option Product.t) (st : State) : State :=
  match p with
  | Some p' => {| product := p; formData := populate p'; errors := ∅ |}
  | None => {| product := None; formData := formData st; errors := errors st |}
  end.

(** [handleInputChange(field, value)] *)
Definition handleInputChange (field : ProductKey) (value : key_type field)
    (st : State) : State :=
  {| product := product st;
     formData := set_key (formData st) field (Some value);
     errors :=
       if Js.truthy_ostring (errors st !! key_name field)
       then delete (key_name field) (errors st)
       else errors st |}.

(** [!formData.name?.trim()] *)
Definition blank (s : option string) : bool :=
  match s with
  | Some s => negb (Js.truthy_string (Js.trim s))
  | None => true
  end.

(** The [newErrors] that [validateForm] builds. *)
Definition formErrors (formData : PartialProduct) : gmap string string :=
  let newErrors : gmap string string := ∅ in
  let newErrors :=
    Js.assign_if (blank (formData K_name))
      "name" "Product name is required" newErrors in
  let newErrors :=
    Js.assign_if (blank (formData K_sku))
      "sku" "SKU is required" newErrors in
  let newErrors :=
    Js.assign_if (blank (formData K_category))
      "category" "Category is required" newErrors in
  let newErrors :=
    Js.assign_if (Js.Qleb (Js.or_Q (formData K_cost_price) 0) 0)
      "cost_price" "Cost price must be greater than 0" newErrors in
  let newErrors :=
    Js.assign_if (Js.Qleb (Js.or_Q (formData K_selling_price) 0) 0)
      "selling_price" "Selling price must be greater than 0" newErrors in
  let newErrors :=
    Js.assign_if (Js.or_Z (formData K_min_stock_threshold) 0 <? 0)%Z
      "min_stock_threshold" "Minimum threshold cannot be negative" newErrors in
  let newErrors :=
    Js.assign_if (Js.or_Z (formData K_max_stock_threshold) 0
                  <=? Js.or_Z (formData K_min_stock_threshold) 0)%Z
      "max_stock_threshold" "Maximum threshold must be greater than minimum threshold"
      newErrors in
  let newErrors :=
    Js.assign_if (Js.Qleb (Js.or_Q (formData K_selling_price) 0)
                          (Js.or_Q (formData K_cost_price) 0))
      "selling_price" "Selling price should be greater than cost price" newErrors in
  let newErrors :=
    Js.assign_if (default false (formData K_is_perishable)
                  && negb (Js.truthy_ostring (formData K_expiry_date)))
      "expiry_date" "Expiry date is required for perishable items" newErrors in
  newErrors.

(** [validateForm()]: the errors it sets, and its result. *)
Definition validateForm (formData : PartialProduct) : gmap string string * bool :=
  let newErrors := formErrors formData in
  (newErrors, Js.no_keys newErrors).

(** The [updatedData] that [handleSubmit] builds, where the conversion of
    the expiry date returns; when it throws, [onSave] is not called
    ([InventoryDialogs] follows that case). *)
Definition updatedData (toISOString : string → string) (formData : PartialProduct)
  : PartialProduct :=
  let o1 := set_key formData K_expiry_date
              (match formData K_expiry_date with
               | Some d => if Js.truthy_string d && negb (bool_decide (Js.trim d = ""))
                           then Some (toISOString d) else None
               | None => None
               end) in
  let o2 := set_key o1 K_description (Js.or_undefined (formData K_description)) in
  let o3 := set_key o2 K_barcode (Js.or_undefined (formData K_barcode)) in
  let o4 := set_key o3 K_subcategory (Js.or_undefined (formData K_subcategory)) in
  let o5 := set_key o4 K_brand (Js.or_undefined (formData K_brand)) in
  let o6 := set_key o5 K_aisle (Js.or_undefined (formData K_aisle)) in
  let o7 := set_key o6 K_shelf (Js.or_undefined (formData K_shelf)) in
  let o8 := set_key o7 K_bin_location (Js.or_undefined (formData K_bin_location)) in
  let o9 := set_key o8 K_warehouse_id (Js.or_undefined (formData K_warehouse_id)) in
  let o10 := set_key o9 K_dimensions (Js.or_undefined (formData K_dimensions)) in
  let o11 := set_key o10 K_supplier_id (Js.or_undefined (formData K_supplier_id)) in
  set_key o11 K_supplier_sku (Js.or_undefined (formData K_supplier_sku)).

(** [handleSubmit(e)]: the state with the errors set, and the arguments that
    [onSave] is called with, if it is called. *)
Definition handleSubmit (toISOString : string → string) (st : State)
  : State * option (string * PartialProduct) :=
  let '(newErrors, valid) := validateForm (formData st) in
  let st' := {| product := product st; formData := formData st; errors := newErrors |} in
  match product st with
  | Some p =>
      if negb valid then (st', None)
      else (st', Some (Product.id p, updatedData toISOString (formData st)))
  | None => (st', None)
  end.

(** The inputs of the form that are bound to [handleInputChange], and the
    key each one passes to it.  The SKU input is rendered [disabled] and has
    no [onChange]. *)
Inductive Input :=
| I_name | I_barcode | I_category | I_brand | I_unit_of_measure
| I_cost_price | I_selling_price | I_min_stock_threshold
| I_max_stock_threshold | I_aisle | I_shelf | I_bin_location
| I_is_perishable | I_expiry_date | I_days_until_expiry_warning
| I_description.

Definition input_key (i : Input) : ProductKey :=
  match i with
  | I_name => K_name | I_barcode => K_barcode | I_category => K_category
  | I_brand => K_brand | I_unit_of_measure => K_unit_of_measure
  | I_cost_price => K_cost_price | I_selling_price => K_selling_price
  | I_min_stock_threshold => K_min_stock_threshold
  | I_max_stock_threshold => K_max_stock_threshold
  | I_aisle => K_aisle | I_shelf => K_shelf | I_bin_location => K_bin_location
  | I_is_perishable => K_is_perishable | I_expiry_date => K_expiry_date
  | I_days_until_expiry_warning => K_days_until_expiry_warning
  | I_description => K_description
  end.

Inductive Event :=
| Open (p : option Product.t)
| Change (i : Input) (value : key_type (input_key i))
| Submit (toISOString : string → string).

Definition handle (st : State) (ev : Event) : State :=
  match ev with
  | Open p => setProduct p st
  | Change i value => handleInputChange (input_key i) value st
  | Submit toISOString => fst (handleSubmit toISOString st)
  end.

(** The states of the edit form that a sequence of events leads to. *)
Inductive reachable : State → Prop :=
| reachable_init : reachable initial
| reachable_step st ev : reachable st → reachable (handle st ev).

End EditProductModal.

(** ** pages/inventory.tsx *)

Module InventoryPage.

Import ProductService.

(** The three products of [getMockProducts()]. *)
Definition whole_milk : Product.t :=
  {| Product.id := "1";
     Product.name := "Whole Milk 1L";
     Product.description := None;
     Product.sku := "MILK-001";
     Product.barcode := None;
     Product.category := "Dairy";
     Product.subcategory := None;
     Product.brand := None;
     Product.cost_price := 0.89;
     Product.selling_price := 1.29;
     Product.quantity_in_stock := 45;
     Product.min_stock_threshold := 20;
     Product.max_stock_threshold := None;
     Product.aisle := Some "A1";
     Product.shelf := Some "S3";
     Product.bin_location := None;
     Product.warehouse_id := None;
     Product.unit_of_measure := "liters";
     Product.weight := None;
     Product.dimensions := None;
     Product.is_perishable := true;
     Product.expiry_date := Some "2024-12-15";
     Product.days_until_expiry_warning := 7;
     Product.supplier_id := None;
     Product.supplier_sku := None;
     Product.is_active := true;
     Product.created_at := "2024-01-01T00:00:00Z";
     Product.updated_at := "2024-01-01T00:00:00Z";
     Product.created_by := None;
     Product.stock_status := NORMAL;
     Product.is_low_stock := false;
     Product.is_out_of_stock := false |}.

Definition bread : Product.t :=
  {| Product.id := "2";
     Product.name := "Bread White Sliced";
     Product.description := None;
     Product.sku := "BREAD-001";
     Product.barcode := None;
     Product.category := "Bakery";
     Product.subcategory := None;
     Product.brand := None;
     Product.cost_price := 1.20;
     Product.selling_price := 2.50;
     Product.quantity_in_stock := 8;
     Product.min_stock_threshold := 15;
     Product.max_stock_threshold := None;
     Product.aisle := Some "B2";
     Product.shelf := Some "S1";
     Product.bin_location := None;
     Product.warehouse_id := None;
     Product.unit_of_measure := "pieces";
     Product.weight := None;
     Product.dimensions := None;
     Product.is_perishable := true;
     Product.expiry_date := Some "2024-11-20";
     Product.days_until_expiry_warning := 3;
     Product.supplier_id := None;
     Product.supplier_sku := None;
     Product.is_active := true;
     Product.created_at := "2024-01-01T00:00:00Z";
     Product.updated_at := "2024-01-01T00:00:00Z";
     Product.created_by := None;
     Product.stock_status := LOW_STOCK;
     Product.is_low_stock := true;
     Product.is_out_of_stock := false |}.

Definition bananas : Product.t :=
  {| Product.id := "3";
     Product.name := "Bananas";
     Product.description := None;
     Product.sku := "FRUIT-001";
     Product.barcode := None;
     Product.category := "Produce";
     Product.subcategory := None;
     Product.brand := None;
     Product.cost_price := 0.45;
     Product.selling_price := 0.99;
     Product.quantity_in_stock := 0;
     Product.min_stock_threshold := 10;
     Product.max_stock_threshold := None;
     Product.aisle := Some "C1";
     Product.shelf := Some "S2";
     Product.bin_location := None;
     Product.warehouse_id := None;
     Product.unit_of_measure := "kg";
     Product.weight := None;
     Product.dimensions := None;
     Product.is_perishable := true;
     Product.expiry_date := Some "2024-11-18";
     Product.days_until_expiry_warning := 2;
     Product.supplier_id := None;
     Product.supplier_sku := None;
     Product.is_active := true;
     Product.created_at := "2024-01-01T00:00:00Z";
     Product.updated_at := "2024-01-01T00:00:00Z";
     Product.created_by := None;
     Product.stock_status := OUT_OF_STOCK;
     Product.is_low_stock := false;
     Product.is_out_of_stock := true |}.

(** [getMockProducts()] *)
Definition getMockProducts : list Product.t := [whole_milk; bread; bananas].

(** What [loadProducts] sets the product list to: the products of the
    response of the API, or the mock products when the request fails. *)
Definition loadProducts (response : option ProductListResponse) : list Product.t :=
  match response with
  | Some r => products r
  | None => getMockProducts
  end.



(** [handleEditProduct(productId, updates)]: the request it sends. *)
Definition handleEditProduct (productId : string) (updates : PartialProduct)
  : Request PartialProduct :=
  updateProduct productId updates.

(** [handleEditProduct], once the API has answered with [updatedProduct]:
    [prev.map(p => p.id === productId ? updatedProduct : p)]. *)
Definition editedProducts (productId : string) (updatedProduct : Product.t)
    (prev : list Product.t) : list Product.t :=
  (λ p, if decide (Product.id p = productId) then updatedProduct else p) <$> prev.

End InventoryPage.

(** ** JavaScript strings *)

Module JsString.

(** [c.toLowerCase()] and [c.toUpperCase()] on one character, for the
    letters of the ASCII range; any other character is left as it is. *)
Definition lower (c : ascii) : ascii :=
  let n := nat_of_ascii c in
  if (65 <=? n)%nat && (n <=? 90)%nat then ascii_of_nat (n + 32) else c.

Definition upper (c : ascii) : ascii :=
  let n := nat_of_ascii c in
  if (97 <=? n)%nat && (n <=? 122)%nat then ascii_of_nat (n - 32) else c.

(** [s.toLowerCase()] *)
Fixpoint toLowerCase (s : string) : string :=
  match s with
  | "" => ""
  | String c s' => String (lower c) (toLowerCase s')
  end.

(** [s.toUpperCase()] *)
Fixpoint toUpperCase (s : string) : string :=
  match s with
  | "" => ""
  | String c s' => String (upper c) (toUpperCase s')
  end.

(** [s.includes(t)]: [t] occurs in [s], at some position. *)
Fixpoint includes (s t : string) : bool :=
  String.prefix t s ||
  match s with
  | "" => false
  | String _ s' => includes s' t
  end.

(** [a.toLowerCase().includes(term.toLowerCase())] *)
Definition matches (a term : string) : bool :=
  includes (toLowerCase a) (toLowerCase term).

End JsString.

(** ** components/inventory/CreatePurchaseOrderModal.tsx: the product search *)

Module OrderForm.

(** [filteredProducts]: the products that the search box of the order form
    offers, for the products loaded from the API and the search term. *)
Definition filteredProducts (products : list ProductService.Product.t)
    (productSearchTerm : string) : list ProductService.Product.t :=
  filter (λ product,
            JsString.matches (ProductService.Product.name product) productSearchTerm
            || JsString.matches (ProductService.Product.sku product) productSearchTerm)
         products.

(** The events of a session on the form, one after the other. *)
Definition run (st : CreatePurchaseOrderModal.State)
    (events : list CreatePurchaseOrderModal.Event) : CreatePurchaseOrderModal.State :=
  fold_left CreatePurchaseOrderModal.handle events st.

(** The values of [Date.now()] at the clicks on a product of a session. *)
Fixpoint clicks (events : list CreatePurchaseOrderModal.Event) : list N :=
  match events with
  | [] => []
  | CreatePurchaseOrderModal.ClickProduct now _ :: events' => now :: clicks events'
  | _ :: events' => clicks events'
  end.

End OrderForm.

(** ** pages/inventory.tsx: the list of products and its handlers *)

Module InventoryList.

Import ProductService.

(** [filteredProducts]: the rows of the table. *)
Definition filteredProducts (products : list Product.t) (searchTerm : string)
    (selectedCategory : string) : list Product.t :=
  filter (λ product,
            let matchesSearch :=
              JsString.matches (Product.name product) searchTerm
              || JsString.matches (Product.sku product) searchTerm in
            let matchesCategory :=
              bool_decide (selectedCategory = "")
              || bool_decide (Product.category product = selectedCategory) in
            matchesSearch && matchesCategory)
         products.

(** [[...new Set(values)]]: the values without repetition, each at its first
    occurrence. *)
Definition unique (values : list string) : list string :=
  fold_left (λ seen value, if decide (value ∈ seen) then seen else seen ++ [value])
            values [].

(** [categories]: the options of the category select. *)
Definition categories (products : list Product.t) : list string :=
  unique (Product.category <$> products).

(** [handleAddProduct(productData)]: the product list and whether the add
    dialog is shown, after the API has answered; [created] is the product
    of the response, or [None] when the request failed.  The handler catches
    the failure: it never throws to its caller. *)
Definition handleAddProduct (created : option Product.t)
    (prev : list Product.t) (showAddModal : bool) : list Product.t * bool :=
  match created with
  | Some newProduct => (newProduct :: prev, false)
  | None => (prev, showAddModal)
  end.

(** [handleDeleteProduct(productId)], once the API has accepted the
    deletion: [prev.filter(p => p.id !== productId)]. *)
Definition deletedProducts (productId : string) (prev : list Product.t)
  : list Product.t :=
  filter (λ p, Product.id p ≠ productId) prev.

End InventoryList.

(** ** components/inventory/AddProductModal.tsx: the inputs of the form *)

Module AddProductForm.

Import ProductService.ProductCreateData.

(** The inputs of the form that are bound to [handleInputChange], named by
    the field each one passes to it. *)
Inductive Input :=
| I_name
| I_sku
| I_barcode
| I_category
| I_brand
| I_unit_of_measure
| I_cost_price
| I_selling_price
| I_quantity_in_stock
| I_min_stock_threshold
| I_max_stock_threshold
| I_aisle
| I_shelf
| I_bin_location
| I_is_perishable
| I_expiry_date
| I_days_until_expiry_warning
| I_description.

Definition input_name (i : Input) : string :=
  match i with
  | I_name => "name"
  | I_sku => "sku"
  | I_barcode => "barcode"
  | I_category => "category"
  | I_brand => "brand"
  | I_unit_of_measure => "unit_of_measure"
  | I_cost_price => "cost_price"
  | I_selling_price => "selling_price"
  | I_quantity_in_stock => "quantity_in_stock"
  | I_min_stock_threshold => "min_stock_threshold"
  | I_max_stock_threshold => "max_stock_threshold"
  | I_aisle => "aisle"
  | I_shelf => "shelf"
  | I_bin_location => "bin_location"
  | I_is_perishable => "is_perishable"
  | I_expiry_date => "expiry_date"
  | I_days_until_expiry_warning => "days_until_expiry_warning"
  | I_description => "description"
  end.

(** The type of the value that the input passes. *)
Definition input_type (i : Input) : Type :=
  match i with
  | I_cost_price | I_selling_price => Q
  | I_quantity_in_stock | I_min_stock_threshold | I_max_stock_threshold | I_days_until_expiry_warning => Z
  | I_is_perishable => bool
  | _ => string
  end.

(** [{ ...prev, [field]: value }] *)
Definition setField (formData : AddProductModal.ProductFormData) (i : Input)
  : input_type i → AddProductModal.ProductFormData :=
  match i with
  | I_name => λ v,
      mk v (description formData) (sku formData) (barcode formData) (category formData)
        (subcategory formData) (brand formData) (cost_price formData)
        (selling_price formData) (quantity_in_stock formData)
        (min_stock_threshold formData) (max_stock_threshold formData) (aisle formData)
        (shelf formData) (bin_location formData) (warehouse_id formData)
        (unit_of_measure formData) (weight formData) (dimensions formData)
        (is_perishable formData) (expiry_date formData)
        (days_until_expiry_warning formData) (supplier_id formData)
        (supplier_sku formData)
  | I_sku => λ v,
      mk (name formData) (description formData) v (barcode formData) (category formData)
        (subcategory formData) (brand formData) (cost_price formData)
        (selling_price formData) (quantity_in_stock formData)
        (min_stock_threshold formData) (max_stock_threshold formData) (aisle formData)
        (shelf formData) (bin_location formData) (warehouse_id formData)
        (unit_of_measure formData) (weight formData) (dimensions formData)
        (is_perishable formData) (expiry_date formData)
        (days_until_expiry_warning formData) (supplier_id formData)
        (supplier_sku formData)
  | I_barcode => λ v,
      mk (name formData) (description formData) (sku formData) (Some v)
        (category formData) (subcategory formData) (brand formData)
        (cost_price formData) (selling_price formData) (quantity_in_stock formData)
        (min_stock_threshold formData) (max_stock_threshold formData) (aisle formData)
        (shelf formData) (bin_location formData) (warehouse_id formData)
        (unit_of_measure formData) (weight formData) (dimensions formData)
        (is_perishable formData) (expiry_date formData)
        (days_until_expiry_warning formData) (supplier_id formData)
        (supplier_sku formData)
  | I_category => λ v,
      mk (name formData) (description formData) (sku formData) (barcode formData) v
        (subcategory formData) (brand formData) (cost_price formData)
        (selling_price formData) (quantity_in_stock formData)
        (min_stock_threshold formData) (max_stock_threshold formData) (aisle formData)
        (shelf formData) (bin_location formData) (warehouse_id formData)
        (unit_of_measure formData) (weight formData) (dimensions formData)
        (is_perishable formData) (expiry_date formData)
        (days_until_expiry_warning formData) (supplier_id formData)
        (supplier_sku formData)
  | I_brand => λ v,
      mk (name formData) (description formData) (sku formData) (barcode formData)
        (category formData) (subcategory formData) (Some v) (cost_price formData)
        (selling_price formData) (quantity_in_stock formData)
        (min_stock_threshold formData) (max_stock_threshold formData) (aisle formData)
        (shelf formData) (bin_location formData) (warehouse_id formData)
        (unit_of_measure formData) (weight formData) (dimensions formData)
        (is_perishable formData) (expiry_date formData)
        (days_until_expiry_warning formData) (supplier_id formData)
        (supplier_sku formData)
  | I_unit_of_measure => λ v,
      mk (name formData) (description formData) (sku formData) (barcode formData)
        (category formData) (subcategory formData) (brand formData)
        (cost_price formData) (selling_price formData) (quantity_in_stock formData)
        (min_stock_threshold formData) (max_stock_threshold formData) (aisle formData)
        (shelf formData) (bin_location formData) (warehouse_id formData) v
        (weight formData) (dimensions formData) (is_perishable formData)
        (expiry_date formData) (days_until_expiry_warning formData)
        (supplier_id formData) (supplier_sku formData)
  | I_cost_price => λ v,
      mk (name formData) (description formData) (sku formData) (barcode formData)
        (category formData) (subcategory formData) (brand formData) v
        (selling_price formData) (quantity_in_stock formData)
        (min_stock_threshold formData) (max_stock_threshold formData) (aisle formData)
        (shelf formData) (bin_location formData) (warehouse_id formData)
        (unit_of_measure formData) (weight formData) (dimensions formData)
        (is_perishable formData) (expiry_date formData)
        (days_until_expiry_warning formData) (supplier_id formData)
        (supplier_sku formData)
  | I_selling_price => λ v,
      mk (name formData) (description formData) (sku formData) (barcode formData)
        (category formData) (subcategory formData) (brand formData)
        (cost_price formData) v (quantity_in_stock formData)
        (min_stock_threshold formData) (max_stock_threshold formData) (aisle formData)
        (shelf formData) (bin_location formData) (warehouse_id formData)
        (unit_of_measure formData) (weight formData) (dimensions formData)
        (is_perishable formData) (expiry_date formData)
        (days_until_expiry_warning formData) (supplier_id formData)
        (supplier_sku formData)
  | I_quantity_in_stock => λ v,
      mk (name formData) (description formData) (sku formData) (barcode formData)
        (category formData) (subcategory formData) (brand formData)
        (cost_price formData) (selling_price formData) v (min_stock_threshold formData)
        (max_stock_threshold formData) (aisle formData) (shelf formData)
        (bin_location formData) (warehouse_id formData) (unit_of_measure formData)
        (weight formData) (dimensions formData) (is_perishable formData)
        (expiry_date formData) (days_until_expiry_warning formData)
        (supplier_id formData) (supplier_sku formData)
  | I_min_stock_threshold => λ v,
      mk (name formData) (description formData) (sku formData) (barcode formData)
        (category formData) (subcategory formData) (brand formData)
        (cost_price formData) (selling_price formData) (quantity_in_stock formData) v
        (max_stock_threshold formData) (aisle formData) (shelf formData)
        (bin_location formData) (warehouse_id formData) (unit_of_measure formData)
        (weight formData) (dimensions formData) (is_perishable formData)
        (expiry_date formData) (days_until_expiry_warning formData)
        (supplier_id formData) (supplier_sku formData)
  | I_max_stock_threshold => λ v,
      mk (name formData) (description formData) (sku formData) (barcode formData)
        (category formData) (subcategory formData) (brand formData)
        (cost_price formData) (selling_price formData) (quantity_in_stock formData)
        (min_stock_threshold formData) (Some v) (aisle formData) (shelf formData)
        (bin_location formData) (warehouse_id formData) (unit_of_measure formData)
        (weight formData) (dimensions formData) (is_perishable formData)
        (expiry_date formData) (days_until_expiry_warning formData)
        (supplier_id formData) (supplier_sku formData)
  | I_aisle => λ v,
      mk (name formData) (description formData) (sku formData) (barcode formData)
        (category formData) (subcategory formData) (brand formData)
        (cost_price formData) (selling_price formData) (quantity_in_stock formData)
        (min_stock_threshold formData) (max_stock_threshold formData) (Some v)
        (shelf formData) (bin_location formData) (warehouse_id formData)
        (unit_of_measure formData) (weight formData) (dimensions formData)
        (is_perishable formData) (expiry_date formData)
        (days_until_expiry_warning formData) (supplier_id formData)
        (supplier_sku formData)
  | I_shelf => λ v,
      mk (name formData) (description formData) (sku formData) (barcode formData)
        (category formData) (subcategory formData) (brand formData)
        (cost_price formData) (selling_price formData) (quantity_in_stock formData)
        (min_stock_threshold formData) (max_stock_threshold formData) (aisle formData)
        (Some v) (bin_location formData) (warehouse_id formData)
        (unit_of_measure formData) (weight formData) (dimensions formData)
        (is_perishable formData) (expiry_date formData)
        (days_until_expiry_warning formData) (supplier_id formData)
        (supplier_sku formData)
  | I_bin_location => λ v,
      mk (name formData) (description formData) (sku formData) (barcode formData)
        (category formData) (subcategory formData) (brand formData)
        (cost_price formData) (selling_price formData) (quantity_in_stock formData)
        (min_stock_threshold formData) (max_stock_threshold formData) (aisle formData)
        (shelf formData) (Some v) (warehouse_id formData) (unit_of_measure formData)
        (weight formData) (dimensions formData) (is_perishable formData)
        (expiry_date formData) (days_until_expiry_warning formData)
        (supplier_id formData) (supplier_sku formData)
  | I_is_perishable => λ v,
      mk (name formData) (description formData) (sku formData) (barcode formData)
        (category formData) (subcategory formData) (brand formData)
        (cost_price formData) (selling_price formData) (quantity_in_stock formData)
        (min_stock_threshold formData) (max_stock_threshold formData) (aisle formData)
        (shelf formData) (bin_location formData) (warehouse_id formData)
        (unit_of_measure formData) (weight formData) (dimensions formData) v
        (expiry_date formData) (days_until_expiry_warning formData)
        (supplier_id formData) (supplier_sku formData)
  | I_expiry_date => λ v,
      mk (name formData) (description formData) (sku formData) (barcode formData)
        (category formData) (subcategory formData) (brand formData)
        (cost_price formData) (selling_price formData) (quantity_in_stock formData)
        (min_stock_threshold formData) (max_stock_threshold formData) (aisle formData)
        (shelf formData) (bin_location formData) (warehouse_id formData)
        (unit_of_measure formData) (weight formData) (dimensions formData)
        (is_perishable formData) (Some v) (days_until_expiry_warning formData)
        (supplier_id formData) (supplier_sku formData)
  | I_days_until_expiry_warning => λ v,
      mk (name formData) (description formData) (sku formData) (barcode formData)
        (category formData) (subcategory formData) (brand formData)
        (cost_price formData) (selling_price formData) (quantity_in_stock formData)
        (min_stock_threshold formData) (max_stock_threshold formData) (aisle formData)
        (shelf formData) (bin_location formData) (warehouse_id formData)
        (unit_of_measure formData) (weight formData) (dimensions formData)
        (is_perishable formData) (expiry_date formData) v (supplier_id formData)
        (supplier_sku formData)
  | I_description => λ v,
      mk (name formData) (Some v) (sku formData) (barcode formData) (category formData)
        (subcategory formData) (brand formData) (cost_price formData)
        (selling_price formData) (quantity_in_stock formData)
        (min_stock_threshold formData) (max_stock_threshold formData) (aisle formData)
        (shelf formData) (bin_location formData) (warehouse_id formData)
        (unit_of_measure formData) (weight formData) (dimensions formData)
        (is_perishable formData) (expiry_date formData)
        (days_until_expiry_warning formData) (supplier_id formData)
        (supplier_sku formData)
  end.

(** The state of the form: the [formData] and [errors] cells. *)
Record State := {
  formData : AddProductModal.ProductFormData;
  errors : gmap string string
}.

Definition initial : State :=
  {| formData := AddProductModal.initialFormData; errors := ∅ |}.

(** [handleInputChange(field, value)] *)
Definition handleInputChange (i : Input) (value : input_type i) (st : State) : State :=
  {| formData := setField (formData st) i value;
     errors :=
       if Js.truthy_ostring (errors st !! input_name i)
       then delete (input_name i) (errors st)
       else errors st |}.

(** What the browser hands to the [onChange] of an input: the text of a text
    input, the result of [parseFloat] or [parseInt] on the text of a number
    input ([None] for [NaN]), the state of the checkbox. *)
Definition raw_type (i : Input) : Type :=
  match i with
  | I_cost_price | I_selling_price => option Q
  | I_quantity_in_stock | I_min_stock_threshold | I_max_stock_threshold | I_days_until_expiry_warning => option Z
  | I_is_perishable => bool
  | _ => string
  end.

(** The value that the [onChange] of an input passes to [handleInputChange]:
    the SKU is upper-cased, a price that does not parse is 0, as is a
    quantity or a threshold, and a number of days that does not parse is
    7. *)
Definition input_value (i : Input) : raw_type i → input_type i :=
  match i with
  | I_sku => λ raw, JsString.toUpperCase raw
  | I_cost_price => λ raw, Js.or_Q raw 0
  | I_selling_price => λ raw, Js.or_Q raw 0
  | I_quantity_in_stock => λ raw, Js.or_Z raw 0
  | I_min_stock_threshold => λ raw, Js.or_Z raw 0
  | I_max_stock_threshold => λ raw, Js.or_Z raw 0
  | I_days_until_expiry_warning => λ raw, Js.or_Z raw 7
  | I_name => λ raw, raw
  | I_barcode => λ raw, raw
  | I_category => λ raw, raw
  | I_brand => λ raw, raw
  | I_unit_of_measure => λ raw, raw
  | I_aisle => λ raw, raw
  | I_shelf => λ raw, raw
  | I_bin_location => λ raw, raw
  | I_is_perishable => λ raw, raw
  | I_expiry_date => λ raw, raw
  | I_description => λ raw, raw
  end.

(** [handleSubmit(e)], to its end: after a form that passes validation has
    been passed to [onSave], the dialog is closed and the form is set to
    the one of the first render, unless [onSave], or the conversion of the
    expiry date before it, threw. *)
Definition handleSubmit (toISOString : string → string) (threw : bool) (st : State)
  : State * option ProductService.ProductCreateData.t :=
  match AddProductModal.handleSubmit toISOString (formData st) with
  | (newErrors, Some productData) =>
      ({| formData := if threw then formData st else AddProductModal.initialFormData;
          errors := newErrors |}, Some productData)
  | (newErrors, None) => ({| formData := formData st; errors := newErrors |}, None)
  end.

Inductive Event :=
| Change (i : Input) (raw : raw_type i)
| Submit (toISOString : string → string) (threw : bool).

Definition handle (st : State) (ev : Event) : State :=
  match ev with
  | Change i raw => handleInputChange i (input_value i raw) st
  | Submit toISOString threw => fst (handleSubmit toISOString threw st)
  end.

(** The states of the add form that a sequence of events leads to. *)
Inductive reachable : State → Prop :=
| reachable_init : reachable initial
| reachable_step st ev : reachable st → reachable (handle st ev).

End AddProductForm.


(** ** pages/inventory.tsx: the dialogs and the handlers they are given *)

Module InventoryDialogs.

Import ProductService.

(** The state that the add dialog and the handlers it is given read or
    write: the product list and [showAddModal] of the page, and the state of
    the form. *)
Record AddState := {
  add_products : list Product.t;
  showAddModal : bool;
  addForm : AddProductForm.State
}.

(** [new Date(d + 'T00:00:00').toISOString()] throws a RangeError when the
    date cannot be parsed: [toISOString d] is [None] then.  A submission
    evaluates it, inside its [try], when the form passes the checks and its
    expiry date is not blank. *)
Definition conversion_throws (toISOString : string → option string)
    (expiry_date : option string) : bool :=
  match expiry_date with
  | Some d =>
      Js.truthy_string d && negb (bool_decide (Js.trim d = ""))
      && bool_decide (toISOString d = None)
  | None => false
  end.

(** The conversion, where it returns. *)
Definition converted (toISOString : string → option string) (d : string) : string :=
  default "" (toISOString d).

(** The submit button of the add dialog, for the dialog as the page renders
    it: [onSave={handleAddProduct}] and
    [onClose={() => setShowAddModal(false)}].  [created] is the product that
    the API answers with, or [None] when the request fails;
    [handleAddProduct] catches the failure, so [onSave] does not throw.
    When the conversion of the expiry date throws, the [catch] of
    [handleSubmit] is entered before [onSave] is called: nothing is saved,
    the dialog stays and the form keeps its data. *)
Definition submitAddForm (toISOString : string → option string)
    (created : option Product.t) (st : AddState) : AddState :=
  let throws :=
    conversion_throws toISOString
      (ProductCreateData.expiry_date (AddProductForm.formData (addForm st))) in
  match AddProductForm.handleSubmit (converted toISOString) throws (addForm st) with
  | (form, Some productData) =>
      if throws then
        {| add_products := add_products st; showAddModal := showAddModal st;
           addForm := form |}
      else
        let saved :=
          InventoryList.handleAddProduct created (add_products st) (showAddModal st) in
        {| add_products := fst saved; showAddModal := false; addForm := form |}
  | (form, None) =>
      {| add_products := add_products st; showAddModal := showAddModal st;
         addForm := form |}
  end.

(** The state that the edit dialog and the handlers it is given read or
    write. *)
Record EditState := {
  edit_products : list Product.t;
  showEditModal : bool;
  selectedProduct : option Product.t;
  editForm : EditProductModal.State
}.

(** [openEditModal(product)], and the effect of the dialog on its [product]
    prop. *)
Definition openEditModal (product : Product.t) (st : EditState) : EditState :=
  {| edit_products := edit_products st;
     showEditModal := true;
     selectedProduct := Some product;
     editForm := EditProductModal.setProduct (Some product) (editForm st) |}.

(** The submit button of the edit dialog, for the dialog as the page renders
    it: [onSave={handleEditProduct}] and an [onClose] that hides the dialog
    and clears the selected product.  [updated] is the product that the API
    answers with, or [None] when the request fails; [handleEditProduct]
    catches the failure.  When the conversion of the expiry date throws, the
    [catch] of [handleSubmit] is entered before [onSave] is called: nothing
    is sent and the dialog stays. *)
Definition submitEditForm (toISOString : string → option string)
    (updated : option Product.t) (st : EditState) : EditState :=
  match EditProductModal.handleSubmit (converted toISOString) (editForm st) with
  | (form, Some (productId, updates)) =>
      if conversion_throws toISOString
           (EditProductModal.formData (editForm st) K_expiry_date)
      then
        {| edit_products := edit_products st;
           showEditModal := showEditModal st;
           selectedProduct := selectedProduct st;
           editForm := form |}
      else
      {| edit_products :=
           match updated with
           | Some updatedProduct =>
               InventoryPage.editedProducts productId updatedProduct (edit_products st)
           | None => edit_products st
           end;
         showEditModal := false;
         selectedProduct := None;
         editForm := EditProductModal.setProduct None form |}
  | (form, None) =>
      {| edit_products := edit_products st;
         showEditModal := showEditModal st;
         selectedProduct := selectedProduct st;
         editForm := form |}
  end.

End InventoryDialogs.


(** ** What the checks of the product forms require *)

Module FormRules.

Import ProductService.

(** What the checks of the add form require of the form: a name, a SKU and
    a category that are not blank, a cost price above 0 and a selling price
    above the cost price, a stock quantity and a minimum threshold that are
    not negative, a maximum threshold that is 0 (unset) or above the
    minimum, and an expiry date if the product is perishable. *)
Definition add_form_valid (formData : AddProductModal.ProductFormData) : Prop :=
  Js.trim (ProductCreateData.name formData) ≠ "" ∧
  Js.trim (ProductCreateData.sku formData) ≠ "" ∧
  Js.trim (ProductCreateData.category formData) ≠ "" ∧
  (0 < ProductCreateData.cost_price formData)%Q ∧
  (ProductCreateData.cost_price formData < ProductCreateData.selling_price formData)%Q ∧
  (0 <= ProductCreateData.quantity_in_stock formData)%Z ∧
  (0 <= ProductCreateData.min_stock_threshold formData)%Z ∧
  (∀ max, ProductCreateData.max_stock_threshold formData = Some max →
          max = 0%Z ∨ (ProductCreateData.min_stock_threshold formData < max)%Z) ∧
  (ProductCreateData.is_perishable formData = true →
   ∃ date, ProductCreateData.expiry_date formData = Some date ∧ Js.trim date ≠ "").

(** What the checks of the edit form require of the form: a name, a SKU and
    a category that are not blank, a cost price above 0 and a selling price
    above the cost price, a minimum threshold that is not negative (0 if
    there is none) and a maximum threshold above it, and an expiry date if
    the product is perishable. *)
Definition edit_form_valid (formData : PartialProduct) : Prop :=
  (∃ name, formData K_name = Some name ∧ Js.trim name ≠ "") ∧
  (∃ sku, formData K_sku = Some sku ∧ Js.trim sku ≠ "") ∧
  (∃ category, formData K_category = Some category ∧ Js.trim category ≠ "") ∧
  (∃ cost selling,
     formData K_cost_price = Some cost ∧ formData K_selling_price = Some selling ∧
     (0 < cost)%Q ∧ (cost < selling)%Q) ∧
  (0 <= Js.or_Z (formData K_min_stock_threshold) 0)%Z ∧
  (∃ max, formData K_max_stock_threshold = Some max ∧
          (Js.or_Z (formData K_min_stock_threshold) 0 < max)%Z) ∧
  (formData K_is_perishable = Some true →
   ∃ date, formData K_expiry_date = Some date ∧ date ≠ "").

End FormRules.


(** ** hooks/useAuth.ts, hooks/useSessionManager.ts, pages/login.tsx: the session *)

Module Session.

(** [getAuthToken()]; a storage is the [localStorage] of the browser. *)
Definition getAuthToken (storage : gmap string string) : option string :=
  storage !! "access_token".

(** [checkAuth()] of [useAuth], on the page at [pathname]: the value it
    sets [isAuthenticated] to, and the paths it pushes to the router, in
    the order of the two [if]s.  It runs on the pages that call [useAuth]:
    the inventory page and the purchase-order page. *)
Definition checkAuth (storage : gmap string string) (pathname : string) : bool * list string :=
  let token := storage !! "access_token" in
  let authenticated := Js.truthy_ostring token in
  (authenticated,
   (if negb authenticated && negb (bool_decide (pathname = "/login"))
    then ["/login"] else [])
   ++ (if authenticated && bool_decide (pathname = "/login")
       then ["/dashboard"] else [])).

(** [logout()] of [useAuth] and [handleLogout] of the sidebar: the storage
    after it.  Both then push ["/login"]. *)
Definition logout (storage : gmap string string) : gmap string string :=
  delete "access_token" storage.

(** The fields that [handleLogin] reads of the answer of the login
    endpoint. *)
Record LoginData := {
  access_token : string;
  user_id : string;
  email : string
}.

(** [handleLogin(e)], when the endpoint answers with [response.ok]: the
    storage after it.  It also sets the [access_token] cookie, which this
    module does not follow, and then pushes ["/dashboard"]. *)
Definition handleLogin (data : LoginData) (storage : gmap string string) : gmap string string :=
  <["email" := email data]>
    (<["user_id" := user_id data]>
       (<["access_token" := access_token data]> storage)).

(** The state that one [useSessionManager()] of a page reads or writes: the
    module variable [globalSessionExpired], the [showSessionExpiredDialog]
    cell of the hook, and the storage. *)
Record Manager := {
  globalSessionExpired : bool;
  showSessionExpiredDialog : bool;
  storage : gmap string string
}.

(** When the module is loaded and the page is rendered first. *)
Definition initial (storage : gmap string string) : Manager :=
  {| globalSessionExpired := false; showSessionExpiredDialog := false;
     storage := storage |}.

(** [const globalCallbacks: (() => void)[] = []]: no code of the module, or
    of another, puts a callback into the array. *)
Definition globalCallbacks : list (Manager → Manager) := [].

(** [globalCallbacks.forEach(callback => callback())] *)
Definition notify (m : Manager) : Manager :=
  fold_left (λ m callback, callback m) globalCallbacks m.

(** [clearSession()] *)
Definition clearSession (m : Manager) : Manager :=
  {| globalSessionExpired := false; showSessionExpiredDialog := false;
     storage := delete "user" (delete "access_token" (storage m)) |}.

(** [handleSessionExpired()] *)
Definition handleSessionExpired (m : Manager) : Manager :=
  if globalSessionExpired m then m
  else notify {| globalSessionExpired := true; showSessionExpiredDialog := true;
                 storage := storage m |}.

(** [handleRefresh()]; the page is then loaded again. *)
Definition handleRefresh (m : Manager) : Manager :=
  {| globalSessionExpired := false; showSessionExpiredDialog := false;
     storage := storage m |}.

(** [handleLoginRedirect()]; the browser then goes to ["/login"]. *)
Definition handleLoginRedirect (m : Manager) : Manager := clearSession m.

(** [triggerSessionExpired()], the function of the module that [apiRequest]
    calls on an answer with status 401. *)
Definition triggerSessionExpired (m : Manager) : Manager :=
  if globalSessionExpired m then m
  else notify {| globalSessionExpired := true;
                 showSessionExpiredDialog := showSessionExpiredDialog m;
                 storage := storage m |}.

(** What happens to the session manager of the inventory page and of the
    purchase-order page: a request of the page is answered with status 401,
    or one of the two buttons of the dialog is clicked (the countdown of
    the dialog calls [onLogin] as the button does).  The pages take
    [showSessionExpiredDialog], [handleRefresh] and [handleLoginRedirect]
    of the hook, and never call [handleSessionExpired]. *)
Inductive PageEvent := Unauthorized | ClickRefresh | ClickLogin.

Definition handle (m : Manager) (ev : PageEvent) : Manager :=
  match ev with
  | Unauthorized => triggerSessionExpired m
  | ClickRefresh => handleRefresh m
  | ClickLogin => handleLoginRedirect m
  end.

Definition run (m : Manager) (events : list PageEvent) : Manager :=
  fold_left handle events m.

End Session.

(** ** components/ui/session-expired-dialog.tsx: the countdown *)

Module SessionExpiredDialog.

(** The updater that the timer passes to [setCountdown], once a second: the
    new countdown, and whether [onLogin] is called. *)
Definition tick (prev : Z) : Z * bool :=
  if (prev <=? 1)%Z then (0%Z, true) else ((prev - 1)%Z, false).

(** The countdown after a number of seconds, and whether the last of the
    ticks called [onLogin]. *)
Fixpoint after (seconds : nat) (countdown : Z) : Z * bool :=
  match seconds with
  | O => (countdown, false)
  | S seconds' => tick (fst (after seconds' countdown))
  end.

(** [useState(30)], and [setCountdown(30)] when the dialog opens. *)
Definition opened : Z := 30.

End SessionExpiredDialog.

(** ** services/purchaseOrderService.ts: the user that creates an order *)

Module CurrentUser.

Section Decoders.

(** [JSON.parse(userStr)] and [JSON.parse(atob(token.split('.')[1]))]: the
    object that is read, as far as its text properties go, or [None] when
    the expression throws. *)
Variable parseUser : string → option (gmap string string).
Variable decodePayload : string → option (gmap string string).

(** [if (o.k) return o.k]: the property, if it is truthy. *)
Definition truthy_property (o : gmap string string) (k : string) : option string :=
  match o !! k with
  | Some v => if Js.truthy_string v then Some v else None
  | None => None
  end.

(** The first of the properties that is truthy. *)
Fixpoint first_truthy (o : gmap string string) (ks : list string) : option string :=
  match ks with
  | [] => None
  | k :: ks' =>
      match truthy_property o k with
      | Some v => Some v
      | None => first_truthy o ks'
      end
  end.

(** The first block of [getCurrentUserId]: the user of the storage. *)
Definition storedUser (storage : gmap string string) : option string :=
  match storage !! "user" with
  | Some userStr =>
      if Js.truthy_string userStr then
        match parseUser userStr with
        | Some user => first_truthy user ["id"; "email"]
        | None => None
        end
      else None
  | None => None
  end.

(** The second block: the payload of the token. *)
Definition tokenUser (storage : gmap string string) : option string :=
  match Session.getAuthToken storage with
  | Some token =>
      if Js.truthy_string token then
        match decodePayload token with
        | Some payload => first_truthy payload ["sub"; "user_id"; "email"]
        | None => None
        end
      else None
  | None => None
  end.

(** [getCurrentUserId()] *)
Definition getCurrentUserId (storage : gmap string string) : string :=
  match storedUser storage with
  | Some id => id
  | None =>
      match tokenUser storage with
      | Some id => id
      | None => "anonymous-user"
      end
  end.

(** [params.toString()] for the one parameter [created_by]: the encoding of
    the value is that of [URLSearchParams]. *)
Variable encode : string → string.

(** [PurchaseOrderService.createPurchaseOrder(orderData, createdBy)]: the
    request it sends, or [None] when it throws 'User ID is required but not
    found. Please log in again.' *)
Definition createPurchaseOrder (orderData : PurchaseOrderService.CreatePurchaseOrderData)
    (createdBy : string)
  : option (ProductService.Request PurchaseOrderService.CreatePurchaseOrderData) :=
  if negb (Js.truthy_string createdBy) || bool_decide (Js.trim createdBy = "") then None
  else Some {| ProductService.endpoint :=
                 "/api/purchase-orders?created_by=" +:+ encode createdBy;
               ProductService.method := ProductService.POST;
               ProductService.body := Some orderData |}.

(** The call of [handleSubmit] of the order form:
    [PurchaseOrderService.createPurchaseOrder(orderData, getCurrentUserId())]. *)
Definition submitOrder (storage : gmap string string)
    (orderData : PurchaseOrderService.CreatePurchaseOrderData)
  : option (ProductService.Request PurchaseOrderService.CreatePurchaseOrderData) :=
  createPurchaseOrder orderData (getCurrentUserId storage).

End Decoders.

End CurrentUser.


(** ** The purchase-order aggregate behind the API: its totals

    The order form only posts the line items of a new order (product,
    quantity, unit price): the totals of an order are kept by the API,
    whose implementation is not among the sources.  This module models the
    aggregate from the specification, as far as its totals go. *)

Module PurchaseOrderAggregate.

Import Ledger(OrderStatus, DRAFT, PENDING, APPROVED, ORDERED, SHIPPED, DELIVERED,
              CANCELLED, Error, ValidationError, NotFoundError,
              InvalidStateTransitionError, Outcome, Done, Failed).

(** Modelled from the spec: a Purchase Order Item, as far as the totals go
    (the purchase-order tables of the API are missing): it references a
    product id, and has quantity_ordered, unit_price and total_price.
    Monetary values are decimal, so they are exact. *)
Record Item := {
  item_id : string;
  item_product_id : string;
  quantity_ordered : Z;
  unit_price : Q;
  total_price : Q
}.

(** Modelled from the spec: total_price = quantity_ordered × unit_price. *)
Definition make_item (id product : string) (quantity : Z) (price : Q) : Item :=
  {| item_id := id;
     item_product_id := product;
     quantity_ordered := quantity;
     unit_price := price;
     total_price := inject_Z quantity * price |}.

(** Modelled from the spec: the status and the financial fields of a
    Purchase Order: an ordered collection of items; shipping_cost and
    discount_amount, which are entered directly; and subtotal, tax_amount
    and total_amount, which are derived from the line items. *)
Record Order := {
  status : OrderStatus;
  items : list Item;
  shipping_cost : Q;
  discount_amount : Q;
  subtotal : Q;
  tax_amount : Q;
  total_amount : Q
}.

(** Modelled from the spec: the fixed tax rate of 20%. *)
Definition tax_rate : Q := 20 # 100.

(** The sum of the total prices of the line items. *)
Definition sum_total_price (items : list Item) : Q :=
  foldr (λ item sum, total_price item + sum)%Q 0%Q items.

(** Modelled from the spec: the recomputation rule: subtotal = Σ(line
    total_price), tax_amount = tax rate × subtotal, total_amount = subtotal
    + tax + shipping − discount, from the line items given. *)
Definition recompute (s : OrderStatus) (items : list Item) (shipping discount : Q)
  : Order :=
  let subtotal := sum_total_price items in
  let tax := (tax_rate * subtotal)%Q in
  {| status := s;
     items := items;
     shipping_cost := shipping;
     discount_amount := discount;
     subtotal := subtotal;
     tax_amount := tax;
     total_amount := (subtotal + tax + shipping - discount)%Q |}.

(** A line of a create or add-item command. *)
Record Line := {
  line_id : string;
  line_product_id : string;
  line_quantity : Z;
  line_unit_price : Q
}.

(** Modelled from the spec: each item has qty > 0 and unit_price > 0. *)
Definition valid_line (quantity : Z) (price : Q) : bool :=
  (0 <? quantity)%Z && Js.Qltb 0 price.

Definition item_of_line (line : Line) : Item :=
  make_item (line_id line) (line_product_id line) (line_quantity line)
    (line_unit_price line).

(** Modelled from the spec: the create transition, as far as the items and
    the totals go: at least one line item, each with qty > 0 and unit_price
    > 0, else ValidationError; the order is created in PENDING with
    subtotal, tax and total computed from the items, and no shipping cost
    or discount. *)
Definition create (lines : list Line) : Error + Order :=
  if bool_decide (lines = [])
     || negb (forallb (λ line, valid_line (line_quantity line) (line_unit_price line))
                      lines)
  then inl ValidationError
  else inr (recompute PENDING (item_of_line <$> lines) 0 0).

(** Modelled from the spec: items change (add, update, remove) before
    ORDERED; once ORDERED, line items are immutable. *)
Definition before_ordered (s : OrderStatus) : bool :=
  match s with DRAFT | PENDING | APPROVED => true | _ => false end.

(** The commands on an order that the totals depend on, and the transitions
    of its status. *)
Inductive Mutation :=
| AddItem (line : Line)
| UpdateItem (id : string) (quantity : Z) (price : Q)
| RemoveItem (id : string)
| EnterShipping (cost : Q)
| EnterDiscount (amount : Q)
| Approve
| MarkOrdered
| MarkShipped
| Cancel.

Definition has_item (id : string) (o : Order) : bool :=
  bool_decide (id ∈ item_id <$> items o).

Definition with_status (o : Order) (s : OrderStatus) : Order :=
  {| status := s;
     items := items o;
     shipping_cost := shipping_cost o;
     discount_amount := discount_amount o;
     subtotal := subtotal o;
     tax_amount := tax_amount o;
     total_amount := total_amount o |}.

(** Modelled from the spec: a command on an order.  A change of the items,
    of the shipping cost or of the discount is applied before ORDERED only,
    and the totals are recomputed from the line items as they are after it;
    the status moves forward one step at a time, and an order that is not
    DELIVERED or CANCELLED can be cancelled; a command out of order fails
    with InvalidStateTransitionError.  A failed command leaves the order as
    it was. *)
Definition apply (o : Order) (m : Mutation) : Order * Outcome :=
  let refused attempted :=
    (o, Failed (InvalidStateTransitionError (status o) attempted)) in
  let changed items shipping discount :=
    (recompute (status o) items shipping discount, Done) in
  match m with
  | AddItem line =>
      if negb (before_ordered (status o)) then refused "add item"
      else if negb (valid_line (line_quantity line) (line_unit_price line))
      then (o, Failed ValidationError)
      else changed (items o ++ [item_of_line line]) (shipping_cost o) (discount_amount o)
  | UpdateItem id quantity price =>
      if negb (before_ordered (status o)) then refused "update item"
      else if negb (has_item id o) then (o, Failed NotFoundError)
      else if negb (valid_line quantity price) then (o, Failed ValidationError)
      else changed
             ((λ item, if decide (item_id item = id)
                       then make_item id (item_product_id item) quantity price
                       else item) <$> items o)
             (shipping_cost o) (discount_amount o)
  | RemoveItem id =>
      if negb (before_ordered (status o)) then refused "remove item"
      else if negb (has_item id o) then (o, Failed NotFoundError)
      else changed (filter (λ item, item_id item ≠ id) (items o))
             (shipping_cost o) (discount_amount o)
  | EnterShipping cost =>
      if negb (before_ordered (status o)) then refused "update"
      else changed (items o) cost (discount_amount o)
  | EnterDiscount amount =>
      if negb (before_ordered (status o)) then refused "update"
      else changed (items o) (shipping_cost o) amount
  | Approve =>
      match status o with
      | PENDING => (with_status o APPROVED, Done)
      | _ => refused "approve"
      end
  | MarkOrdered =>
      match status o with
      | APPROVED => (with_status o ORDERED, Done)
      | _ => refused "mark ordered"
      end
  | MarkShipped =>
      match status o with
      | ORDERED => (with_status o SHIPPED, Done)
      | _ => refused "mark shipped"
      end
  | Cancel =>
      match status o with
      | DELIVERED | CANCELLED => refused "cancel"
      | _ => (with_status o CANCELLED, Done)
      end
  end.

(** A finite sequence of commands, first command first. *)
Definition apply_all (o : Order) (commands : list Mutation) : Order :=
  fold_left (λ o m, fst (apply o m)) commands o.

(** A line item whose total price is its quantity times its unit price. *)
Definition priced (item : Item) : Prop :=
  (total_price item == inject_Z (quantity_ordered item) * unit_price item)%Q.

(** An order whose totals are those of its line items. *)
Definition consistent (o : Order) : Prop :=
  Forall priced (items o) ∧
  (subtotal o == sum_total_price (items o))%Q ∧
  (tax_amount o == (20 # 100) * subtotal o)%Q ∧
  (total_amount o == subtotal o + tax_amount o + shipping_cost o - discount_amount o)%Q.

(** The order of the scenario of the specification: 10 of A at 1.00 and 5
    of B at 2.00. *)
Definition scenario_lines : list Line :=
  [{| line_id := "item-A"; line_product_id := "A"; line_quantity := 10;
      line_unit_price := 1 |};
   {| line_id := "item-B"; line_product_id := "B"; line_quantity := 5;
      line_unit_price := 2 |}].

End PurchaseOrderAggregate.

(** ** pages/inventory.tsx: the product list over time *)

Module ProductList.

Import ProductService.

(** What happens to the [products] cell of the page: [loadProducts] is
    answered by the API, or fails; and the handlers of the three dialogs are
    answered by the API, or fail. *)
Inductive Event :=
| Load (response : option ProductListResponse)
| Add (created : option Product.t)
| Edit (productId : string) (updated : option Product.t)
| Delete (productId : string) (deleted : bool).

Definition handle (products : list Product.t) (ev : Event) : list Product.t :=
  match ev with
  | Load response => InventoryPage.loadProducts response
  | Add created => fst (InventoryList.handleAddProduct created products false)
  | Edit productId (Some updatedProduct) =>
      InventoryPage.editedProducts productId updatedProduct products
  | Edit _ None => products
  | Delete productId true => InventoryList.deletedProducts productId products
  | Delete _ false => products
  end.

(** The product list after a sequence of events, from [useState([])]. *)
Definition run (events : list Event) : list Product.t :=
  fold_left handle events [].

(** The product records that an event brings from the API. *)
Definition received (ev : Event) : list Product.t :=
  match ev with
  | Load (Some response) => products response
  | Add (Some newProduct) => [newProduct]
  | Edit _ (Some updatedProduct) => [updatedProduct]
  | _ => []
  end.




End ProductList.


(** * Properties *)

(** ** Stock status *)

Section StockStatus.

Import ProductService Ledger.





(** The scenario of the specification: quantity 50, min 20, max 200 is
    NORMAL; 15 is LOW_STOCK; 0 is OUT_OF_STOCK; 250 is OVERSTOCK. *)
Example computeStockStatus_scenario :
  computeStockStatus 50 20 (Some 200%Z) = NORMAL ∧
  computeStockStatus 15 20 (Some 200%Z) = LOW_STOCK ∧
  computeStockStatus 0 20 (Some 200%Z) = OUT_OF_STOCK ∧
  computeStockStatus 250 20 (Some 200%Z) = OVERSTOCK.
Proof. repeat split. Qed.

End StockStatus.




Section StatusAtReadTime.

Import Ledger.



End StatusAtReadTime.


(** ** The stock adjustment log *)

Section AdjustmentLog.

Import Ledger.

Lemma sum_deltas_app id log log' :
  sum_deltas id (log ++ log') = (sum_deltas id log + sum_deltas id log')%Z.
Proof.
  unfold sum_deltas, history. rewrite filter_app, foldr_app.
  generalize (filter (λ e, entry_product_id e = id) log') as l'.
  induction (filter (λ e, entry_product_id e = id) log) as [| e l IH];
    intros l'; simpl; [lia |].
  rewrite IH. lia.
Qed.

Lemma sum_deltas_one id e :
  sum_deltas id [e] = if decide (entry_product_id e = id) then delta e else 0%Z.
Proof.
  unfold sum_deltas, history. rewrite filter_cons, filter_nil.
  destruct (decide (entry_product_id e = id)); simpl; lia.
Qed.

Lemma replay_sum_deltas id initial log :
  replay id initial log = (initial + sum_deltas id log)%Z.
Proof.
  unfold replay, sum_deltas.
  generalize (history id log) as l. intros l. revert initial.
  induction l as [| e l IH]; intros initial; simpl; [lia |].
  rewrite IH. lia.
Qed.

(** What one call does: nothing at all, or one entry for the product of the
    call, from its current quantity to the requested one. *)
Lemma adjust_step st c :
  adjust st c = st ∨
  ∃ row,
    products st !! call_id c = Some row ∧
    products (adjust st c)
      = <[call_id c := with_quantity row (call_quantity c)]> (products st) ∧
    ∃ e,
      adjustments (adjust st c) = adjustments st ++ [e] ∧
      entry_product_id e = call_id c ∧
      old_quantity e = quantity_in_stock row ∧
      new_quantity e = call_quantity c.
Proof.
  unfold adjust, adjustStock.
  destruct (call_quantity c <? 0)%Z; [by left |].
  destruct (products st !! call_id c) as [row |] eqn:Hrow; [| by left].
  right. exists row. simpl. split; [done |]. split; [done |].
  eexists. split; [reflexivity |]. done.
Qed.

Lemma adjust_ledger st c id q :
  quantity_of st id = Some q →
  ∃ new,
    adjustments (adjust st c) = adjustments st ++ new ∧
    quantity_of (adjust st c) id = Some (q + sum_deltas id new)%Z.
Proof.
  intros Hq. destruct (adjust_step st c) as [-> | (row & Hrow & Hp & e & Ha & He & Hold & Hnew)].
  - exists []. rewrite app_nil_r. split; [done |].
    rewrite Hq. f_equal. unfold sum_deltas. simpl. lia.
  - exists [e]. split; [done |].
    rewrite sum_deltas_one. unfold quantity_of in *. rewrite Hp.
    destruct (decide (entry_product_id e = id)) as [Heq | Hne].
    + rewrite He in Heq. subst id. rewrite lookup_insert_eq. simpl.
      rewrite Hrow in Hq. simpl in Hq. injection Hq as <-.
      f_equal. unfold delta. lia.
    + rewrite He in Hne. rewrite lookup_insert_ne by done.
      rewrite Hq. f_equal. lia.
Qed.

Lemma adjust_all_snoc st calls c :
  adjust_all st (calls ++ [c]) = adjust (adjust_all st calls) c.
Proof. unfold adjust_all. by rewrite fold_left_app. Qed.

Lemma adjust_all_ledger st calls id q :
  quantity_of st id = Some q →
  ∃ new,
    adjustments (adjust_all st calls) = adjustments st ++ new ∧
    quantity_of (adjust_all st calls) id = Some (q + sum_deltas id new)%Z.
Proof.
  intros Hq. induction calls as [| c calls IH] using rev_ind.
  - exists []. rewrite app_nil_r. split; [done |].
    simpl. rewrite Hq. f_equal. unfold sum_deltas. simpl. lia.
  - destruct IH as (new & Hlog & Hquantity).
    rewrite adjust_all_snoc.
    destruct (adjust_ledger (adjust_all st calls) c id _ Hquantity)
      as (new' & Hlog' & Hquantity').
    exists (new ++ new'). split.
    + rewrite Hlog', Hlog. by rewrite app_assoc.
    + rewrite Hquantity', sum_deltas_app. f_equal. lia.
Qed.

End AdjustmentLog.

(** C3: for every product of the store and every finite sequence of
    adjustStock calls (on this product or on others, accepted or rejected),
    the final quantity in stock is the initial quantity plus the sum of the
    deltas (new quantity minus old quantity) of the entries that the calls
    recorded for the product, and replaying these entries from the initial
    quantity gives the final quantity. *)
Theorem adjustStock_replay_equivalence (st : Ledger.Store)
    (calls : list Ledger.AdjustCall) (id : string) (initial : Z) :
  Ledger.quantity_of st id = Some initial →
  let st' := Ledger.adjust_all st calls in
  let recorded := Ledger.entries_since st st' in
  Ledger.quantity_of st' id = Some (initial + Ledger.sum_deltas id recorded)%Z ∧
  Ledger.quantity_of st' id = Some (Ledger.replay id initial recorded).
Proof.
  intros Hq st' recorded.
  destruct (adjust_all_ledger st calls id initial Hq) as (new & Hlog & Hquantity).
  assert (recorded = new) as ->.
  { unfold recorded, Ledger.entries_since, st'. rewrite Hlog.
    by rewrite drop_app_length. }
  split; [done |]. by rewrite replay_sum_deltas.
Qed.

(** ** Receiving *)

Section Receiving.

Import Ledger.

Variables (received_by : string) (now : Z).







End Receiving.



(** ** The draft purchase order *)

Section DraftOrder.

Import CreatePurchaseOrderModal.




(** The items of the draft after each event. *)
Lemma orderItems_submit st toISOString created :
  orderItems (handle st (Submit toISOString created)) = orderItems st ∨
  orderItems (handle st (Submit toISOString created)) = [].
Proof.
  simpl. unfold handleSubmit, validateForm.
  destruct (negb (Js.no_keys (formErrors st))); [by left |].
  destruct created; [by right | by left].
Qed.






(** Distinct products. *)

Lemma NoDup_fmap_filter {A B} (f : A → B) (P : A → Prop) `{!∀ x, Decision (P x)} (l : list A) :
  NoDup (f <$> l) → NoDup (f <$> filter P l).
Proof.
  induction l as [| x l IH]; [done |].
  rewrite fmap_cons, NoDup_cons. intros [Hx Hl].
  rewrite filter_cons. destruct (decide (P x)); [| by apply IH].
  rewrite fmap_cons, NoDup_cons. split; [| by apply IH].
  intros (y & Hy & [_ Hin]%list_elem_of_filter)%list_elem_of_fmap.
  apply Hx. apply list_elem_of_fmap. by exists y.
Qed.

Lemma addProduct_existing now product st i item :
  list_find (λ item, product_id item = ProductService.Product.id product) (orderItems st)
    = Some (i, item) →
  orderItems (addProduct now product st)
    = <[i := recalculate (set_key item K_quantity_ordered
                            (Js.add_one (quantity_ordered item)))]>
        (orderItems st).
Proof. intros Hfind. unfold addProduct. simpl. by rewrite Hfind. Qed.








(** [Js.add_one] is the binary64 sum, at the integers around the bounds
    where the values that a number can hold get further apart. *)
Example add_one_is_the_binary64_sum :
  Forall (λ n, PrimFloat.eqb (PrimFloat.add (Js.number n) (Js.number 1))
                 (Js.number (Js.add_one n)) = true)
    [0; 1; 41; -1; -2; -41;
     9007199254740990; 9007199254740991; 9007199254740992; 9007199254740994;
     9007199254740996; 18014398509481982; 18014398509481984; 18014398509481988;
     1152921504606846976;
     -9007199254740991; -9007199254740992; -9007199254740994; -9007199254740996;
     -18014398509481982; -18014398509481984; -18014398509481988;
     -1152921504606846976]%Z.
Proof. repeat constructor. Qed.





End DraftOrder.

(** ** The totals of a purchase order *)

Section OrderTotals.

Import PurchaseOrderAggregate.



Lemma with_status_consistent o s : consistent o → consistent (with_status o s).
Proof. done. Qed.





End OrderTotals.


(** ** Form validation *)

Section Validation.

Lemma assign_if_keep c k v (o : gmap string string) k' :
  is_Some (o !! k') → is_Some (Js.assign_if c k v o !! k').
Proof.
  intros H. unfold Js.assign_if. destruct c; [| done].
  apply lookup_insert_is_Some'. by right.
Qed.

Lemma assign_if_here c k v (o : gmap string string) :
  c = true → is_Some (Js.assign_if c k v o !! k).
Proof. intros ->. unfold Js.assign_if. rewrite lookup_insert_eq. by eexists. Qed.

Lemma no_keys_false (o : gmap string string) k :
  is_Some (o !! k) → Js.no_keys o = false.
Proof.
  intros [v Hv]. unfold Js.no_keys. apply bool_decide_eq_false.
  intros Hsize%map_size_empty_iff. subst o. by rewrite lookup_empty in Hv.
Qed.

Lemma blank_true s : Js.trim s = "" → negb (Js.truthy_string (Js.trim s)) = true.
Proof. by intros ->. Qed.

Lemma empty_falsy s : s = "" → negb (Js.truthy_string s) = true.
Proof. by intros ->. Qed.

Lemma Qleb_true a b : (a <= b)%Q → Js.Qleb a b = true.
Proof. apply Qle_bool_iff. Qed.

Lemma max_not_above_min_true formData max :
  ProductService.ProductCreateData.max_stock_threshold formData = Some max →
  max ≠ 0%Z →
  (max <= ProductService.ProductCreateData.min_stock_threshold formData)%Z →
  AddProductModal.max_not_above_min formData = true.
Proof.
  intros Hmax Hne Hle. unfold AddProductModal.max_not_above_min. rewrite Hmax.
  apply andb_true_iff. split.
  - apply negb_true_iff. by apply Z.eqb_neq.
  - by apply Z.leb_le.
Qed.

(** The item checks keep what is reported, and report the item at each
    index. *)
Lemma validateItems_keep index items newErrors k :
  is_Some (newErrors !! k) →
  is_Some (CreatePurchaseOrderModal.validateItems index items newErrors !! k).
Proof.
  revert index newErrors. induction items as [| item items IH]; intros index newErrors H;
    simpl; [done |].
  apply IH. by do 2 apply assign_if_keep.
Qed.

Lemma validateItems_quantity index items newErrors n item :
  items !! n = Some item →
  (CreatePurchaseOrderModal.quantity_ordered item <= 0)%Z →
  is_Some (CreatePurchaseOrderModal.validateItems index items newErrors
           !! ("item_" +:+ pretty (index + n)%nat +:+ "_quantity")).
Proof.
  revert index newErrors n. induction items as [| item0 items IH];
    intros index newErrors n Hn Hle; [done |].
  destruct n as [| n]; simpl in *.
  - injection Hn as ->. rewrite Nat.add_0_r.
    apply validateItems_keep, assign_if_keep, assign_if_here. by apply Z.leb_le.
  - rewrite <- plus_n_Sm. by apply (IH (S index)).
Qed.

Lemma validateItems_price index items newErrors n item :
  items !! n = Some item →
  (CreatePurchaseOrderModal.unit_price item <= 0)%Q →
  is_Some (CreatePurchaseOrderModal.validateItems index items newErrors
           !! ("item_" +:+ pretty (index + n)%nat +:+ "_price")).
Proof.
  revert index newErrors n. induction items as [| item0 items IH];
    intros index newErrors n Hn Hle; [done |].
  destruct n as [| n]; simpl in *.
  - injection Hn as ->. rewrite Nat.add_0_r.
    apply validateItems_keep, assign_if_here. by apply Qleb_true.
  - rewrite <- plus_n_Sm. by apply (IH (S index)).
Qed.

Lemma add_validateForm_errors formData :
  fst (AddProductModal.validateForm formData) = AddProductModal.formErrors formData.
Proof. reflexivity. Qed.

Lemma add_invalid_not_submitted formData field :
  is_Some (AddProductModal.formErrors formData !! field) →
  snd (AddProductModal.validateForm formData) = false ∧
  ∀ toISOString, snd (AddProductModal.handleSubmit toISOString formData) = None.
Proof.
  intros H%no_keys_false.
  unfold AddProductModal.handleSubmit, AddProductModal.validateForm. simpl.
  rewrite H. done.
Qed.

Lemma order_validateForm_errors st :
  CreatePurchaseOrderModal.errors (fst (CreatePurchaseOrderModal.validateForm st))
  = CreatePurchaseOrderModal.formErrors st.
Proof. reflexivity. Qed.

Lemma order_invalid_not_submitted st field :
  is_Some (CreatePurchaseOrderModal.formErrors st !! field) →
  snd (CreatePurchaseOrderModal.validateForm st) = false ∧
  ∀ toISOString, snd (CreatePurchaseOrderModal.handleSubmit toISOString st) = None.
Proof.
  intros H%no_keys_false.
  unfold CreatePurchaseOrderModal.handleSubmit, CreatePurchaseOrderModal.validateForm.
  simpl. rewrite H. done.
Qed.

End Validation.

(** One layer of a chain of checks: the check that reports the key, if its
    condition holds, or else the checks before it. *)
Ltac reported :=
  repeat first
    [ apply assign_if_here;
      solve [ reflexivity
            | auto using blank_true, empty_falsy, Qleb_true
            | by apply Z.ltb_lt
            | by apply Z.leb_le
            | by eapply max_not_above_min_true
            | by apply bool_decide_eq_true; subst ]
    | apply assign_if_keep
    | apply validateItems_keep ].

(** C6: the checks of the two create forms run one after the other on the
    same error object, and none of them returns early, so every violated
    field is reported at once.  Product form: a blank name, SKU or category,
    a cost price or selling price that is not above 0, a negative minimum
    threshold, and a maximum threshold that is set (not 0) and not above the
    minimum each put an error under the name of the field.  Purchase-order
    form: no supplier, no line item, and for the item of each index a
    quantity ordered or a unit price that is not above 0 each put an error
    under a key of their own.  Whenever an error is reported the validation
    fails, and the form is not submitted. *)
Theorem validation_reports_all_violations :
  (∀ formData : AddProductModal.ProductFormData,
     let errors := fst (AddProductModal.validateForm formData) in
     (Js.trim (ProductService.ProductCreateData.name formData) = "" →
      is_Some (errors !! "name")) ∧
     (Js.trim (ProductService.ProductCreateData.sku formData) = "" →
      is_Some (errors !! "sku")) ∧
     (Js.trim (ProductService.ProductCreateData.category formData) = "" →
      is_Some (errors !! "category")) ∧
     ((ProductService.ProductCreateData.cost_price formData <= 0)%Q →
      is_Some (errors !! "cost_price")) ∧
     ((ProductService.ProductCreateData.selling_price formData <= 0)%Q →
      is_Some (errors !! "selling_price")) ∧
     ((ProductService.ProductCreateData.min_stock_threshold formData < 0)%Z →
      is_Some (errors !! "min_stock_threshold")) ∧
     (∀ max,
        ProductService.ProductCreateData.max_stock_threshold formData = Some max →
        max ≠ 0%Z →
        (max <= ProductService.ProductCreateData.min_stock_threshold formData)%Z →
        is_Some (errors !! "max_stock_threshold")) ∧
     (∀ field, is_Some (errors !! field) →
        snd (AddProductModal.validateForm formData) = false ∧
        ∀ toISOString, snd (AddProductModal.handleSubmit toISOString formData) = None)) ∧
  (∀ st : CreatePurchaseOrderModal.State,
     let errors :=
       CreatePurchaseOrderModal.errors (fst (CreatePurchaseOrderModal.validateForm st)) in
     (CreatePurchaseOrderModal.selectedSupplierId st = "" →
      is_Some (errors !! "supplier")) ∧
     (CreatePurchaseOrderModal.orderItems st = [] →
      is_Some (errors !! "items")) ∧
     (∀ index item,
        CreatePurchaseOrderModal.orderItems st !! index = Some item →
        ((CreatePurchaseOrderModal.quantity_ordered item <= 0)%Z →
         is_Some (errors !! ("item_" +:+ pretty index +:+ "_quantity"))) ∧
        ((CreatePurchaseOrderModal.unit_price item <= 0)%Q →
         is_Some (errors !! ("item_" +:+ pretty index +:+ "_price")))) ∧
     (∀ field, is_Some (errors !! field) →
        snd (CreatePurchaseOrderModal.validateForm st) = false ∧
        ∀ toISOString,
          snd (CreatePurchaseOrderModal.handleSubmit toISOString st) = None)).
Proof.
  split.
  - intros formData errors. subst errors. rewrite add_validateForm_errors.
    repeat (split; [intros; unfold AddProductModal.formErrors; cbv zeta; by reported |]).
    apply add_invalid_not_submitted.
  - intros st errors. subst errors. rewrite order_validateForm_errors.
    split; [intros Hs; unfold CreatePurchaseOrderModal.formErrors; cbv zeta; by reported |].
    split; [intros Hi; unfold CreatePurchaseOrderModal.formErrors; cbv zeta; rewrite Hi;
            by reported |].
    split; [| apply order_invalid_not_submitted].
    intros index item Hitem. unfold CreatePurchaseOrderModal.formErrors. cbv zeta.
    split; intros Hle.
    + by apply (validateItems_quantity 0 _ _ index item).
    + by apply (validateItems_price 0 _ _ index item).
Qed.

(** ** Selling price and cost price *)

Section SellingPrice.

Lemma assign_if_lookup_here c k v (o : gmap string string) :
  c = true → Js.assign_if c k v o !! k = Some v.
Proof. intros ->. unfold Js.assign_if. apply lookup_insert_eq. Qed.

Lemma assign_if_lookup_ne c k v (o : gmap string string) k' :
  k ≠ k' → Js.assign_if c k v o !! k' = o !! k'.
Proof. intros Hne. unfold Js.assign_if. destruct c; [by apply lookup_insert_ne | done]. Qed.

Lemma add_selling_price_error formData :
  (ProductService.ProductCreateData.selling_price formData
   <= ProductService.ProductCreateData.cost_price formData)%Q →
  AddProductModal.formErrors formData !! "selling_price"
  = Some "Selling price should be greater than cost price".
Proof.
  intros Hle%Qleb_true. unfold AddProductModal.formErrors. cbv zeta.
  rewrite assign_if_lookup_ne by done. by apply assign_if_lookup_here.
Qed.

Lemma edit_selling_price_error (formData : ProductService.PartialProduct) :
  (Js.or_Q (formData ProductService.K_selling_price) 0
   <= Js.or_Q (formData ProductService.K_cost_price) 0)%Q →
  EditProductModal.formErrors formData !! "selling_price"
  = Some "Selling price should be greater than cost price".
Proof.
  intros Hle%Qleb_true. unfold EditProductModal.formErrors. cbv zeta.
  rewrite assign_if_lookup_ne by done. by apply assign_if_lookup_here.
Qed.

Lemma edit_invalid_not_submitted st field :
  is_Some (EditProductModal.formErrors (EditProductModal.formData st) !! field) →
  snd (EditProductModal.validateForm (EditProductModal.formData st)) = false ∧
  ∀ toISOString, snd (EditProductModal.handleSubmit toISOString st) = None.
Proof.
  intros H%no_keys_false.
  unfold EditProductModal.handleSubmit, EditProductModal.validateForm. simpl.
  rewrite H. split; [done |]. intros toISOString.
  by destruct (EditProductModal.product st).
Qed.

End SellingPrice.

(** C8, as the code has it: in the add form and in the edit form, a
    selling price that is not above the cost price is reported as an error
    on the selling price field like any other violation: the validation
    fails and the form is not submitted ([onSave] is not called). *)
Theorem selling_price_not_above_cost_blocks_submission :
  (∀ formData : AddProductModal.ProductFormData,
     (ProductService.ProductCreateData.selling_price formData
      <= ProductService.ProductCreateData.cost_price formData)%Q →
     fst (AddProductModal.validateForm formData) !! "selling_price"
     = Some "Selling price should be greater than cost price" ∧
     snd (AddProductModal.validateForm formData) = false ∧
     ∀ toISOString, snd (AddProductModal.handleSubmit toISOString formData) = None) ∧
  (∀ st : EditProductModal.State,
     (Js.or_Q (EditProductModal.formData st ProductService.K_selling_price) 0
      <= Js.or_Q (EditProductModal.formData st ProductService.K_cost_price) 0)%Q →
     fst (EditProductModal.validateForm (EditProductModal.formData st)) !! "selling_price"
     = Some "Selling price should be greater than cost price" ∧
     snd (EditProductModal.validateForm (EditProductModal.formData st)) = false ∧
     ∀ toISOString, snd (EditProductModal.handleSubmit toISOString st) = None).
Proof.
  split.
  - intros formData Hle%add_selling_price_error. split; [done |].
    eapply add_invalid_not_submitted. by eexists.
  - intros st Hle%edit_selling_price_error. split; [done |].
    eapply edit_invalid_not_submitted. by eexists.
Qed.

(** C8, as stated, fails.  The add form with cost price 1.29 and selling
    price 1.00, every other field being valid, is not submitted, while the
    same form with the two prices exchanged is; and the edit form of the
    first mock product is submitted as it is populated, and is not once the
    selling price is changed to 0.50, below the cost price 0.89. *)
Lemma selling_price_warning_blocks :
  snd (AddProductModal.handleSubmit id (AddProductModal.sample_form 1.29 1.00)) = None ∧
  is_Some (snd (AddProductModal.handleSubmit id (AddProductModal.sample_form 1.00 1.29))) ∧
  (let populated :=
     EditProductModal.handle EditProductModal.initial
       (EditProductModal.Open (Some InventoryPage.whole_milk)) in
   let underpriced :=
     EditProductModal.handle populated
       (EditProductModal.Change EditProductModal.I_selling_price 0.50%Q) in
   is_Some (snd (EditProductModal.handleSubmit id populated)) ∧
   snd (EditProductModal.handleSubmit id underpriced) = None).
Proof.
  split; [by vm_compute |].
  split; [vm_compute; by eexists |].
  split; [vm_compute; by eexists | by vm_compute].
Qed.

(** ** The SKU of a product *)

Section Sku.

Import ProductService.

Lemma set_key_ne (o : PartialProduct) k v k' : k ≠ k' → set_key o k v k' = o k'.
Proof. intros Hne. unfold set_key. by destruct (decide (k = k')). Qed.






(** [ProductService.updateProduct], and [handleEditProduct] which calls it,
    send the updates as they are: the SKU of the updates, whatever it is, is
    the SKU of the body of the request. *)
Lemma updateProduct_sends_updates productId (updates : PartialProduct) :
  let request := InventoryPage.handleEditProduct productId updates in
  method request = PUT ∧
  endpoint request = "/api/products/" +:+ productId ∧
  body request = Some updates.
Proof. done. Qed.

End Sku.


(** ** Pagination metadata *)

(** C9, as the code has it: the product list returns the pagination
    metadata (page, per_page, total_count, total_pages) alongside the
    products; the purchase-order list accepts the [page] and [per_page]
    filters and returns the array of the orders alone, an array having no
    property for any metadata; so does the supplier list; the low-stock and
    reorder-suggestion lists return their items and [total_count] only. *)
Theorem product_list_returns_pagination_metadata :
  Schema.returns_pagination_metadata Schema.getProducts = true ∧
  Schema.result_type Schema.getPurchaseOrders = Schema.TArray (Schema.TNamed "PurchaseOrder") ∧
  (∀ p, Schema.has_property (Schema.result_type Schema.getPurchaseOrders) p = false) ∧
  "page" ∈ Schema.filter_names Schema.getPurchaseOrders ∧
  "per_page" ∈ Schema.filter_names Schema.getPurchaseOrders ∧
  (∀ p, Schema.has_property (Schema.result_type Schema.getSuppliers) p = false) ∧
  (∀ m, m = Schema.getLowStockItems ∨ m = Schema.getReorderSuggestions →
        filter (Schema.has_property (Schema.result_type m)) Schema.pagination_metadata
        = ["total_count"]).
Proof.
  split; [done |]. split; [done |]. split; [done |].
  split; [set_solver |]. split; [set_solver |]. split; [done |].
  by intros m [-> | ->].
Qed.

(** C9, as stated, fails: the result of the purchase-order list has none of
    the four properties. *)
Lemma purchase_order_list_returns_no_metadata :
  Schema.returns_pagination_metadata Schema.getPurchaseOrders = false ∧
  Forall (λ p, Schema.has_property (Schema.result_type Schema.getPurchaseOrders) p = false)
         Schema.pagination_metadata.
Proof. split; [done | by repeat constructor]. Qed.

(** ** The scenarios of the specification, and the theorems at an input *)

(** A product with quantity 50, min 20, max 200 is NORMAL; adjusted to 15 it
    is LOW_STOCK, to 0 OUT_OF_STOCK, to 250 OVERSTOCK; a negative quantity
    is refused and changes nothing. *)
Example adjust_status_scenario :
  let st0 := Ledger.scenario_store Ledger.ORDERED in
  let st1 := Ledger.adjust st0 (Ledger.scenario_call "milk" 15) in
  let st2 := Ledger.adjust st1 (Ledger.scenario_call "milk" 0) in
  let st3 := Ledger.adjust st2 (Ledger.scenario_call "milk" 250) in
  Ledger.stock_status st0 "milk" = Some ProductService.NORMAL ∧
  Ledger.stock_status st1 "milk" = Some ProductService.LOW_STOCK ∧
  Ledger.stock_status st2 "milk" = Some ProductService.OUT_OF_STOCK ∧
  Ledger.stock_status st3 "milk" = Some ProductService.OVERSTOCK ∧
  Ledger.adjustStock st3 "milk" (-1) Ledger.CORRECTION None "admin" 0
  = (st3, Ledger.Failed Ledger.InvalidQuantityError).
Proof. repeat split; by vm_compute. Qed.

(** An order of 10 of A and 5 of B cannot be received while APPROVED; once
    ORDERED, receiving both items in full delivers it, with two RECEIVING
    entries of +10 on A and +5 on B. *)
Example receive_scenario :
  let batch := [Ledger.scenario_receipt "item-A" 10; Ledger.scenario_receipt "item-B" 5] in
  let approved := Ledger.scenario_store Ledger.APPROVED in
  let ordered := Ledger.scenario_store Ledger.ORDERED in
  let received := fst (Ledger.receive ordered "PO-1" batch "clerk" 7) in
  Ledger.receive approved "PO-1" batch "clerk" 7
  = (approved, Ledger.Failed (Ledger.InvalidStateTransitionError Ledger.APPROVED "receive")) ∧
  snd (Ledger.receive ordered "PO-1" batch "clerk" 7) = Ledger.Done ∧
  Ledger.status <$> Ledger.orders received !! "PO-1" = Some Ledger.DELIVERED ∧
  Ledger.actual_delivery_date <$> Ledger.orders received !! "PO-1" = Some (Some 7%Z) ∧
  ((λ e, (Ledger.entry_product_id e, Ledger.entry_reason e, Ledger.delta e))
     <$> Ledger.adjustments received)
  = [("A", Ledger.RECEIVING, 10%Z); ("B", Ledger.RECEIVING, 5%Z)] ∧
  Ledger.quantity_of received "A" = Some 10%Z ∧
  Ledger.quantity_of received "B" = Some 5%Z.
Proof. repeat split; by vm_compute. Qed.

(** An order of 10 of A at 1.00 and 5 of B at 2.00 has subtotal 20.00, tax
    4.00 and total 24.00; with 12 of A and a shipping cost of 3.00 entered
    it has subtotal 22.00, tax 4.40 and total 29.40; once it is ORDERED,
    the removal of the item of B is refused and the totals stay. *)
Example totals_scenario :
  ∃ o,
    PurchaseOrderAggregate.create PurchaseOrderAggregate.scenario_lines = inr o ∧
    (PurchaseOrderAggregate.subtotal o == 20)%Q ∧
    (PurchaseOrderAggregate.tax_amount o == 4)%Q ∧
    (PurchaseOrderAggregate.total_amount o == 24)%Q ∧
    let o' :=
      PurchaseOrderAggregate.apply_all o
        [PurchaseOrderAggregate.UpdateItem "item-A" 12 1;
         PurchaseOrderAggregate.EnterShipping 3;
         PurchaseOrderAggregate.Approve;
         PurchaseOrderAggregate.MarkOrdered;
         PurchaseOrderAggregate.RemoveItem "item-B"] in
    PurchaseOrderAggregate.status o' = Ledger.ORDERED ∧
    length (PurchaseOrderAggregate.items o') = 2%nat ∧
    (PurchaseOrderAggregate.subtotal o' == 22)%Q ∧
    (PurchaseOrderAggregate.tax_amount o' == 4.4)%Q ∧
    (PurchaseOrderAggregate.total_amount o' == 29.4)%Q.
Proof. eexists. split; [reflexivity |]. repeat split; by vm_compute. Qed.




(** C3 at the product of the scenario: five calls, one of them refused and
    one on another product. *)
Lemma adjustStock_replay_equivalence_witness :
  Ledger.quantity_of (Ledger.scenario_store Ledger.ORDERED) "milk" = Some 50%Z ∧
  Ledger.quantity_of
    (Ledger.adjust_all (Ledger.scenario_store Ledger.ORDERED)
       [Ledger.scenario_call "milk" 15; Ledger.scenario_call "milk" (-3);
        Ledger.scenario_call "A" 7; Ledger.scenario_call "milk" 0;
        Ledger.scenario_call "milk" 250]) "milk"
  = Some (50 + Ledger.sum_deltas "milk"
                 (Ledger.entries_since (Ledger.scenario_store Ledger.ORDERED)
                    (Ledger.adjust_all (Ledger.scenario_store Ledger.ORDERED)
                       [Ledger.scenario_call "milk" 15; Ledger.scenario_call "milk" (-3);
                        Ledger.scenario_call "A" 7; Ledger.scenario_call "milk" 0;
                        Ledger.scenario_call "milk" 250])))%Z.
Proof.
  split; [reflexivity |].
  apply (adjustStock_replay_equivalence (Ledger.scenario_store Ledger.ORDERED)
           [Ledger.scenario_call "milk" 15; Ledger.scenario_call "milk" (-3);
            Ledger.scenario_call "A" 7; Ledger.scenario_call "milk" 0;
            Ledger.scenario_call "milk" 250] "milk" 50).
  reflexivity.
Defined.




(** * Further properties of the code *)

(** ** The order form: validation and submission *)

Section OrderFormValidation.

Import CreatePurchaseOrderModal.

(** An item that passes the checks of [validateForm]. *)
Lemma validateItems_clean index items newErrors :
  Forall (λ item, (0 < quantity_ordered item)%Z ∧ (0 < unit_price item)%Q) items →
  validateItems index items newErrors = newErrors.
Proof.
  revert index newErrors. induction items as [| item items IH]; intros index newErrors;
    [done |].
  intros [[Hq Hp] Hitems]%Forall_cons. simpl. rewrite IH by done.
  unfold Js.assign_if, Js.Qleb.
  destruct (Z.leb_spec (quantity_ordered item) 0); [lia |].
  destruct (Qle_bool (unit_price item) 0) eqn:Hle; [| done].
  apply Qle_bool_iff in Hle. exfalso. by eapply Qlt_not_le.
Qed.

Lemma no_keys_true_lookup (o : gmap string string) k :
  Js.no_keys o = true → o !! k = None.
Proof.
  intros H. destruct (o !! k) eqn:Hk; [| done].
  rewrite (no_keys_false o k) in H; [done | by eexists].
Qed.

Lemma truthy_string_false s : Js.truthy_string s = false ↔ s = "".
Proof. unfold Js.truthy_string. by destruct (decide (s = "")). Qed.

Lemma order_valid_items st :
  Js.no_keys (formErrors st) = true →
  Forall (λ item, (0 < quantity_ordered item)%Z ∧ (0 < unit_price item)%Q) (orderItems st).
Proof.
  intros Hvalid. apply Forall_lookup. intros n item Hitem. split.
  - destruct (Z.ltb_spec 0 (quantity_ordered item)) as [| Hle]; [done |].
    pose proof (validateItems_quantity 0 (orderItems st)
                  (Js.assign_if (negb (Js.truthy_string (expectedDeliveryDate st)))
                     "deliveryDate" "Please set expected delivery date"
                     (Js.assign_if (bool_decide (length (orderItems st) = 0%nat))
                        "items" "Please add at least one product"
                        (Js.assign_if (negb (Js.truthy_string (selectedSupplierId st)))
                           "supplier" "Please select a supplier" ∅)))
                  n item Hitem Hle) as [m Hm].
    unfold formErrors in Hvalid. cbv zeta in Hvalid.
    by rewrite (no_keys_true_lookup _ _ Hvalid) in Hm.
  - destruct (Qlt_le_dec 0 (unit_price item)) as [| Hle]; [done |].
    pose proof (validateItems_price 0 (orderItems st)
                  (Js.assign_if (negb (Js.truthy_string (expectedDeliveryDate st)))
                     "deliveryDate" "Please set expected delivery date"
                     (Js.assign_if (bool_decide (length (orderItems st) = 0%nat))
                        "items" "Please add at least one product"
                        (Js.assign_if (negb (Js.truthy_string (selectedSupplierId st)))
                           "supplier" "Please select a supplier" ∅)))
                  n item Hitem Hle) as [m Hm].
    unfold formErrors in Hvalid. cbv zeta in Hvalid.
    by rewrite (no_keys_true_lookup _ _ Hvalid) in Hm.
Qed.

Lemma order_valid_header st :
  Js.no_keys (formErrors st) = true →
  selectedSupplierId st ≠ "" ∧ orderItems st ≠ [] ∧ expectedDeliveryDate st ≠ "".
Proof.
  intros Hvalid.
  assert (∀ k, ¬ is_Some (formErrors st !! k)) as Hnone.
  { intros k [m Hm]. by rewrite (no_keys_true_lookup _ _ Hvalid) in Hm. }
  repeat split; intros Heq.
  - apply (Hnone "supplier"). unfold formErrors. cbv zeta. by reported.
  - apply (Hnone "items"). unfold formErrors. cbv zeta. rewrite Heq. by reported.
  - apply (Hnone "deliveryDate"). unfold formErrors. cbv zeta. by reported.
Qed.

Lemma order_formErrors_empty st :
  selectedSupplierId st ≠ "" → orderItems st ≠ [] → expectedDeliveryDate st ≠ "" →
  Forall (λ item, (0 < quantity_ordered item)%Z ∧ (0 < unit_price item)%Q) (orderItems st) →
  formErrors st = ∅.
Proof.
  intros Hs Hi Hd Hitems. unfold formErrors. cbv zeta.
  rewrite validateItems_clean by done. unfold Js.assign_if.
  destruct (Js.truthy_string (selectedSupplierId st)) eqn:H1;
    [| by apply truthy_string_false in H1].
  destruct (Js.truthy_string (expectedDeliveryDate st)) eqn:H2;
    [| by apply truthy_string_false in H2].
  simpl. rewrite bool_decide_eq_false_2; [done |].
  by destruct (orderItems st).
Qed.

End OrderFormValidation.

(** The order form passes validation exactly when a supplier is selected,
    an expected delivery date is set, the draft has at least one line item,
    and every line item has a quantity ordered and a unit price above 0. *)
Theorem order_validateForm_iff (st : CreatePurchaseOrderModal.State) :
  snd (CreatePurchaseOrderModal.validateForm st) = true ↔
  CreatePurchaseOrderModal.selectedSupplierId st ≠ "" ∧
  CreatePurchaseOrderModal.expectedDeliveryDate st ≠ "" ∧
  CreatePurchaseOrderModal.orderItems st ≠ [] ∧
  Forall (λ item, (0 < CreatePurchaseOrderModal.quantity_ordered item)%Z ∧
                  (0 < CreatePurchaseOrderModal.unit_price item)%Q)
         (CreatePurchaseOrderModal.orderItems st).
Proof.
  unfold CreatePurchaseOrderModal.validateForm. simpl. split.
  - intros Hvalid. destruct (order_valid_header st Hvalid) as (? & ? & ?).
    repeat split; try done. by apply order_valid_items.
  - intros (Hs & Hd & Hi & Hitems). by rewrite order_formErrors_empty.
Qed.

(** The order that the form submits: it is the draft, line by line (product,
    quantity ordered, unit price, in the order of the draft; the total
    prices are not sent), for the supplier that is selected and the
    delivery date that is set, and it has a supplier, at least one line, and
    a quantity and a unit price above 0 on every line. *)
Theorem order_submission_is_the_draft (toISOString : string → string)
    (st : CreatePurchaseOrderModal.State)
    (orderData : PurchaseOrderService.CreatePurchaseOrderData) :
  snd (CreatePurchaseOrderModal.handleSubmit toISOString st) = Some orderData →
  PurchaseOrderService.supplier_id orderData = CreatePurchaseOrderModal.selectedSupplierId st ∧
  PurchaseOrderService.supplier_id orderData ≠ "" ∧
  PurchaseOrderService.expected_delivery_date orderData
  = Some (toISOString (CreatePurchaseOrderModal.expectedDeliveryDate st)) ∧
  PurchaseOrderService.items orderData ≠ [] ∧
  Forall2 (λ line item,
             PurchaseOrderService.product_id line = CreatePurchaseOrderModal.product_id item ∧
             PurchaseOrderService.quantity_ordered line
             = CreatePurchaseOrderModal.quantity_ordered item ∧
             PurchaseOrderService.unit_price line = CreatePurchaseOrderModal.unit_price item ∧
             (0 < PurchaseOrderService.quantity_ordered line)%Z ∧
             (0 < PurchaseOrderService.unit_price line)%Q)
          (PurchaseOrderService.items orderData) (CreatePurchaseOrderModal.orderItems st).
Proof.
  unfold CreatePurchaseOrderModal.handleSubmit, CreatePurchaseOrderModal.validateForm.
  simpl. destruct (Js.no_keys (CreatePurchaseOrderModal.formErrors st)) eqn:Hvalid;
    simpl; [| done].
  intros [= <-]. simpl.
  destruct (order_valid_header st Hvalid) as (Hs & Hi & Hd).
  pose proof (order_valid_items st Hvalid) as Hitems.
  split; [done |]. split; [done |]. split.
  - destruct (Js.truthy_string _) eqn:Ht; [done |]. by apply truthy_string_false in Ht.
  - split; [by destruct (CreatePurchaseOrderModal.orderItems st) |].
    apply Forall2_fmap_l, Forall_Forall2_diag.
    eapply Forall_impl; [exact Hitems |]. by intros item [? ?].
Qed.

(** ** The order form: the line items *)

Section OrderFormItems.

Import CreatePurchaseOrderModal.

Lemma addProduct_new now product st :
  Forall (λ item, product_id item ≠ ProductService.Product.id product) (orderItems st) →
  orderItems (addProduct now product st)
  = orderItems st
    ++ [ {| id := pretty now;
            product_id := ProductService.Product.id product;
            product_name := ProductService.Product.name product;
            product_sku := ProductService.Product.sku product;
            quantity_ordered := 1;
            unit_price := ProductService.Product.cost_price product;
            supplier_sku := None;
            total_price := ProductService.Product.cost_price product |} ].
Proof.
  intros Hnew. unfold addProduct. simpl.
  by rewrite (proj2 (list_find_None _ _) Hnew).
Qed.

Lemma clicks_app events events' :
  OrderForm.clicks (events ++ events') = OrderForm.clicks events ++ OrderForm.clicks events'.
Proof.
  induction events as [| ev events IH]; [done |].
  destruct ev; simpl; by rewrite ?IH.
Qed.

Lemma run_snoc st events ev :
  OrderForm.run st (events ++ [ev]) = handle (OrderForm.run st events) ev.
Proof. unfold OrderForm.run. by rewrite fold_left_app. Qed.

(** The ids of the items after an event: those before it, or some of them,
    and the time of the click for a product that is new to the draft. *)
Lemma updateOrderItem_ids itemId field (value : key_type field) st :
  prices field = true →
  id <$> orderItems (updateOrderItem itemId field value st) = id <$> orderItems st.
Proof.
  intros Hfield. unfold updateOrderItem. simpl.
  rewrite <- list_fmap_compose. apply list_fmap_ext.
  intros j item _. simpl. destruct (decide (id item = itemId)); [| done].
  rewrite Hfield. by destruct field.
Qed.

Lemma addProduct_ids now product st :
  id <$> orderItems (addProduct now product st) = id <$> orderItems st ∨
  id <$> orderItems (addProduct now product st) = (id <$> orderItems st) ++ [pretty now].
Proof.
  destruct (list_find (λ item, product_id item = ProductService.Product.id product)
              (orderItems st)) as [[i item] |] eqn:Hfind.
  - left. rewrite (addProduct_existing _ _ _ _ _ Hfind).
    apply list_find_Some in Hfind as (Hi & _ & _).
    rewrite list_fmap_insert. apply list_insert_id.
    by rewrite list_lookup_fmap, Hi.
  - right. apply list_find_None in Hfind. rewrite (addProduct_new _ _ _ Hfind).
    by rewrite fmap_app.
Qed.

Lemma run_ids events :
  NoDup (OrderForm.clicks events) →
  NoDup (id <$> orderItems (OrderForm.run resetForm events)) ∧
  ∀ itemId, itemId ∈ id <$> orderItems (OrderForm.run resetForm events) →
            ∃ now, now ∈ OrderForm.clicks events ∧ itemId = pretty now.
Proof.
  induction events as [| ev events IH] using rev_ind.
  - intros _. split; [constructor |]. intros itemId Hin. by apply elem_of_nil in Hin.
  - rewrite clicks_app, run_snoc. intros [Hclicks [Hfresh Hev]]%NoDup_app.
    destruct (IH Hclicks) as [Hnodup Hids]. clear IH.
    assert (∀ ids,
              ids = id <$> orderItems (OrderForm.run resetForm events) →
              NoDup ids ∧
              ∀ itemId, itemId ∈ ids →
                        ∃ now, now ∈ OrderForm.clicks events ++ OrderForm.clicks [ev]
                               ∧ itemId = pretty now) as Hsame.
    { intros ids ->. split; [done |]. intros itemId (now & Hnow & ->)%Hids.
      exists now. split; [| done]. apply elem_of_app. by left. }
    set (st := OrderForm.run resetForm events) in *.
    destruct ev as [| | | | now product | itemId parsed | itemId parsed | itemId | | | | f c];
      try (by apply Hsame).
    + destruct (addProduct_ids now product st) as [Heq | Heq]; unfold handle.
      * rewrite Heq. by apply Hsame.
      * rewrite Heq. split.
        -- apply NoDup_app. split; [done |]. split; [| apply NoDup_singleton].
           intros itemId (now' & Hnow' & ->)%Hids Hin.
           apply list_elem_of_singleton in Hin. apply (inj pretty) in Hin. subst now'.
           apply (Hfresh now Hnow'). simpl. apply list_elem_of_here.
        -- intros itemId [Hin | Hin]%elem_of_app.
           ++ by apply (proj2 (Hsame _ eq_refl)).
           ++ apply list_elem_of_singleton in Hin. exists now. split; [| done].
              apply elem_of_app. right. simpl. apply list_elem_of_here.
    + unfold handle. rewrite updateOrderItem_ids by done. by apply Hsame.
    + unfold handle. rewrite updateOrderItem_ids by done. by apply Hsame.
    + unfold handle, removeOrderItem. simpl. split.
      * by apply NoDup_fmap_filter.
      * intros itemId' (item & -> & [_ Hitem]%list_elem_of_filter)%list_elem_of_fmap.
        apply (proj2 (Hsame _ eq_refl)). apply list_elem_of_fmap. by exists item.
    + destruct (orderItems_submit st f c) as [-> | ->]; [by apply Hsame |].
      split; [constructor |]. intros itemId Hin. by apply elem_of_nil in Hin.
Qed.

End OrderFormItems.


(** Two products added to the draft within the same millisecond get the same
    item id, so that removing the line of one removes the line of the other
    too: what is left is the draft as it was before the two were added. *)
Theorem items_of_one_millisecond_are_removed_together (now : N)
    (product1 product2 : ProductService.Product.t) (st : CreatePurchaseOrderModal.State) :
  ProductService.Product.id product1 ≠ ProductService.Product.id product2 →
  Forall (λ item,
            CreatePurchaseOrderModal.product_id item ≠ ProductService.Product.id product1 ∧
            CreatePurchaseOrderModal.product_id item ≠ ProductService.Product.id product2 ∧
            CreatePurchaseOrderModal.id item ≠ pretty now)
         (CreatePurchaseOrderModal.orderItems st) →
  let st2 :=
    CreatePurchaseOrderModal.addProduct now product2
      (CreatePurchaseOrderModal.addProduct now product1 st) in
  length (CreatePurchaseOrderModal.orderItems st2)
  = S (S (length (CreatePurchaseOrderModal.orderItems st))) ∧
  CreatePurchaseOrderModal.orderItems
    (CreatePurchaseOrderModal.removeOrderItem (pretty now) st2)
  = CreatePurchaseOrderModal.orderItems st.
Proof.
  intros Hne Hst st2.
  assert (CreatePurchaseOrderModal.orderItems st2
          = CreatePurchaseOrderModal.orderItems st
            ++ [ CreatePurchaseOrderModal.Build_OrderItem (pretty now)
                   (ProductService.Product.id product1) (ProductService.Product.name product1)
                   (ProductService.Product.sku product1) 1
                   (ProductService.Product.cost_price product1) None
                   (ProductService.Product.cost_price product1);
                 CreatePurchaseOrderModal.Build_OrderItem (pretty now)
                   (ProductService.Product.id product2) (ProductService.Product.name product2)
                   (ProductService.Product.sku product2) 1
                   (ProductService.Product.cost_price product2) None
                   (ProductService.Product.cost_price product2) ]) as Hitems.
  { unfold st2. rewrite addProduct_new.
    - rewrite addProduct_new; [by rewrite <- app_assoc |].
      eapply Forall_impl; [exact Hst |]. by intros item (? & ? & ?).
    - rewrite addProduct_new.
      + apply Forall_app. split.
        * eapply Forall_impl; [exact Hst |]. by intros item (? & ? & ?).
        * constructor; [done | constructor].
      + eapply Forall_impl; [exact Hst |]. by intros item (? & ? & ?). }
  split.
  - rewrite Hitems, length_app. simpl. lia.
  - change (CreatePurchaseOrderModal.orderItems
              (CreatePurchaseOrderModal.removeOrderItem (pretty now) st2))
      with (filter (λ item, CreatePurchaseOrderModal.id item ≠ pretty now)
              (CreatePurchaseOrderModal.orderItems st2)).
    rewrite Hitems. rewrite filter_app. simpl.
    rewrite !filter_cons, filter_nil. simpl.
    rewrite !decide_False by (intros H; by apply H).
    rewrite app_nil_r.
    clear Hitems. induction (CreatePurchaseOrderModal.orderItems st) as [| item items IH];
      [done |].
    apply Forall_cons in Hst as [(_ & _ & Hid) Hst].
    rewrite filter_cons, decide_True by done. f_equal. by apply IH.
Qed.

(** When no two clicks on a product fall in the same millisecond, the line
    items of the draft have pairwise distinct ids, whatever the sequence of
    events of the form. *)
Theorem distinct_clicks_give_distinct_item_ids
    (events : list CreatePurchaseOrderModal.Event) :
  NoDup (OrderForm.clicks events) →
  NoDup (CreatePurchaseOrderModal.id
           <$> CreatePurchaseOrderModal.orderItems
                 (OrderForm.run CreatePurchaseOrderModal.resetForm events)).
Proof. intros H. by apply run_ids. Qed.

(** ** Searching and filtering *)

Section Search.

Lemma lower_upper c : JsString.lower (JsString.upper c) = JsString.lower c.
Proof. by destruct c as [[] [] [] [] [] [] [] []]. Qed.

Lemma upper_upper c : JsString.upper (JsString.upper c) = JsString.upper c.
Proof. by destruct c as [[] [] [] [] [] [] [] []]. Qed.

Lemma toLowerCase_toUpperCase s :
  JsString.toLowerCase (JsString.toUpperCase s) = JsString.toLowerCase s.
Proof. induction s as [| c s IH]; [done |]. simpl. by rewrite lower_upper, IH. Qed.

Lemma toUpperCase_idempotent s :
  JsString.toUpperCase (JsString.toUpperCase s) = JsString.toUpperCase s.
Proof. induction s as [| c s IH]; [done |]. simpl. by rewrite upper_upper, IH. Qed.

Lemma includes_empty s : JsString.includes s "" = true.
Proof. by destruct s. Qed.

Lemma matches_empty a : JsString.matches a "" = true.
Proof. apply includes_empty. Qed.

Lemma matches_toUpperCase a term :
  JsString.matches a (JsString.toUpperCase term) = JsString.matches a term.
Proof. unfold JsString.matches. by rewrite toLowerCase_toUpperCase. Qed.

Lemma prefix_refl s : String.prefix s s = true.
Proof. induction s as [| c s IH]; [done |]. simpl. by destruct (ascii_dec c c). Qed.

Lemma includes_refl s : JsString.includes s s = true.
Proof. destruct s; [done |]. simpl. rewrite prefix_refl. by destruct (ascii_dec a a). Qed.

Lemma filter_all {A} (P : A → Prop) `{!∀ x, Decision (P x)} (l : list A) :
  Forall P l → filter P l = l.
Proof.
  induction 1 as [| x l Hx _ IH]; [done |].
  by rewrite filter_cons, decide_True, IH.
Qed.

(** The values without repetition. *)
Lemma unique_spec (values seen : list string) :
  NoDup seen →
  let result :=
    fold_left (λ seen value, if decide (value ∈ seen) then seen else seen ++ [value])
      values seen in
  NoDup result ∧ ∀ value, value ∈ result ↔ value ∈ seen ∨ value ∈ values.
Proof.
  revert seen. induction values as [| v values IH]; intros seen Hseen; simpl.
  - split; [done |]. intros value. split; [by left |].
    intros [H | H]; [done | by apply elem_of_nil in H].
  - destruct (decide (v ∈ seen)) as [Hin | Hnotin].
    + destruct (IH seen Hseen) as [Hnodup Hiff]. split; [done |].
      intros value. rewrite Hiff. split.
      * intros [H | H]; [by left | right; by apply list_elem_of_further].
      * intros [H | H]; [by left |].
        apply elem_of_cons in H as [-> | H]; [by left | by right].
    + assert (NoDup (seen ++ [v])) as Hseen'.
      { apply NoDup_app. split; [done |]. split; [| apply NoDup_singleton].
        intros x Hx Hv. apply list_elem_of_singleton in Hv. by subst. }
      destruct (IH (seen ++ [v]) Hseen') as [Hnodup Hiff]. split; [done |].
      intros value. rewrite Hiff. split.
      * intros [[H | H]%elem_of_app | H].
        -- by left.
        -- apply list_elem_of_singleton in H as ->. right. apply list_elem_of_here.
        -- right. by apply list_elem_of_further.
      * intros [H | H].
        -- left. apply elem_of_app. by left.
        -- apply elem_of_cons in H as [-> | H]; [| by right].
           left. apply elem_of_app. right. apply list_elem_of_here.
Qed.

End Search.

(** The product search of the order form: an empty term offers every
    product that was loaded; the products offered are among those loaded, in
    their order; the search does not depend on the case of the letters of
    the term; and a product is offered for its own name and for its own
    SKU. *)
Theorem order_product_search (products : list ProductService.Product.t) (term : string) :
  OrderForm.filteredProducts products "" = products ∧
  sublist (OrderForm.filteredProducts products term) products ∧
  OrderForm.filteredProducts products (JsString.toUpperCase term)
  = OrderForm.filteredProducts products term ∧
  ∀ product, product ∈ products →
    product ∈ OrderForm.filteredProducts products (ProductService.Product.name product) ∧
    product ∈ OrderForm.filteredProducts products (ProductService.Product.sku product).
Proof.
  unfold OrderForm.filteredProducts. split; [| split; [| split]].
  - apply filter_all, Forall_forall. intros product _. by rewrite matches_empty.
  - apply sublist_filter.
  - apply list_filter_iff. intros product. by rewrite !matches_toUpperCase.
  - intros product Hin. split; apply list_elem_of_filter; (split; [| done]);
      unfold JsString.matches; rewrite includes_refl; [done |].
    by rewrite orb_true_r.
Qed.

(** The rows of the inventory table: with an empty search term and all
    categories, every product is shown; with a category selected, only
    products of that category are shown; the search does not depend on the
    case of the letters of the term. *)
Theorem inventory_filter (products : list ProductService.Product.t)
    (term category : string) :
  InventoryList.filteredProducts products "" "" = products ∧
  sublist (InventoryList.filteredProducts products term category) products ∧
  (category ≠ "" →
   Forall (λ product, ProductService.Product.category product = category)
          (InventoryList.filteredProducts products term category)) ∧
  InventoryList.filteredProducts products (JsString.toUpperCase term) category
  = InventoryList.filteredProducts products term category.
Proof.
  unfold InventoryList.filteredProducts. split; [| split; [| split]].
  - apply filter_all, Forall_forall. intros product _. cbv zeta.
    by rewrite matches_empty.
  - apply sublist_filter.
  - intros Hc. apply Forall_forall. intros product [Hp _]%list_elem_of_filter.
    cbv zeta in Hp. apply Is_true_true in Hp.
    apply andb_true_iff in Hp as [_ Hp]. apply orb_true_iff in Hp as [Hp | Hp].
    + by apply bool_decide_eq_true in Hp.
    + by apply bool_decide_eq_true in Hp.
  - apply list_filter_iff. intros product. cbv zeta. by rewrite !matches_toUpperCase.
Qed.

(** The options of the category select, at each render: each category of a
    product of the list is an option, once, and every option is the
    category of a product of the list. *)
Theorem category_options (products : list ProductService.Product.t) :
  NoDup (InventoryList.categories products) ∧
  (∀ category,
     category ∈ InventoryList.categories products ↔
     ∃ product, product ∈ products ∧ ProductService.Product.category product = category).
Proof.
  destruct (unique_spec (ProductService.Product.category <$> products) [] (NoDup_nil_2))
    as [Hnodup Hiff].
  assert (∀ category,
            category ∈ InventoryList.categories products ↔
            ∃ product, product ∈ products
                       ∧ ProductService.Product.category product = category) as Hcat.
  { intros category. unfold InventoryList.categories, InventoryList.unique.
    rewrite Hiff, list_elem_of_fmap. split.
    - intros [H | (product & -> & H)]; [by apply elem_of_nil in H |]. by exists product.
    - intros (product & H & <-). right. by exists product. }
  by split.
Qed.

(** ** The add form: validation and submission *)

Section AddFormValidation.

Import ProductService.ProductCreateData.

Lemma assign_if_false k v (o : gmap string string) : Js.assign_if false k v o = o.
Proof. done. Qed.

Lemma Qleb_false a b : (b < a)%Q → Js.Qleb a b = false.
Proof.
  intros Hlt. unfold Js.Qleb. destruct (Qle_bool a b) eqn:Hle; [| done].
  apply Qle_bool_iff in Hle. exfalso. by eapply Qlt_not_le.
Qed.

Lemma trim_not_blank s : Js.trim s ≠ "" → negb (Js.truthy_string (Js.trim s)) = false.
Proof. intros H. unfold Js.truthy_string. by destruct (decide (Js.trim s = "")). Qed.

Lemma trim_empty_of_empty : Js.trim "" = "".
Proof. done. Qed.

Lemma no_expiry_date_false formData date :
  expiry_date formData = Some date → Js.trim date ≠ "" →
  AddProductModal.no_expiry_date formData = false.
Proof.
  intros Hd Ht. unfold AddProductModal.no_expiry_date. rewrite Hd.
  rewrite bool_decide_eq_false_2 by done. rewrite orb_false_r.
  unfold Js.truthy_string. destruct (decide (date = "")) as [-> | ]; [| done].
  by rewrite trim_empty_of_empty in Ht.
Qed.

Lemma no_expiry_date_inv formData :
  AddProductModal.no_expiry_date formData = false →
  ∃ date, expiry_date formData = Some date ∧ date ≠ "" ∧ Js.trim date ≠ "".
Proof.
  unfold AddProductModal.no_expiry_date.
  destruct (expiry_date formData) as [date |]; [| done].
  intros [Ht Hb]%orb_false_iff. exists date. split; [done |]. split.
  - apply negb_false_iff in Ht. unfold Js.truthy_string in Ht.
    by destruct (decide (date = "")).
  - by apply bool_decide_eq_false in Hb.
Qed.

Lemma max_not_above_min_false formData :
  (∀ max, max_stock_threshold formData = Some max →
          max = 0%Z ∨ (min_stock_threshold formData < max)%Z) →
  AddProductModal.max_not_above_min formData = false.
Proof.
  intros Hmax. unfold AddProductModal.max_not_above_min.
  destruct (max_stock_threshold formData) as [max |]; [| done].
  destruct (Hmax max eq_refl) as [-> | Hlt]; [done |].
  apply andb_false_iff. right. by apply Z.leb_gt.
Qed.

Lemma add_formErrors_empty formData :
  FormRules.add_form_valid formData → AddProductModal.formErrors formData = ∅.
Proof.
  intros (Hn & Hs & Hc & Hcost & Hsell & Hq & Hmin & Hmax & Hexp).
  unfold AddProductModal.formErrors. cbv zeta.
  rewrite !trim_not_blank by done.
  rewrite (Qleb_false (cost_price formData) 0) by done.
  rewrite (Qleb_false (selling_price formData) 0) by (by eapply Qlt_trans).
  rewrite (Qleb_false (selling_price formData) (cost_price formData)) by done.
  rewrite (proj2 (Z.ltb_ge _ _) Hq), (proj2 (Z.ltb_ge _ _) Hmin).
  rewrite max_not_above_min_false by done.
  rewrite !assign_if_false.
  destruct (is_perishable formData); [| done].
  destruct (Hexp eq_refl) as (date & Hd & Ht).
  by rewrite (no_expiry_date_false _ _ Hd Ht).
Qed.

Lemma add_valid_of_no_errors formData :
  Js.no_keys (AddProductModal.formErrors formData) = true →
  FormRules.add_form_valid formData.
Proof.
  intros Hvalid.
  assert (∀ k, ¬ is_Some (AddProductModal.formErrors formData !! k)) as Hnone.
  { intros k [m Hm]. by rewrite (no_keys_true_lookup _ _ Hvalid) in Hm. }
  repeat split.
  - intros H. apply (Hnone "name"). unfold AddProductModal.formErrors. cbv zeta.
    by reported.
  - intros H. apply (Hnone "sku"). unfold AddProductModal.formErrors. cbv zeta.
    by reported.
  - intros H. apply (Hnone "category"). unfold AddProductModal.formErrors. cbv zeta.
    by reported.
  - destruct (Qlt_le_dec 0 (cost_price formData)) as [| Hle]; [done |].
    exfalso. apply (Hnone "cost_price"). unfold AddProductModal.formErrors. cbv zeta.
    by reported.
  - destruct (Qlt_le_dec (cost_price formData) (selling_price formData)) as [| Hle];
      [done |].
    exfalso. apply (Hnone "selling_price").
    rewrite (add_selling_price_error _ Hle). by eexists.
  - destruct (Z.le_gt_cases 0 (quantity_in_stock formData)) as [| Hlt]; [done |].
    exfalso. apply (Hnone "quantity_in_stock"). unfold AddProductModal.formErrors.
    cbv zeta. by reported.
  - destruct (Z.le_gt_cases 0 (min_stock_threshold formData)) as [| Hlt]; [done |].
    exfalso. apply (Hnone "min_stock_threshold"). unfold AddProductModal.formErrors.
    cbv zeta. by reported.
  - intros max Hmax. destruct (decide (max = 0%Z)) as [| Hne]; [by left | right].
    destruct (Z.lt_ge_cases (min_stock_threshold formData) max) as [| Hle]; [done |].
    exfalso. apply (Hnone "max_stock_threshold"). unfold AddProductModal.formErrors.
    cbv zeta. by reported.
  - intros Hp.
    destruct (AddProductModal.no_expiry_date formData) eqn:Hno.
    + exfalso. apply (Hnone "expiry_date"). unfold AddProductModal.formErrors.
      cbv zeta. apply assign_if_here. by rewrite Hp, Hno.
    + apply no_expiry_date_inv in Hno as (date & ? & ? & ?). by exists date.
Qed.

Lemma or_undefined_not_empty s : Js.or_undefined s ≠ Some "".
Proof.
  unfold Js.or_undefined, Js.truthy_ostring, Js.truthy_string.
  destruct s as [s |]; [| done]. destruct (decide (s = "")); congruence.
Qed.

Lemma or_Q_positive x : (0 < x)%Q → Js.or_Q (Some x) 0 = x.
Proof.
  intros Hx. unfold Js.or_Q. destruct (Qeq_bool x 0) eqn:Heq; [| done].
  apply Qeq_bool_iff in Heq. rewrite Heq in Hx. by apply Qlt_irrefl in Hx.
Qed.

Lemma or_Z_zero n : Js.or_Z (Some n) 0 = n.
Proof. unfold Js.or_Z. by destruct (Z.eqb_spec n 0). Qed.

End AddFormValidation.

(** The add form passes validation exactly when its name, SKU and category
    are not blank, its cost price is above 0 and its selling price above
    its cost price, its stock quantity and minimum threshold are not
    negative, its maximum threshold is 0 or above the minimum, and it has
    an expiry date if the product is perishable. *)
Theorem add_validateForm_iff (formData : AddProductModal.ProductFormData) :
  snd (AddProductModal.validateForm formData) = true ↔ FormRules.add_form_valid formData.
Proof.
  unfold AddProductModal.validateForm. simpl. split.
  - apply add_valid_of_no_errors.
  - intros H. by rewrite add_formErrors_empty.
Qed.

(** The product that the add form submits: it has the name, SKU, category,
    prices, stock quantity and minimum threshold of the form, which satisfy
    what the checks require; a maximum threshold only if the form has one
    that is not 0, and then above the minimum; an expiry date if it is
    perishable; and no optional text field that is the empty string. *)
Theorem add_submission_is_valid (toISOString : string → string)
    (formData : AddProductModal.ProductFormData)
    (productData : ProductService.ProductCreateData.t) :
  snd (AddProductModal.handleSubmit toISOString formData) = Some productData →
  FormRules.add_form_valid formData ∧
  ProductService.ProductCreateData.name productData
  = ProductService.ProductCreateData.name formData ∧
  ProductService.ProductCreateData.sku productData
  = ProductService.ProductCreateData.sku formData ∧
  ProductService.ProductCreateData.category productData
  = ProductService.ProductCreateData.category formData ∧
  ProductService.ProductCreateData.cost_price productData
  = ProductService.ProductCreateData.cost_price formData ∧
  ProductService.ProductCreateData.selling_price productData
  = ProductService.ProductCreateData.selling_price formData ∧
  ProductService.ProductCreateData.quantity_in_stock productData
  = ProductService.ProductCreateData.quantity_in_stock formData ∧
  ProductService.ProductCreateData.min_stock_threshold productData
  = ProductService.ProductCreateData.min_stock_threshold formData ∧
  (∀ max, ProductService.ProductCreateData.max_stock_threshold productData = Some max →
          ProductService.ProductCreateData.max_stock_threshold formData = Some max ∧
          (ProductService.ProductCreateData.min_stock_threshold productData < max)%Z) ∧
  (ProductService.ProductCreateData.is_perishable productData = true →
   is_Some (ProductService.ProductCreateData.expiry_date productData)) ∧
  Forall (λ text, text ≠ Some "")
    [ProductService.ProductCreateData.description productData;
     ProductService.ProductCreateData.barcode productData;
     ProductService.ProductCreateData.subcategory productData;
     ProductService.ProductCreateData.brand productData;
     ProductService.ProductCreateData.aisle productData;
     ProductService.ProductCreateData.shelf productData;
     ProductService.ProductCreateData.bin_location productData;
     ProductService.ProductCreateData.warehouse_id productData;
     ProductService.ProductCreateData.dimensions productData;
     ProductService.ProductCreateData.supplier_id productData;
     ProductService.ProductCreateData.supplier_sku productData].
Proof.
  unfold AddProductModal.handleSubmit, AddProductModal.validateForm.
  cbn [fst snd].
  destruct (Js.no_keys (AddProductModal.formErrors formData)) eqn:Hvalid; [| done].
  apply add_valid_of_no_errors in Hvalid.
  pose proof Hvalid as (Hn & Hs & Hc & Hcost & Hsell & Hq & Hmin & Hmax & Hexp).
  cbn [negb snd]. intros [= <-]. cbn.
  split; [done |]. repeat (split; [done |]).
  split; [by apply or_Q_positive |].
  split; [apply or_Q_positive; by eapply Qlt_trans |].
  split; [apply or_Z_zero |]. split; [apply or_Z_zero |]. split; [| split].
  - intros max.
    destruct (ProductService.ProductCreateData.max_stock_threshold formData)
      as [m |] eqn:Hm; [| done].
    destruct (Z.eqb_spec m 0); [done |]. intros [= ->]. split; [done |].
    destruct (Hmax max eq_refl) as [| Hlt]; [done |].
    destruct (Z.eqb_spec (ProductService.ProductCreateData.min_stock_threshold formData) 0);
      lia.
  - intros Hp. destruct (Hexp Hp) as (date & -> & Ht).
    unfold Js.truthy_string. destruct (decide (date = "")) as [-> | ]; [done |].
    rewrite bool_decide_eq_false_2 by done. by eexists.
  - repeat constructor; apply or_undefined_not_empty.
Qed.

(** ** The add form: its states and its dialog *)

Section AddFormStates.

Import ProductService.ProductCreateData.

Lemma assign_if_messages c k v (o : gmap string string) :
  v ≠ "" → map_Forall (λ _ message, message ≠ "") o →
  map_Forall (λ _ message, message ≠ "") (Js.assign_if c k v o).
Proof.
  intros Hv Ho. unfold Js.assign_if. destruct c; [| done].
  by apply map_Forall_insert_2.
Qed.

Lemma add_formErrors_messages formData :
  map_Forall (λ _ message, message ≠ "") (AddProductModal.formErrors formData).
Proof.
  unfold AddProductModal.formErrors. cbv zeta.
  repeat (apply assign_if_messages; [done |]).
  apply map_Forall_empty.
Qed.

Lemma add_handleSubmit_errors toISOString threw st :
  AddProductForm.errors (fst (AddProductForm.handleSubmit toISOString threw st))
  = AddProductModal.formErrors (AddProductForm.formData st).
Proof.
  unfold AddProductForm.handleSubmit, AddProductModal.handleSubmit,
    AddProductModal.validateForm.
  by destruct (Js.no_keys (AddProductModal.formErrors (AddProductForm.formData st))).
Qed.

Lemma add_handleSubmit_formData toISOString threw st :
  AddProductForm.formData (fst (AddProductForm.handleSubmit toISOString threw st))
  = AddProductForm.formData st ∨
  AddProductForm.formData (fst (AddProductForm.handleSubmit toISOString threw st))
  = AddProductModal.initialFormData.
Proof.
  unfold AddProductForm.handleSubmit, AddProductModal.handleSubmit,
    AddProductModal.validateForm.
  destruct (Js.no_keys (AddProductModal.formErrors (AddProductForm.formData st)));
    cbn; [| by left].
  destruct threw; [by left | by right].
Qed.

Lemma add_handleSubmit_valid toISOString threw st :
  FormRules.add_form_valid (AddProductForm.formData st) →
  ∃ productData,
    AddProductForm.handleSubmit toISOString threw st
    = ({| AddProductForm.formData :=
            if threw then AddProductForm.formData st
            else AddProductModal.initialFormData;
          AddProductForm.errors := ∅ |}, Some productData).
Proof.
  intros Hvalid. unfold AddProductForm.handleSubmit, AddProductModal.handleSubmit,
    AddProductModal.validateForm.
  rewrite (add_formErrors_empty _ Hvalid). cbn. by eexists.
Qed.

Lemma add_handleSubmit_invalid toISOString threw st :
  ¬ FormRules.add_form_valid (AddProductForm.formData st) →
  AddProductForm.handleSubmit toISOString threw st
  = ({| AddProductForm.formData := AddProductForm.formData st;
        AddProductForm.errors :=
          AddProductModal.formErrors (AddProductForm.formData st) |}, None).
Proof.
  intros Hinvalid. unfold AddProductForm.handleSubmit, AddProductModal.handleSubmit,
    AddProductModal.validateForm.
  destruct (Js.no_keys (AddProductModal.formErrors (AddProductForm.formData st)))
    eqn:Hkeys; [| done].
  by apply add_valid_of_no_errors in Hkeys.
Qed.

Lemma add_submission_sku toISOString formData productData :
  snd (AddProductModal.handleSubmit toISOString formData) = Some productData →
  sku productData = sku formData.
Proof.
  unfold AddProductModal.handleSubmit, AddProductModal.validateForm.
  destruct (Js.no_keys (AddProductModal.formErrors formData)); [| done].
  by intros [= <-].
Qed.

Lemma add_reachable_invariant st :
  AddProductForm.reachable st →
  JsString.toUpperCase (sku (AddProductForm.formData st))
  = sku (AddProductForm.formData st) ∧
  map_Forall (λ _ message, message ≠ "") (AddProductForm.errors st).
Proof.
  induction 1 as [| st ev _ [Hsku Herrors]].
  - split; [done | apply map_Forall_empty].
  - destruct ev as [i raw | toISOString threw].
    + split.
      * destruct i; cbn; try exact Hsku. apply toUpperCase_idempotent.
      * cbn. destruct (Js.truthy_ostring _); [by apply map_Forall_delete | done].
    + unfold AddProductForm.handle. split.
      * by destruct (add_handleSubmit_formData toISOString threw st) as [-> | ->].
      * rewrite add_handleSubmit_errors. apply add_formErrors_messages.
Qed.

End AddFormStates.

(** The SKU of the add form is in upper case, whatever is typed into the
    form and however often it is submitted, and so is the SKU of every
    product that the form submits. *)
Theorem add_form_sku_is_upper_case (st : AddProductForm.State) :
  AddProductForm.reachable st →
  JsString.toUpperCase (ProductService.ProductCreateData.sku (AddProductForm.formData st))
  = ProductService.ProductCreateData.sku (AddProductForm.formData st) ∧
  ∀ toISOString threw productData,
    snd (AddProductForm.handleSubmit toISOString threw st) = Some productData →
    JsString.toUpperCase (ProductService.ProductCreateData.sku productData)
    = ProductService.ProductCreateData.sku productData.
Proof.
  intros [Hsku _]%add_reachable_invariant. split; [exact Hsku |].
  intros toISOString threw productData. unfold AddProductForm.handleSubmit.
  destruct (AddProductModal.handleSubmit toISOString (AddProductForm.formData st))
    as [newErrors [submitted |]] eqn:Hsubmit; [| done].
  cbn. intros [= <-].
  pose proof (add_submission_sku toISOString (AddProductForm.formData st) submitted)
    as Hfields.
  rewrite Hsubmit in Hfields. by rewrite (Hfields eq_refl).
Qed.

(** A change of an input of the add form removes the error shown under that
    input and keeps the errors under the others. *)
Theorem add_form_change_clears_the_error_of_the_field (st : AddProductForm.State)
    (i : AddProductForm.Input) (raw : AddProductForm.raw_type i) :
  AddProductForm.reachable st →
  AddProductForm.errors (AddProductForm.handle st (AddProductForm.Change i raw))
    !! AddProductForm.input_name i = None ∧
  ∀ k, k ≠ AddProductForm.input_name i →
       AddProductForm.errors (AddProductForm.handle st (AddProductForm.Change i raw)) !! k
       = AddProductForm.errors st !! k.
Proof.
  intros [_ Hmessages]%add_reachable_invariant. cbn.
  destruct (AddProductForm.errors st !! AddProductForm.input_name i) as [message |] eqn:Hi.
  - assert (Js.truthy_ostring (Some message) = true) as ->.
    { unfold Js.truthy_ostring, Js.truthy_string.
      destruct (decide (message = "")) as [-> | ]; [| done].
      by apply Hmessages in Hi. }
    split; [apply lookup_delete_eq |]. intros k Hk. by apply lookup_delete_ne.
  - change (Js.truthy_ostring None) with false. by split.
Qed.

(** When the conversion of the expiry date of a form throws. *)
Lemma conversion_throws_true (toISOString : string → option string)
    (expiry_date : option string) :
  InventoryDialogs.conversion_throws toISOString expiry_date = true
  ↔ ∃ d, expiry_date = Some d ∧ Js.trim d ≠ "" ∧ toISOString d = None.
Proof.
  unfold InventoryDialogs.conversion_throws. destruct expiry_date as [d |].
  - rewrite !andb_true_iff, negb_true_iff, bool_decide_eq_false, bool_decide_eq_true.
    split.
    + intros [[_ Htrim] Hnone]. by exists d.
    + intros (d' & [= <-] & Htrim & Hnone). split; [split |]; try done.
      unfold Js.truthy_string. destruct (decide (d = "")) as [-> |]; [| done].
      by rewrite trim_empty_of_empty in Htrim.
  - split; [done |]. by intros (d & ? & _).
Qed.

(** The submit button of the add dialog, as the inventory page renders the
    dialog.  If the form passes its checks and the conversion of its expiry
    date, if it has one, does not throw, the dialog is closed and the form
    is emptied whether or not the API created the product: a created
    product is put in front of the list, and after a failed request the
    list is as before.  If the form passes its checks and the conversion of
    its expiry date throws, nothing is saved: the dialog, the list and the
    data of the form stay as they are, with no error shown.  If the form
    does not pass, the dialog, the form and the list stay as they are and
    the errors are shown. *)
Theorem add_dialog_submit (toISOString : string → option string)
    (created : option ProductService.Product.t) (st : InventoryDialogs.AddState) :
  (FormRules.add_form_valid (AddProductForm.formData (InventoryDialogs.addForm st)) →
   (∀ d, ProductService.ProductCreateData.expiry_date
           (AddProductForm.formData (InventoryDialogs.addForm st)) = Some d →
         Js.trim d ≠ "" → is_Some (toISOString d)) →
   InventoryDialogs.submitAddForm toISOString created st
   = {| InventoryDialogs.add_products :=
          match created with
          | Some newProduct => newProduct :: InventoryDialogs.add_products st
          | None => InventoryDialogs.add_products st
          end;
        InventoryDialogs.showAddModal := false;
        InventoryDialogs.addForm := AddProductForm.initial |}) ∧
  (FormRules.add_form_valid (AddProductForm.formData (InventoryDialogs.addForm st)) →
   (∃ d, ProductService.ProductCreateData.expiry_date
           (AddProductForm.formData (InventoryDialogs.addForm st)) = Some d ∧
         Js.trim d ≠ "" ∧ toISOString d = None) →
   InventoryDialogs.submitAddForm toISOString created st
   = {| InventoryDialogs.add_products := InventoryDialogs.add_products st;
        InventoryDialogs.showAddModal := InventoryDialogs.showAddModal st;
        InventoryDialogs.addForm :=
          {| AddProductForm.formData :=
               AddProductForm.formData (InventoryDialogs.addForm st);
             AddProductForm.errors := ∅ |} |}) ∧
  (¬ FormRules.add_form_valid (AddProductForm.formData (InventoryDialogs.addForm st)) →
   InventoryDialogs.submitAddForm toISOString created st
   = {| InventoryDialogs.add_products := InventoryDialogs.add_products st;
        InventoryDialogs.showAddModal := InventoryDialogs.showAddModal st;
        InventoryDialogs.addForm :=
          {| AddProductForm.formData :=
               AddProductForm.formData (InventoryDialogs.addForm st);
             AddProductForm.errors :=
               AddProductModal.formErrors
                 (AddProductForm.formData (InventoryDialogs.addForm st)) |} |} ∧
   AddProductModal.formErrors (AddProductForm.formData (InventoryDialogs.addForm st))
   ≠ ∅).
Proof.
  unfold InventoryDialogs.submitAddForm. cbv zeta. split; [| split].
  - intros Hvalid Hconverts.
    assert (InventoryDialogs.conversion_throws toISOString
              (ProductService.ProductCreateData.expiry_date
                 (AddProductForm.formData (InventoryDialogs.addForm st))) = false) as ->.
    { apply not_true_is_false. intros (d & Hd & Htrim & Hnone)%conversion_throws_true.
      destruct (Hconverts d Hd Htrim) as [iso Hiso]. congruence. }
    destruct (add_handleSubmit_valid (InventoryDialogs.converted toISOString) false _ Hvalid)
      as [productData ->].
    by destruct created.
  - intros Hvalid Hthrows%conversion_throws_true. rewrite Hthrows.
    by destruct (add_handleSubmit_valid (InventoryDialogs.converted toISOString) true _
                   Hvalid) as [productData ->].
  - intros Hinvalid. rewrite (add_handleSubmit_invalid _ _ _ Hinvalid).
    split; [done |]. intros Hempty. apply Hinvalid, add_valid_of_no_errors.
    by rewrite Hempty.
Qed.

(** ** The edit form: validation and submission *)

Section EditFormValidation.

Import ProductService.

Lemma assign_if_empty c k v (o : gmap string string) :
  Js.assign_if c k v o = ∅ ↔ c = false ∧ o = ∅.
Proof.
  unfold Js.assign_if. destruct c.
  - split; [| by intros [? _]]. intros H. by apply insert_non_empty in H.
  - by split; [| intros [_ ?]].
Qed.

Lemma no_keys_empty (o : gmap string string) : Js.no_keys o = true ↔ o = ∅.
Proof.
  unfold Js.no_keys. rewrite bool_decide_eq_true. apply map_size_empty_iff.
Qed.

Lemma blank_false (s : option string) :
  EditProductModal.blank s = false ↔ ∃ text, s = Some text ∧ Js.trim text ≠ "".
Proof.
  destruct s as [text |]; simpl.
  - unfold Js.truthy_string. destruct (decide (Js.trim text = "")) as [He | Hne].
    + split; [done |]. by intros (? & [= <-] & ?).
    + split; [| done]. intros _. by exists text.
  - split; [done |]. by intros (? & ? & _).
Qed.

Lemma Qleb_false_iff a b : Js.Qleb a b = false ↔ (b < a)%Q.
Proof.
  split; [| apply Qleb_false]. unfold Js.Qleb. intros H.
  apply Qnot_le_lt. intros Hle%Qle_bool_iff. congruence.
Qed.

Lemma or_Q_above (x : option Q) (a : Q) :
  (0 <= a)%Q → (a < Js.or_Q x 0)%Q ↔ ∃ y, x = Some y ∧ (a < y)%Q.
Proof.
  intros Ha. destruct x as [y |]; simpl.
  - destruct (Qeq_bool y 0) eqn:Hy.
    + apply Qeq_bool_iff in Hy. split.
      * intros Hlt. exfalso. by apply (Qlt_not_le _ _ Hlt).
      * intros (? & [= <-] & Hlt). exfalso. rewrite Hy in Hlt.
        by apply (Qlt_not_le _ _ Hlt).
    + split; [by exists y |]. by intros (? & [= <-] & ?).
  - split.
    + intros Hlt. exfalso. by apply (Qlt_not_le _ _ Hlt).
    + by intros (? & ? & _).
Qed.

Lemma or_Z_above (n : option Z) (a : Z) :
  (0 <= a)%Z → (a < Js.or_Z n 0)%Z ↔ ∃ m, n = Some m ∧ (a < m)%Z.
Proof.
  intros Ha. destruct n as [m |]; simpl.
  - destruct (Z.eqb_spec m 0) as [-> | Hne].
    + split; [lia |]. intros (? & [= <-] & ?). lia.
    + split; [by exists m |]. by intros (? & [= <-] & ?).
  - split; [lia |]. by intros (? & ? & _).
Qed.

Lemma edit_expiry_check (formData : PartialProduct) :
  default false (formData K_is_perishable)
  && negb (Js.truthy_ostring (formData K_expiry_date)) = false ↔
  (formData K_is_perishable = Some true →
   ∃ date, formData K_expiry_date = Some date ∧ date ≠ "").
Proof.
  destruct (formData K_is_perishable) as [[|] |]; simpl; try by split.
  destruct (formData K_expiry_date) as [date |]; simpl.
  - unfold Js.truthy_string. destruct (decide _) as [He | Hne]; simpl.
    + split; [done |]. intros H. by destruct (H eq_refl) as (? & [= <-] & ?).
    + split; [| done]. intros _ _. by exists date.
  - split; [done |]. intros H. by destruct (H eq_refl) as (? & ? & _).
Qed.

Lemma edit_formErrors_empty (formData : PartialProduct) :
  EditProductModal.formErrors formData = ∅ ↔ FormRules.edit_form_valid formData.
Proof.
  unfold EditProductModal.formErrors, FormRules.edit_form_valid. cbv zeta.
  rewrite !assign_if_empty, !blank_false, !Qleb_false_iff, edit_expiry_check.
  rewrite Z.ltb_ge, Z.leb_gt. split.
  - intros (Hexp & Hsell & Hmax & Hmin & _ & Hcost & Hc & Hs & Hn & _).
    apply or_Q_above in Hcost as (cost & Hcost & Hpos); [| done].
    rewrite Hcost in Hsell. simpl in Hsell.
    destruct (Qeq_bool cost 0) eqn:Hzero.
    { apply Qeq_bool_iff in Hzero. rewrite Hzero in Hpos.
      by apply Qlt_irrefl in Hpos. }
    apply or_Q_above in Hsell as (selling & Hselling & Hlt); [| by apply Qlt_le_weak].
    apply or_Z_above in Hmax as (max & Hmax' & Hlt'); [| done].
    repeat split; try done.
    + by exists cost, selling.
    + by exists max.
  - intros (Hn & Hs & Hc & (cost & selling & Hcost & Hselling & Hpos & Hlt)
            & Hmin & (max & Hmax & Hlt') & Hexp).
    assert (Js.or_Q (formData K_cost_price) 0 = cost) as Hc0.
    { rewrite Hcost. by apply or_Q_positive. }
    assert (Js.or_Q (formData K_selling_price) 0 = selling) as Hs0.
    { rewrite Hselling. apply or_Q_positive. by eapply Qlt_trans. }
    rewrite Hc0, Hs0. repeat split; try done.
    + apply or_Z_above; [done |]. by exists max.
    + by eapply Qlt_trans.
Qed.

End EditFormValidation.

(** The edit form passes validation exactly when its name, SKU and category
    are not blank, its cost price is above 0 and its selling price above
    its cost price, its minimum threshold (0 if there is none) is not
    negative and its maximum threshold is above it, and it has an expiry
    date if the product is perishable. *)
Theorem edit_validateForm_iff (formData : ProductService.PartialProduct) :
  snd (EditProductModal.validateForm formData) = true
  ↔ FormRules.edit_form_valid formData.
Proof.
  unfold EditProductModal.validateForm. simpl.
  by rewrite no_keys_empty, edit_formErrors_empty.
Qed.

(** ** The edit form: its states and its dialog *)

Section EditFormStates.

Import ProductService.

Lemma edit_handleSubmit_formData toISOString st :
  EditProductModal.formData (fst (EditProductModal.handleSubmit toISOString st))
  = EditProductModal.formData st.
Proof.
  unfold EditProductModal.handleSubmit, EditProductModal.validateForm. cbv zeta.
  destruct (EditProductModal.product st); [| done].
  by destruct (negb _).
Qed.

Lemma edit_handleSubmit_inv toISOString st productId updates :
  snd (EditProductModal.handleSubmit toISOString st) = Some (productId, updates) →
  ∃ p, EditProductModal.product st = Some p ∧ productId = Product.id p ∧
       FormRules.edit_form_valid (EditProductModal.formData st) ∧
       updates = EditProductModal.updatedData toISOString (EditProductModal.formData st).
Proof.
  unfold EditProductModal.handleSubmit, EditProductModal.validateForm. cbv zeta.
  destruct (EditProductModal.product st) as [p |]; [| done].
  destruct (Js.no_keys _) eqn:Hkeys; [| done]. cbn. intros [= <- <-].
  exists p. split; [done |]. split; [done |]. split; [| done].
  by apply edit_formErrors_empty, no_keys_empty.
Qed.

Lemma edit_handleSubmit_valid toISOString st p :
  EditProductModal.product st = Some p →
  FormRules.edit_form_valid (EditProductModal.formData st) →
  EditProductModal.handleSubmit toISOString st
  = ({| EditProductModal.product := Some p;
        EditProductModal.formData := EditProductModal.formData st;
        EditProductModal.errors := ∅ |},
     Some (Product.id p,
           EditProductModal.updatedData toISOString (EditProductModal.formData st))).
Proof.
  intros Hp Hvalid%edit_formErrors_empty.
  unfold EditProductModal.handleSubmit, EditProductModal.validateForm. cbv zeta.
  by rewrite Hp, Hvalid.
Qed.

Lemma edit_reachable_unset st :
  EditProductModal.reachable st →
  Forall (λ k, EditProductModal.formData st k = None)
    [K_id; K_quantity_in_stock; K_is_active; K_created_at; K_updated_at;
     K_created_by; K_stock_status; K_is_low_stock; K_is_out_of_stock].
Proof.
  induction 1 as [| st ev _ IH]; [by repeat constructor |].
  destruct ev as [[p |] | i value | toISOString]; unfold EditProductModal.handle.
  - by repeat constructor.
  - exact IH.
  - unfold EditProductModal.handleInputChange. cbn [EditProductModal.formData].
    repeat (apply Forall_cons in IH as [? IH]).
    repeat constructor; (rewrite set_key_ne; [done | by destruct i]).
  - eapply Forall_impl; [exact IH |]. intros k Hk. cbn beta.
    by rewrite edit_handleSubmit_formData.
Qed.

Lemma or_undefined_key_not_empty (s : option string) : Js.or_undefined s ≠ Some "".
Proof.
  unfold Js.or_undefined, Js.truthy_ostring, Js.truthy_string.
  destruct s as [s |]; [| done]. destruct (decide _); congruence.
Qed.

End EditFormStates.

(** An update that the edit form submits never carries the stock quantity
    of the product, nor its id, its activity flag, its dates, its creator
    or its stock status and flags: whatever the form was opened on and
    whatever was typed, these keys are absent from the update. *)
Theorem edit_update_carries_no_stock_or_record_field (st : EditProductModal.State)
    (toISOString : string → string) (productId : string)
    (updates : ProductService.PartialProduct) (k : ProductService.ProductKey) :
  EditProductModal.reachable st →
  snd (EditProductModal.handleSubmit toISOString st) = Some (productId, updates) →
  k ∈ [ProductService.K_id; ProductService.K_quantity_in_stock;
       ProductService.K_is_active; ProductService.K_created_at;
       ProductService.K_updated_at; ProductService.K_created_by;
       ProductService.K_stock_status; ProductService.K_is_low_stock;
       ProductService.K_is_out_of_stock] →
  updates k = None.
Proof.
  intros Hst (p & _ & _ & _ & ->)%edit_handleSubmit_inv Hk.
  pose proof (proj1 (Forall_forall _ _) (edit_reachable_unset st Hst) k Hk) as Hnone.
  cbn beta in Hnone. rewrite <- Hnone.
  repeat (apply elem_of_cons in Hk as [-> | Hk]; [reflexivity |]).
  by apply elem_of_nil in Hk.
Qed.

(** An update that the edit form submits is for the product that the form
    is open on, and comes from a form that passes the checks.  It carries
    the form as it is, but for the optional text fields, none of which is
    the empty string in the update, and for the expiry date, which is
    absent if the date of the form is blank and converted otherwise. *)
Theorem edit_submission_is_valid (st : EditProductModal.State)
    (toISOString : string → string) (productId : string)
    (updates : ProductService.PartialProduct) :
  snd (EditProductModal.handleSubmit toISOString st) = Some (productId, updates) →
  (∃ p, EditProductModal.product st = Some p ∧ productId = ProductService.Product.id p) ∧
  FormRules.edit_form_valid (EditProductModal.formData st) ∧
  (∀ k, k ∉ [ProductService.K_expiry_date; ProductService.K_description;
             ProductService.K_barcode; ProductService.K_subcategory;
             ProductService.K_brand; ProductService.K_aisle; ProductService.K_shelf;
             ProductService.K_bin_location; ProductService.K_warehouse_id;
             ProductService.K_dimensions; ProductService.K_supplier_id;
             ProductService.K_supplier_sku] →
        updates k = EditProductModal.formData st k) ∧
  Forall (λ text : option string, text ≠ Some "")
    [updates ProductService.K_description; updates ProductService.K_barcode;
     updates ProductService.K_subcategory; updates ProductService.K_brand;
     updates ProductService.K_aisle; updates ProductService.K_shelf;
     updates ProductService.K_bin_location; updates ProductService.K_warehouse_id;
     updates ProductService.K_dimensions; updates ProductService.K_supplier_id;
     updates ProductService.K_supplier_sku] ∧
  updates ProductService.K_expiry_date
  = match EditProductModal.formData st ProductService.K_expiry_date with
    | Some date => if decide (Js.trim date = "") then None else Some (toISOString date)
    | None => None
    end.
Proof.
  intros (p & Hp & Hid & Hvalid & ->)%edit_handleSubmit_inv.
  split; [by exists p |]. split; [done |]. split; [| split].
  - intros k Hk.
    destruct k; try reflexivity; exfalso; apply Hk; repeat constructor.
  - repeat constructor; apply or_undefined_key_not_empty.
  - change (EditProductModal.updatedData toISOString (EditProductModal.formData st)
              ProductService.K_expiry_date)
      with (match EditProductModal.formData st ProductService.K_expiry_date with
            | Some d => if Js.truthy_string d && negb (bool_decide (Js.trim d = ""))
                        then Some (toISOString d) else None
            | None => None
            end).
    destruct (EditProductModal.formData st ProductService.K_expiry_date) as [date |];
      [| done].
    unfold Js.truthy_string.
    destruct (decide (Js.trim date = "")) as [He | Hne].
    + rewrite bool_decide_eq_true_2 by done. by rewrite andb_false_r.
    + rewrite bool_decide_eq_false_2 by done.
      destruct (decide _) as [He | _]; [| done].
      exfalso. apply Hne. by rewrite He.
Qed.

(** Saving the edit form as it was opened does not always leave the product
    as it was: the update carries a minimum threshold of 10 for a product
    whose minimum is 0, a maximum threshold of 1000 for a product that has
    none (or has 0), and a warning period of 7 days for a product whose
    period is 0; any other threshold or period is sent as the product has
    it. *)
Theorem edit_unchanged_submit_applies_defaults (toISOString : string → string)
    (p : ProductService.Product.t) (st : EditProductModal.State)
    (productId : string) (updates : ProductService.PartialProduct) :
  snd (EditProductModal.handleSubmit toISOString
         (EditProductModal.handle st (EditProductModal.Open (Some p))))
  = Some (productId, updates) →
  productId = ProductService.Product.id p ∧
  updates ProductService.K_min_stock_threshold
  = Some (if (ProductService.Product.min_stock_threshold p =? 0)%Z then 10%Z
          else ProductService.Product.min_stock_threshold p) ∧
  updates ProductService.K_max_stock_threshold
  = Some (match ProductService.Product.max_stock_threshold p with
          | Some max => if (max =? 0)%Z then 1000%Z else max
          | None => 1000%Z
          end) ∧
  updates ProductService.K_days_until_expiry_warning
  = Some (if (ProductService.Product.days_until_expiry_warning p =? 0)%Z then 7%Z
          else ProductService.Product.days_until_expiry_warning p).
Proof.
  intros (p' & Hp & Hid & _ & ->)%edit_handleSubmit_inv.
  cbn in Hp. injection Hp as <-. done.
Qed.

(** The submit button of the edit dialog, as the inventory page renders the
    dialog.  If the form is open on a product and passes its checks, and the
    conversion of its expiry date, if it has one, does not throw, the dialog
    is closed and the selection cleared whether or not the API accepted the
    update: the product of the answer replaces the products with the id of
    the edited product, and after a failed request the list is as before.
    If the conversion throws, or the form is not open on a product, or does
    not pass its checks, the dialog, the selection and the list stay as they
    are. *)
Theorem edit_dialog_submit (toISOString : string → option string)
    (updated : option ProductService.Product.t) (st : InventoryDialogs.EditState) :
  (∀ p, EditProductModal.product (InventoryDialogs.editForm st) = Some p →
        FormRules.edit_form_valid (EditProductModal.formData (InventoryDialogs.editForm st)) →
        (∀ d, EditProductModal.formData (InventoryDialogs.editForm st)
                ProductService.K_expiry_date = Some d →
              Js.trim d ≠ "" → is_Some (toISOString d)) →
        InventoryDialogs.submitEditForm toISOString updated st
        = {| InventoryDialogs.edit_products :=
               match updated with
               | Some updatedProduct =>
                   InventoryPage.editedProducts (ProductService.Product.id p)
                     updatedProduct (InventoryDialogs.edit_products st)
               | None => InventoryDialogs.edit_products st
               end;
             InventoryDialogs.showEditModal := false;
             InventoryDialogs.selectedProduct := None;
             InventoryDialogs.editForm :=
               {| EditProductModal.product := None;
                  EditProductModal.formData :=
                    EditProductModal.formData (InventoryDialogs.editForm st);
                  EditProductModal.errors := ∅ |} |}) ∧
  (EditProductModal.product (InventoryDialogs.editForm st) = None ∨
   ¬ FormRules.edit_form_valid (EditProductModal.formData (InventoryDialogs.editForm st)) ∨
   (∃ d, EditProductModal.formData (InventoryDialogs.editForm st)
           ProductService.K_expiry_date = Some d ∧
         Js.trim d ≠ "" ∧ toISOString d = None) →
   InventoryDialogs.edit_products (InventoryDialogs.submitEditForm toISOString updated st)
   = InventoryDialogs.edit_products st ∧
   InventoryDialogs.showEditModal (InventoryDialogs.submitEditForm toISOString updated st)
   = InventoryDialogs.showEditModal st ∧
   InventoryDialogs.selectedProduct (InventoryDialogs.submitEditForm toISOString updated st)
   = InventoryDialogs.selectedProduct st ∧
   EditProductModal.formData
     (InventoryDialogs.editForm (InventoryDialogs.submitEditForm toISOString updated st))
   = EditProductModal.formData (InventoryDialogs.editForm st)).
Proof.
  unfold InventoryDialogs.submitEditForm. split.
  - intros p Hp Hvalid Hconverts.
    rewrite (edit_handleSubmit_valid _ _ _ Hp Hvalid).
    assert (InventoryDialogs.conversion_throws toISOString
              (EditProductModal.formData (InventoryDialogs.editForm st)
                 ProductService.K_expiry_date) = false) as ->; [| done].
    apply not_true_is_false. intros (d & Hd & Htrim & Hnone)%conversion_throws_true.
    destruct (Hconverts d Hd Htrim) as [iso Hiso]. congruence.
  - intros Hnot.
    pose proof (edit_handleSubmit_formData (InventoryDialogs.converted toISOString)
                  (InventoryDialogs.editForm st)) as Hdata.
    destruct (EditProductModal.handleSubmit (InventoryDialogs.converted toISOString)
                (InventoryDialogs.editForm st))
      as [form [[productId updates] |]] eqn:Hsubmit; [| done].
    destruct (InventoryDialogs.conversion_throws toISOString _) eqn:Hthrows; [done |].
    exfalso.
    pose proof (edit_handleSubmit_inv (InventoryDialogs.converted toISOString)
                  (InventoryDialogs.editForm st) productId updates) as Hinv.
    rewrite Hsubmit in Hinv. destruct (Hinv eq_refl) as (p & Hp & _ & Hvalid & _).
    destruct Hnot as [Hnone | [Hinvalid | Hthrown%conversion_throws_true]];
      [congruence | done | congruence].
Qed.

(** ** The product list of the inventory page *)

(** [handleDeleteProduct] removes the products with the id of the deleted
    product, and only them, and keeps the others in their order; deleting a
    product that was just added, with an id that no other product has,
    gives the list as it was before. *)
Theorem deleted_product_is_removed (productId : string)
    (prev : list ProductService.Product.t) :
  (∀ p, p ∈ InventoryList.deletedProducts productId prev
        ↔ p ∈ prev ∧ ProductService.Product.id p ≠ productId) ∧
  sublist (InventoryList.deletedProducts productId prev) prev ∧
  (∀ newProduct showAddModal,
     ProductService.Product.id newProduct = productId →
     Forall (λ p, ProductService.Product.id p ≠ productId) prev →
     InventoryList.deletedProducts productId
       (fst (InventoryList.handleAddProduct (Some newProduct) prev showAddModal))
     = prev).
Proof.
  unfold InventoryList.deletedProducts. split; [| split].
  - intros p. rewrite list_elem_of_filter. tauto.
  - apply sublist_filter.
  - intros newProduct showAddModal Hid Hfresh. cbn [InventoryList.handleAddProduct fst].
    rewrite filter_cons_False by (intros H; by apply H).
    by apply filter_all.
Qed.

(** [handleEditProduct] puts the product of the answer in the place of each
    product with the id of the edited product: the list keeps its length;
    it keeps its ids, in their order, if the answer has the id of the
    edited product; and it is unchanged if no product has that id. *)
Theorem edited_product_replaces_in_place (productId : string)
    (updatedProduct : ProductService.Product.t)
    (prev : list ProductService.Product.t) :
  length (InventoryPage.editedProducts productId updatedProduct prev) = length prev ∧
  (ProductService.Product.id updatedProduct = productId →
   ProductService.Product.id <$> InventoryPage.editedProducts productId updatedProduct prev
   = ProductService.Product.id <$> prev) ∧
  (Forall (λ p, ProductService.Product.id p ≠ productId) prev →
   InventoryPage.editedProducts productId updatedProduct prev = prev) ∧
  (∀ p, p ∈ prev → ProductService.Product.id p = productId →
        updatedProduct ∈ InventoryPage.editedProducts productId updatedProduct prev).
Proof.
  unfold InventoryPage.editedProducts. split; [apply length_fmap |]. split; [| split].
  - intros Hid. rewrite <- list_fmap_compose. apply list_fmap_ext.
    intros i p _. simpl. by destruct (decide _) as [-> |].
  - intros Hnone. induction Hnone as [| p l Hp _ IH]; [done |].
    rewrite fmap_cons, IH. by destruct (decide _).
  - intros p Hin Hid. apply list_elem_of_fmap. exists p. split; [| done].
    by destruct (decide _).
Qed.

(** ** The session *)

Section SessionProps.

Import Session.

Lemma truthy_ostring_true (s : option string) :
  Js.truthy_ostring s = true ↔ ∃ text, s = Some text ∧ text ≠ "".
Proof.
  destruct s as [text |]; simpl.
  - unfold Js.truthy_string. destruct (decide (text = "")) as [-> | Hne].
    + split; [done |]. by intros (? & [= <-] & ?).
    + split; [| done]. intros _. by exists text.
  - split; [done |]. by intros (? & ? & _).
Qed.

Lemma handle_closed m ev :
  showSessionExpiredDialog m = false → showSessionExpiredDialog (handle m ev) = false.
Proof.
  intros Hm. destruct ev; simpl; [| done | done].
  unfold triggerSessionExpired. by destruct (globalSessionExpired m).
Qed.

Lemma after_succ seconds countdown :
  fst (SessionExpiredDialog.after (S seconds) countdown)
  = Z.max 0 (countdown - Z.of_nat (S seconds)) ∧
  (snd (SessionExpiredDialog.after (S seconds) countdown) = true
   ↔ (countdown <= Z.of_nat (S seconds))%Z).
Proof.
  induction seconds as [| n [IHfst IHsnd]].
  - simpl. unfold SessionExpiredDialog.tick.
    destruct (Z.leb_spec countdown 1); simpl; split; try lia; by split; try lia.
  - change (SessionExpiredDialog.after (S (S n)) countdown)
      with (SessionExpiredDialog.tick (fst (SessionExpiredDialog.after (S n) countdown))).
    rewrite IHfst. unfold SessionExpiredDialog.tick.
    destruct (Z.leb_spec (Z.max 0 (countdown - Z.of_nat (S n))) 1); simpl;
      split; try lia; by split; try lia.
Qed.

End SessionProps.

(** [checkAuth] takes the user as authenticated exactly when the storage
    holds an access token that is not empty.  It redirects at most once,
    never to the page it is on, and on the page it redirects to it does not
    redirect again. *)
Theorem checkAuth_redirects_once (storage : gmap string string) (pathname : string) :
  (fst (Session.checkAuth storage pathname) = true
   ↔ ∃ token, storage !! "access_token" = Some token ∧ token ≠ "") ∧
  (length (snd (Session.checkAuth storage pathname)) <= 1)%nat ∧
  (∀ target, target ∈ snd (Session.checkAuth storage pathname) →
             target ≠ pathname ∧ snd (Session.checkAuth storage target) = []).
Proof.
  unfold Session.checkAuth. cbn [fst snd]. split; [apply truthy_ostring_true |].
  destruct (Js.truthy_ostring (storage !! "access_token"));
    destruct (decide (pathname = "/login")) as [-> | Hne]; simpl.
  - split; [lia |]. intros target ->%list_elem_of_singleton. by split.
  - rewrite bool_decide_eq_false_2 by done. simpl. split; [lia |].
    intros target Hin. by apply elem_of_nil in Hin.
  - split; [lia |]. intros target Hin. by apply elem_of_nil in Hin.
  - rewrite bool_decide_eq_false_2 by done. simpl. split; [lia |].
    intros target ->%list_elem_of_singleton. by split.
Qed.

(** The access token that [handleLogin] has stored is the one that
    [getAuthToken] returns.  After a logout, [checkAuth], on a page that
    runs it, finds the user not authenticated and pushes the login page,
    once.  Neither the logout nor [clearSession] removes the user id and
    the email that the login has stored. *)
Theorem login_and_logout (data : Session.LoginData) (storage : gmap string string)
    (pathname : string) :
  Session.getAuthToken (Session.handleLogin data storage)
  = Some (Session.access_token data) ∧
  (pathname ≠ "/login" →
   Session.checkAuth (Session.logout (Session.handleLogin data storage)) pathname
   = (false, ["/login"])) ∧
  Session.logout (Session.handleLogin data storage) !! "user_id"
  = Some (Session.user_id data) ∧
  Session.logout (Session.handleLogin data storage) !! "email"
  = Some (Session.email data) ∧
  Session.storage (Session.clearSession
                     (Session.initial (Session.handleLogin data storage))) !! "user_id"
  = Some (Session.user_id data) ∧
  Session.storage (Session.clearSession
                     (Session.initial (Session.handleLogin data storage))) !! "email"
  = Some (Session.email data).
Proof.
  split; [| split].
  - unfold Session.getAuthToken, Session.handleLogin.
    rewrite !lookup_insert_ne by done. by rewrite lookup_insert_eq.
  - intros Hpath. unfold Session.checkAuth, Session.logout.
    rewrite lookup_delete_eq. simpl. by rewrite bool_decide_eq_false_2.
  - unfold Session.logout, Session.clearSession, Session.handleLogin. simpl.
    rewrite !lookup_delete_ne by done.
    rewrite (lookup_insert_ne _ "email" "user_id") by done.
    by rewrite !lookup_insert_eq.
Qed.

(** The session-expired dialog of the inventory page and of the
    purchase-order page never opens: whatever requests are answered with
    status 401, the dialog stays closed.  An answer with status 401 leaves
    the dialog as it is and sets the flag of the module, after which
    [handleSessionExpired] does nothing; only while the flag is not set
    does [handleSessionExpired] open the dialog. *)
Theorem session_expired_dialog_never_opens (storage : gmap string string)
    (events : list Session.PageEvent) (m : Session.Manager) :
  Session.showSessionExpiredDialog (Session.run (Session.initial storage) events)
  = false ∧
  Session.showSessionExpiredDialog (Session.triggerSessionExpired m)
  = Session.showSessionExpiredDialog m ∧
  Session.handleSessionExpired (Session.triggerSessionExpired m)
  = Session.triggerSessionExpired m ∧
  Session.showSessionExpiredDialog (Session.handleSessionExpired m)
  = negb (Session.globalSessionExpired m) || Session.showSessionExpiredDialog m.
Proof.
  split; [| split; [| split]].
  - unfold Session.run.
    assert (Session.showSessionExpiredDialog (Session.initial storage) = false) as H0
      by done.
    revert H0. generalize (Session.initial storage).
    induction events as [| ev events IH]; intros m0 Hm0; [done |].
    simpl. by apply IH, handle_closed.
  - unfold Session.triggerSessionExpired. by destruct (Session.globalSessionExpired m).
  - unfold Session.triggerSessionExpired, Session.handleSessionExpired.
    by destruct (Session.globalSessionExpired m) eqn:Hm; [rewrite Hm |].
  - unfold Session.handleSessionExpired.
    by destruct (Session.globalSessionExpired m).
Qed.

(** The countdown of the session-expired dialog: after a number of seconds,
    one or more, it shows the seconds that are left, and 0 when none is;
    the tick of a second redirects to the login page exactly when no
    second is left after it.  From the 30 seconds that the dialog opens
    with, the first redirect is at the 30th second. *)
Theorem countdown_redirects_when_it_reaches_zero (seconds : nat) (countdown : Z) :
  fst (SessionExpiredDialog.after (S seconds) countdown)
  = Z.max 0 (countdown - Z.of_nat (S seconds)) ∧
  (snd (SessionExpiredDialog.after (S seconds) countdown) = true
   ↔ (countdown <= Z.of_nat (S seconds))%Z) ∧
  (snd (SessionExpiredDialog.after seconds SessionExpiredDialog.opened) = true
   ↔ (30 <= seconds)%nat).
Proof.
  destruct (after_succ seconds countdown) as [Hfst Hsnd].
  split; [done |]. split; [done |].
  destruct seconds as [| n]; [simpl; split; [done | lia] |].
  rewrite (proj2 (after_succ n SessionExpiredDialog.opened)).
  unfold SessionExpiredDialog.opened. lia.
Qed.

(** ** The user that creates an order *)

Section CurrentUserProps.

Variable parseUser : string → option (gmap string string).
Variable decodePayload : string → option (gmap string string).
Variable encode : string → string.

Lemma truthy_property_not_empty (o : gmap string string) k v :
  CurrentUser.truthy_property o k = Some v → v ≠ "".
Proof.
  unfold CurrentUser.truthy_property, Js.truthy_string.
  destruct (o !! k) as [text |]; [| done].
  destruct (decide (text = "")); [done |]. by intros [= <-].
Qed.

Lemma first_truthy_not_empty (o : gmap string string) ks v :
  CurrentUser.first_truthy o ks = Some v → v ≠ "".
Proof.
  induction ks as [| k ks IH]; [done |]. simpl.
  destruct (CurrentUser.truthy_property o k) as [text |] eqn:Hk; [| exact IH].
  intros [= <-]. by eapply truthy_property_not_empty.
Qed.

Lemma storedUser_not_empty storage v :
  CurrentUser.storedUser parseUser storage = Some v → v ≠ "".
Proof.
  unfold CurrentUser.storedUser.
  destruct (storage !! "user") as [userStr |]; [| done].
  destruct (Js.truthy_string userStr); [| done].
  destruct (parseUser userStr) as [user |]; [| done].
  apply first_truthy_not_empty.
Qed.

Lemma tokenUser_not_empty storage v :
  CurrentUser.tokenUser decodePayload storage = Some v → v ≠ "".
Proof.
  unfold CurrentUser.tokenUser.
  destruct (Session.getAuthToken storage) as [token |]; [| done].
  destruct (Js.truthy_string token); [| done].
  destruct (decodePayload token) as [payload |]; [| done].
  apply first_truthy_not_empty.
Qed.

Lemma getCurrentUserId_not_empty storage :
  CurrentUser.getCurrentUserId parseUser decodePayload storage ≠ "".
Proof.
  unfold CurrentUser.getCurrentUserId.
  destruct (CurrentUser.storedUser parseUser storage) as [id |] eqn:Hstored;
    [by eapply storedUser_not_empty |].
  destruct (CurrentUser.tokenUser decodePayload storage) as [id |] eqn:Htoken;
    [by eapply tokenUser_not_empty | done].
Qed.

Lemma getCurrentUserId_ext storage storage' :
  storage !! "user" = storage' !! "user" →
  storage !! "access_token" = storage' !! "access_token" →
  CurrentUser.getCurrentUserId parseUser decodePayload storage
  = CurrentUser.getCurrentUserId parseUser decodePayload storage'.
Proof.
  intros Huser Htoken.
  unfold CurrentUser.getCurrentUserId, CurrentUser.storedUser, CurrentUser.tokenUser,
    Session.getAuthToken.
  by rewrite Huser, Htoken.
Qed.

Lemma handleLogin_user data (storage : gmap string string) :
  Session.handleLogin data storage !! "user" = storage !! "user".
Proof.
  unfold Session.handleLogin.
  by rewrite lookup_insert_ne, lookup_insert_ne, lookup_insert_ne.
Qed.

Lemma handleLogin_token data (storage : gmap string string) :
  Session.handleLogin data storage !! "access_token" = Some (Session.access_token data).
Proof.
  unfold Session.handleLogin.
  by rewrite lookup_insert_ne, lookup_insert_ne, lookup_insert_eq.
Qed.

End CurrentUserProps.

(** [getCurrentUserId] never returns the empty string.  It does not depend
    on the user id and the email that the login stores: it reads the
    [user] entry of the storage, which the login does not write, and the
    payload of the access token. *)
Theorem current_user_comes_from_the_token
    (parseUser decodePayload : string → option (gmap string string))
    (storage : gmap string string) (data : Session.LoginData) (user_id email : string) :
  CurrentUser.getCurrentUserId parseUser decodePayload storage ≠ "" ∧
  CurrentUser.getCurrentUserId parseUser decodePayload (Session.handleLogin data storage)
  = CurrentUser.getCurrentUserId parseUser decodePayload
      (Session.handleLogin
         {| Session.access_token := Session.access_token data;
            Session.user_id := user_id; Session.email := email |} storage) ∧
  (storage !! "user" = None →
   CurrentUser.getCurrentUserId parseUser decodePayload (Session.handleLogin data storage)
   = default "anonymous-user"
       (CurrentUser.tokenUser decodePayload
          (<["access_token" := Session.access_token data]> ∅))).
Proof.
  split; [apply getCurrentUserId_not_empty |]. split.
  - apply getCurrentUserId_ext; [by rewrite !handleLogin_user |].
    by rewrite !handleLogin_token.
  - intros Huser.
    unfold CurrentUser.getCurrentUserId, CurrentUser.storedUser, CurrentUser.tokenUser,
      Session.getAuthToken.
    by rewrite handleLogin_user, Huser, handleLogin_token, lookup_insert_eq.
Qed.

(** With no session, an order is still sent, as created by
    ['anonymous-user']: after [clearSession], the call of the order form
    does not throw.  The call throws only when a user id is found and is
    blank. *)
Theorem order_without_session_is_by_anonymous_user
    (parseUser decodePayload : string → option (gmap string string))
    (encode : string → string) (m : Session.Manager) (storage : gmap string string)
    (orderData : PurchaseOrderService.CreatePurchaseOrderData) :
  CurrentUser.submitOrder parseUser decodePayload encode
    (Session.storage (Session.clearSession m)) orderData
  = Some {| ProductService.endpoint :=
              "/api/purchase-orders?created_by=" +:+ encode "anonymous-user";
            ProductService.method := ProductService.POST;
            ProductService.body := Some orderData |} ∧
  (CurrentUser.submitOrder parseUser decodePayload encode storage orderData = None →
   (is_Some (CurrentUser.storedUser parseUser storage) ∨
    is_Some (CurrentUser.tokenUser decodePayload storage)) ∧
   Js.trim (CurrentUser.getCurrentUserId parseUser decodePayload storage) = "").
Proof.
  split.
  - unfold CurrentUser.submitOrder, CurrentUser.getCurrentUserId,
      CurrentUser.storedUser, CurrentUser.tokenUser, Session.getAuthToken,
      Session.clearSession. cbn [Session.storage].
    rewrite lookup_delete_eq, lookup_delete_ne, lookup_delete_eq by done.
    reflexivity.
  - unfold CurrentUser.submitOrder, CurrentUser.createPurchaseOrder.
    destruct (negb _ || bool_decide _) eqn:Hblank; [| done]. intros _.
    apply orb_true_iff in Hblank as [Hempty | Htrim].
    + exfalso. apply negb_true_iff in Hempty. unfold Js.truthy_string in Hempty.
      destruct (decide _) as [He |]; [| done].
      by apply (getCurrentUserId_not_empty parseUser decodePayload storage).
    + apply bool_decide_eq_true in Htrim. split; [| done].
      unfold CurrentUser.getCurrentUserId in Htrim.
      destruct (CurrentUser.storedUser parseUser storage); [by left; eexists |].
      destruct (CurrentUser.tokenUser decodePayload storage); [by right; eexists |].
      done.
Qed.

(** ** The properties above, at the mock products *)

(** An order for the first mock product, with a supplier and a delivery
    date, is submitted as the draft has it. *)
Lemma order_submission_is_the_draft_witness :
  ∃ orderData,
    snd (CreatePurchaseOrderModal.handleSubmit (λ date, date +:+ "T00:00:00.000Z")
           (OrderForm.run CreatePurchaseOrderModal.resetForm
              [CreatePurchaseOrderModal.SelectSupplier "supplier-1";
               CreatePurchaseOrderModal.ChangeExpectedDeliveryDate "2025-01-15";
               CreatePurchaseOrderModal.ClickProduct 1700000000000
                 InventoryPage.whole_milk]))
    = Some orderData ∧
    PurchaseOrderService.supplier_id orderData = "supplier-1" ∧
    PurchaseOrderService.items orderData ≠ [].
Proof.
  eexists. split; [reflexivity |].
  destruct (order_submission_is_the_draft (λ date, date +:+ "T00:00:00.000Z")
              (OrderForm.run CreatePurchaseOrderModal.resetForm
                 [CreatePurchaseOrderModal.SelectSupplier "supplier-1";
                  CreatePurchaseOrderModal.ChangeExpectedDeliveryDate "2025-01-15";
                  CreatePurchaseOrderModal.ClickProduct 1700000000000
                    InventoryPage.whole_milk])
              _ eq_refl) as (Hsupplier & _ & _ & Hitems & _).
  split; [exact Hsupplier | exact Hitems].
Defined.


(** The first two mock products, added in the same millisecond. *)
Lemma items_of_one_millisecond_are_removed_together_witness :
  CreatePurchaseOrderModal.orderItems
    (CreatePurchaseOrderModal.removeOrderItem (pretty 1700000000000%N)
       (CreatePurchaseOrderModal.addProduct 1700000000000 InventoryPage.bread
          (CreatePurchaseOrderModal.addProduct 1700000000000 InventoryPage.whole_milk
             CreatePurchaseOrderModal.resetForm)))
  = [].
Proof.
  apply (items_of_one_millisecond_are_removed_together 1700000000000
           InventoryPage.whole_milk InventoryPage.bread
           CreatePurchaseOrderModal.resetForm).
  - simpl. discriminate.
  - constructor.
Defined.

(** Two clicks, a millisecond apart. *)
Lemma distinct_clicks_give_distinct_item_ids_witness :
  NoDup (CreatePurchaseOrderModal.id
           <$> CreatePurchaseOrderModal.orderItems
                 (OrderForm.run CreatePurchaseOrderModal.resetForm
                    [CreatePurchaseOrderModal.ClickProduct 1700000000000
                       InventoryPage.whole_milk;
                     CreatePurchaseOrderModal.ClickProduct 1700000000001
                       InventoryPage.bread])).
Proof.
  apply (distinct_clicks_give_distinct_item_ids
           [CreatePurchaseOrderModal.ClickProduct 1700000000000 InventoryPage.whole_milk;
            CreatePurchaseOrderModal.ClickProduct 1700000000001 InventoryPage.bread]).
  simpl. apply NoDup_cons. split; [| apply NoDup_singleton].
  intros H%list_elem_of_singleton. discriminate.
Defined.

(** The add form with the first mock product, bought at 0.89 and sold at
    1.29. *)
Lemma add_submission_is_valid_witness :
  ∃ productData,
    snd (AddProductModal.handleSubmit (λ date, date +:+ "T00:00:00.000Z")
           (AddProductModal.sample_form 0.89 1.29)) = Some productData ∧
    ProductService.ProductCreateData.sku productData = "MILK-001" ∧
    ProductService.ProductCreateData.description productData ≠ Some "".
Proof.
  eexists. split; [reflexivity |].
  destruct (add_submission_is_valid (λ date, date +:+ "T00:00:00.000Z")
              (AddProductModal.sample_form 0.89 1.29) _ eq_refl)
    as (_ & _ & Hsku & _ & _ & _ & _ & _ & _ & _ & Htexts).
  split; [exact Hsku |]. exact (Forall_inv Htexts).
Defined.

(** The add form after a SKU has been typed in lower case. *)
Lemma add_form_sku_is_upper_case_witness :
  JsString.toUpperCase
    (ProductService.ProductCreateData.sku
       (AddProductForm.formData
          (AddProductForm.handle AddProductForm.initial
             (AddProductForm.Change AddProductForm.I_sku "milk-001"))))
  = ProductService.ProductCreateData.sku
      (AddProductForm.formData
         (AddProductForm.handle AddProductForm.initial
            (AddProductForm.Change AddProductForm.I_sku "milk-001"))).
Proof.
  apply (add_form_sku_is_upper_case
           (AddProductForm.handle AddProductForm.initial
              (AddProductForm.Change AddProductForm.I_sku "milk-001"))).
  apply AddProductForm.reachable_step, AddProductForm.reachable_init.
Defined.

(** The add form, submitted empty and then given a name. *)
Lemma add_form_change_clears_the_error_of_the_field_witness :
  AddProductForm.errors
    (AddProductForm.handle
       (AddProductForm.handle AddProductForm.initial
          (AddProductForm.Submit (λ date, date +:+ "T00:00:00.000Z") false))
       (AddProductForm.Change AddProductForm.I_name "Whole Milk 1L"))
  !! "name" = None.
Proof.
  apply (add_form_change_clears_the_error_of_the_field
           (AddProductForm.handle AddProductForm.initial
              (AddProductForm.Submit (λ date, date +:+ "T00:00:00.000Z") false))
           AddProductForm.I_name "Whole Milk 1L").
  apply AddProductForm.reachable_step, AddProductForm.reachable_init.
Defined.

(** The edit form, opened on the first mock product and submitted. *)
Lemma edit_update_carries_no_stock_or_record_field_witness :
  EditProductModal.updatedData (λ date, date +:+ "T00:00:00.000Z")
    (EditProductModal.populate InventoryPage.whole_milk)
    ProductService.K_quantity_in_stock
  = None.
Proof.
  apply (edit_update_carries_no_stock_or_record_field
           (EditProductModal.handle EditProductModal.initial
              (EditProductModal.Open (Some InventoryPage.whole_milk)))
           (λ date, date +:+ "T00:00:00.000Z") "1"
           (EditProductModal.updatedData (λ date, date +:+ "T00:00:00.000Z")
              (EditProductModal.populate InventoryPage.whole_milk))
           ProductService.K_quantity_in_stock).
  - apply EditProductModal.reachable_step, EditProductModal.reachable_init.
  - reflexivity.
  - repeat constructor.
Defined.

(** The update of that submission: the form passes the checks, and the
    expiry date is converted. *)
Lemma edit_submission_is_valid_witness :
  FormRules.edit_form_valid (EditProductModal.populate InventoryPage.whole_milk) ∧
  EditProductModal.updatedData (λ date, date +:+ "T00:00:00.000Z")
    (EditProductModal.populate InventoryPage.whole_milk) ProductService.K_expiry_date
  = Some "2024-12-15T00:00:00.000Z".
Proof.
  destruct (edit_submission_is_valid
              (EditProductModal.handle EditProductModal.initial
                 (EditProductModal.Open (Some InventoryPage.whole_milk)))
              (λ date, date +:+ "T00:00:00.000Z") "1"
              (EditProductModal.updatedData (λ date, date +:+ "T00:00:00.000Z")
                 (EditProductModal.populate InventoryPage.whole_milk))
              eq_refl) as (_ & Hvalid & _ & _ & Hdate).
  split; [exact Hvalid |]. exact Hdate.
Defined.

(** The first mock product has no maximum threshold: the update of an
    unchanged form sets it to 1000. *)
Lemma edit_unchanged_submit_applies_defaults_witness :
  EditProductModal.updatedData (λ date, date +:+ "T00:00:00.000Z")
    (EditProductModal.populate InventoryPage.whole_milk)
    ProductService.K_max_stock_threshold
  = Some 1000%Z.
Proof.
  apply (edit_unchanged_submit_applies_defaults (λ date, date +:+ "T00:00:00.000Z")
           InventoryPage.whole_milk EditProductModal.initial "1"
           (EditProductModal.updatedData (λ date, date +:+ "T00:00:00.000Z")
              (EditProductModal.populate InventoryPage.whole_milk))).
  reflexivity.
Defined.
